(** * SCION control-plane PKI: certificate issuance and chain renewal

    A shallow embedding of

    - package [cppki]: [CAPolicy.CreateChain] and [SubjectKeyID]
      (go/lib/scrypto/cppki, file ca.go), and
    - package [certs]: the [renew] command of scion-pki
      (go/scion-pki/certs, file renew.go),

    together with the properties the specification states about them.

    Conventions.  Go values are modelled by the data they carry:
    byte slices are lists of 8-bit integers, [time.Time] is the number of
    nanoseconds since Go's zero instant, [*big.Int] is [Z].  A Go call
    that returns [(v, err)] is a [reply]; the outcome of a function of
    the program is a [result], where a run-time panic (nil dereference,
    index out of range, explicit [panic]) is a third case, so that "fails
    with an error" and "crashes" stay apart.  Calls with an
    observable effect are recorded in a trace of events. *)

From Stdlib Require Import ZArith String Ascii List Bool Lia.
Import ListNotations.

Local Open Scope string_scope.
Local Open Scope Z_scope.
Local Open Scope list_scope.

Set Implicit Arguments.

(* ================================================================== *)
(** * Errors, results and the trace monad *)

(** [serrors.New] and [serrors.WrapStr] build the errors of this
    repository (their logging context is not represented); [Foreign] stands
    for an error value produced outside of it (standard library, gRPC,
    file system). *)
Inductive error : Type :=
| New (msg : string)
| WrapStr (msg : string) (cause : error)
| Foreign (msg : string).

Inductive result (A : Type) : Type :=
| Ok (a : A)
| Err (e : error)
| Panic (msg : string).

Arguments Ok {A} a.
Arguments Err {A} e.
Arguments Panic {A} msg.

(** What a Go function returning [(v, err)] gives back. *)
Inductive reply (A : Type) : Type :=
| Done (a : A)
| Failed (e : error).

Arguments Done {A} a.
Arguments Failed {A} e.

Definition of_reply {A} (r : reply A) : result A :=
  match r with
  | Done a => Ok a
  | Failed e => Err e
  end.

Definition is_Ok {A} (r : result A) : bool :=
  match r with Ok _ => true | _ => false end.

Definition is_Err {A} (r : result A) : bool :=
  match r with Err _ => true | _ => false end.

(** A computation yields the events it performed and its outcome. *)
Definition M (E A : Type) : Type := (list E * result A)%type.

Definition ret {E A} (a : A) : M E A := ([], Ok a).

Definition bind {E A B} (m : M E A) (f : A -> M E B) : M E B :=
  match m with
  | (t, Ok a) => let '(t', r) := f a in (t ++ t', r)
  | (t, Err e) => (t, Err e)
  | (t, Panic s) => (t, Panic s)
  end.

Definition emit {E} (e : E) : M E unit := ([e], Ok tt).
Definition fail {E A} (e : error) : M E A := ([], Err e).
Definition panic {E A} (s : string) : M E A := ([], Panic s).
Definition lift {E A} (r : result A) : M E A := ([], r).

(** [ask r]: a call that returns [r]; [call ev r]: the same, recorded in
    the trace as [ev]. *)
Definition ask {E A} (r : reply A) : M E A := ([], of_reply r).
Definition call {E A} (ev : E) (r : reply A) : M E A := ([ev], of_reply r).

(** [wrap msg m] is the Go idiom
    [if err != nil { return serrors.WrapStr(msg, err) }]. *)
Definition wrap {E A} (msg : string) (m : M E A) : M E A :=
  match m with
  | (t, Err e) => (t, Err (WrapStr msg e))
  | other => other
  end.

Definition trace {E A} (m : M E A) : list E := fst m.
Definition outcome {E A} (m : M E A) : result A := snd m.

Declare Scope go_scope.
Delimit Scope go_scope with go.
Notation "x <- m ;; k" := (bind m (fun x => k))
  (at level 61, m at next level, right associativity) : go_scope.
Notation "m ;;; k" := (bind m (fun _ => k))
  (at level 61, right associativity) : go_scope.

(* ================================================================== *)
(** * Bytes and integers *)

Definition byte := Z.
Definition bytes := list byte.

(** Big-endian digits of a non-negative integer in base 256, without
    leading zeros: the [Bytes] method of [big.Int] (absolute value). *)
Fixpoint be_digits (fuel : nat) (x : Z) (acc : bytes) : bytes :=
  match fuel with
  | O => acc
  | S fuel' =>
      if x <=? 0 then acc
      else be_digits fuel' (x / 256) (x mod 256 :: acc)
  end.

Definition big_Bytes (x : Z) : bytes :=
  let a := Z.abs x in be_digits (Z.to_nat (Z.log2 a) + 1) a [].

(** The [SetBytes] method of [big.Int]: the big-endian unsigned value of a
    slice. *)
Definition big_SetBytes (b : bytes) : Z :=
  fold_left (fun acc x => acc * 256 + x) b 0.

(** The value written big-endian into exactly [n] bytes. *)
Fixpoint be_fixed (n : nat) (x : Z) : bytes :=
  match n with
  | O => []
  | S n' => be_fixed n' (x / 256) ++ [x mod 256]
  end.

(** Lower-case hexadecimal, as [fmt]'s [%x] prints it. *)
Definition hex_digit (d : Z) : string :=
  String.substring (Z.to_nat d) 1 "0123456789abcdef".

(** [%x] on a byte slice: two digits per byte. *)
Definition fmt_x_bytes (b : bytes) : string :=
  String.concat "" (map (fun x => (hex_digit (x / 16) ++ hex_digit (x mod 16))%string) b).

Fixpoint digits_of (base : Z) (fuel : nat) (x : Z) (acc : string) : string :=
  match fuel with
  | O => acc
  | S fuel' =>
      let acc' := (hex_digit (x mod base) ++ acc)%string in
      if x / base =? 0 then acc' else digits_of base fuel' (x / base) acc'
  end.

(** [%d] and [%x] on an unsigned integer. *)
Definition fmt_d (x : Z) : string := digits_of 10 (Z.to_nat (Z.log2 x) + 1) x "".
Definition fmt_x (x : Z) : string := digits_of 16 (Z.to_nat (Z.log2 x) + 1) x "".

(* ================================================================== *)
(** * crypto/sha1 *)

(** The standard library's SHA-1 ([sha1.Sum]), on 32-bit words held in
    [Z] with the wrap-around written out. *)
Module sha1.

Definition mask32 : Z := 0xffffffff.
Definition w32 (x : Z) : Z := Z.land x mask32.
Definition add32 (x y : Z) : Z := w32 (x + y).
Definition not32 (x : Z) : Z := Z.lxor x mask32.
Definition rotl32 (n x : Z) : Z :=
  w32 (Z.lor (Z.shiftl x n) (Z.shiftr x (32 - n))).

(** Message padding: a 1 bit, zeros up to 56 mod 64, the bit length on
    eight bytes. *)
Definition pad (msg : bytes) : bytes :=
  let len := Z.of_nat (length msg) in
  let k := (55 - len) mod 64 in
  msg ++ [0x80] ++ repeat 0 (Z.to_nat k) ++ be_fixed 8 (8 * len).

Fixpoint words (fuel : nat) (b : bytes) : list Z :=
  match fuel, b with
  | S fuel', b0 :: b1 :: b2 :: b3 :: rest =>
      Z.lor (Z.shiftl b0 24) (Z.lor (Z.shiftl b1 16) (Z.lor (Z.shiftl b2 8) b3))
      :: words fuel' rest
  | _, _ => []
  end.

(** The message schedule, newest word first. *)
Fixpoint schedule (n : nat) (w : list Z) : list Z :=
  match n with
  | O => w
  | S n' =>
      let x := Z.lxor (nth 2 w 0) (Z.lxor (nth 7 w 0) (Z.lxor (nth 13 w 0) (nth 15 w 0))) in
      schedule n' (rotl32 1 x :: w)
  end.

Record digest : Type :=
  { h0 : Z; h1 : Z; h2 : Z; h3 : Z; h4 : Z }.

Definition init : digest :=
  {| h0 := 0x67452301; h1 := 0xEFCDAB89; h2 := 0x98BADCFE;
     h3 := 0x10325476; h4 := 0xC3D2E1F0 |}.

Definition round (i : Z) (s : digest) (w : Z) : digest :=
  let '(a, b, c, d, e) := (h0 s, h1 s, h2 s, h3 s, h4 s) in
  let '(f, k) :=
    if i <? 20 then (Z.lor (Z.land b c) (Z.land (not32 b) d), 0x5A827999)
    else if i <? 40 then (Z.lxor b (Z.lxor c d), 0x6ED9EBA1)
    else if i <? 60 then (Z.lor (Z.land (Z.lor b c) d) (Z.land b c), 0x8F1BBCDC)
    else (Z.lxor b (Z.lxor c d), 0xCA62C1D6) in
  let t := add32 (add32 (add32 (add32 (rotl32 5 a) f) e) w) k in
  {| h0 := t; h1 := a; h2 := rotl32 30 b; h3 := c; h4 := d |}.

Fixpoint rounds (i : Z) (s : digest) (ws : list Z) : digest :=
  match ws with
  | [] => s
  | w :: ws' => rounds (i + 1) (round i s w) ws'
  end.

Definition block (s : digest) (chunk : list Z) : digest :=
  let ws := rev (schedule 64 (rev chunk)) in
  let r := rounds 0 s ws in
  {| h0 := add32 (h0 s) (h0 r); h1 := add32 (h1 s) (h1 r);
     h2 := add32 (h2 s) (h2 r); h3 := add32 (h3 s) (h3 r);
     h4 := add32 (h4 s) (h4 r) |}.

Fixpoint blocks (fuel : nat) (s : digest) (ws : list Z) : digest :=
  match fuel, ws with
  | S fuel', _ :: _ => blocks fuel' (block s (firstn 16 ws)) (skipn 16 ws)
  | _, _ => s
  end.

Definition Sum (msg : bytes) : bytes :=
  let p := pad msg in
  let ws := words (length p) p in
  let s := blocks (length ws) init ws in
  be_fixed 4 (h0 s) ++ be_fixed 4 (h1 s) ++ be_fixed 4 (h2 s)
    ++ be_fixed 4 (h3 s) ++ be_fixed 4 (h4 s).

Definition Size : nat := 20.

End sha1.

Definition ascii_bytes (s : string) : bytes :=
  map (fun c => Z.of_nat (nat_of_ascii c)) (list_ascii_of_string s).


(* ================================================================== *)
(** * Standard-library data: time, keys, names, certificates *)

(** [time.Time] as nanoseconds since the zero instant, [time.Duration] as
    signed nanoseconds. *)
Definition Time := Z.
Definition Duration := Z.

Definition time_IsZero (t : Time) : bool := t =? 0.
Definition time_Add (t : Time) (d : Duration) : Time := t + d.

Definition Hour : Duration := 3600 * 1000000000.
Definition Second : Duration := 1000000000.

(** The instant that the DER encoding of a time holds: UTCTime and
    GeneralizedTime are written to the second, the nanoseconds are
    dropped. *)
Definition time_DER (t : Time) : Time := t - t mod Second.

(** crypto/elliptic's named curves. *)
Inductive Curve : Type := P224 | P256 | P384 | P521.

Definition BitSize (c : Curve) : Z :=
  match c with P224 => 224 | P256 => 256 | P384 => 384 | P521 => 521 end.

(** [crypto.PublicKey] is an empty interface: the implementations the
    standard library's x509 knows, or any other value (nil included). *)
Inductive PublicKey : Type :=
| ECDSAPublicKey (curve : Curve) (X Y : Z)
| RSAPublicKey (N E : Z)
| Ed25519PublicKey (key : bytes)
| OtherPublicKey.

Definition bytes_eqb (a b : bytes) : bool :=
  if list_eq_dec Z.eq_dec a b then true else false.

(** [elliptic.Marshal]: the uncompressed point, [4 || X || Y], each
    coordinate on [(BitSize+7)/8] bytes.  A coordinate that does not fit
    the buffer makes the library panic. *)
Definition elliptic_Marshal (c : Curve) (x y : Z) : result bytes :=
  let byteLen := Z.to_nat ((BitSize c + 7) / 8) in
  if (Nat.leb (length (big_Bytes x)) byteLen && Nat.leb (length (big_Bytes y)) byteLen)%bool
  then Ok (4 :: be_fixed byteLen (Z.abs x) ++ be_fixed byteLen (Z.abs y))
  else Panic "math/big: buffer too small to fit value".

(** [crypto.Signer]: the public half, and whether signing fails (a
    hardware-backed key can). *)
Record Signer : Type :=
  { Public : PublicKey;
    SignError : option error }.

Module pkix.

Definition ObjectIdentifier := list Z.

Definition oid_eqb (a b : ObjectIdentifier) : bool :=
  if list_eq_dec Z.eq_dec a b then true else false.

Record AttributeTypeAndValue : Type :=
  { Type_ : ObjectIdentifier;
    Value : string }.

Definition atv_eqb (a b : AttributeTypeAndValue) : bool :=
  oid_eqb (Type_ a) (Type_ b) && String.eqb (Value a) (Value b).

Record Name : Type :=
  { Country : list string;
    Organization : list string;
    OrganizationalUnit : list string;
    Locality : list string;
    Province : list string;
    StreetAddress : list string;
    PostalCode : list string;
    SerialNumber : string;
    CommonName : string;
    Names : list AttributeTypeAndValue;
    ExtraNames : list AttributeTypeAndValue }.

(** The zero value of [Name]. *)
Definition emptyName : Name :=
  {| Country := []; Organization := []; OrganizationalUnit := [];
     Locality := []; Province := []; StreetAddress := []; PostalCode := [];
     SerialNumber := ""; CommonName := ""; Names := []; ExtraNames := [] |}.

Fixpoint list_eqb {A} (eqb : A -> A -> bool) (l l' : list A) : bool :=
  match l, l' with
  | [], [] => true
  | x :: r, x' :: r' => eqb x x' && list_eqb eqb r r'
  | _, _ => false
  end.

Definition Name_eqb (a b : Name) : bool :=
  list_eqb String.eqb (Country a) (Country b)
  && list_eqb String.eqb (Organization a) (Organization b)
  && list_eqb String.eqb (OrganizationalUnit a) (OrganizationalUnit b)
  && list_eqb String.eqb (Locality a) (Locality b)
  && list_eqb String.eqb (Province a) (Province b)
  && list_eqb String.eqb (StreetAddress a) (StreetAddress b)
  && list_eqb String.eqb (PostalCode a) (PostalCode b)
  && String.eqb (SerialNumber a) (SerialNumber b)
  && String.eqb (CommonName a) (CommonName b)
  && list_eqb atv_eqb (Names a) (Names b)
  && list_eqb atv_eqb (ExtraNames a) (ExtraNames b).

Definition with_ExtraNames (n : Name) (extra : list AttributeTypeAndValue) : Name :=
  {| Country := Country n; Organization := Organization n;
     OrganizationalUnit := OrganizationalUnit n; Locality := Locality n;
     Province := Province n; StreetAddress := StreetAddress n;
     PostalCode := PostalCode n; SerialNumber := SerialNumber n;
     CommonName := CommonName n; Names := Names n; ExtraNames := extra |}.

(** The attributes that have a field of their own in [Name]. *)
Definition oidCountry : ObjectIdentifier := [2; 5; 4; 6].
Definition oidOrganization : ObjectIdentifier := [2; 5; 4; 10].
Definition oidOrganizationalUnit : ObjectIdentifier := [2; 5; 4; 11].
Definition oidCommonName : ObjectIdentifier := [2; 5; 4; 3].
Definition oidSerialNumber : ObjectIdentifier := [2; 5; 4; 5].
Definition oidLocality : ObjectIdentifier := [2; 5; 4; 7].
Definition oidProvince : ObjectIdentifier := [2; 5; 4; 8].
Definition oidStreetAddress : ObjectIdentifier := [2; 5; 4; 9].
Definition oidPostalCode : ObjectIdentifier := [2; 5; 4; 17].

Definition RelativeDistinguishedNameSET := list AttributeTypeAndValue.
Definition RDNSequence := list RelativeDistinguishedNameSET.

Definition hasType (oid : ObjectIdentifier) (atv : AttributeTypeAndValue) : bool :=
  oid_eqb (Type_ atv) oid.

Definition oidInAttributeTypeAndValue (oid : ObjectIdentifier)
    (atv : list AttributeTypeAndValue) : bool :=
  existsb (hasType oid) atv.

(** [appendRDNs]: one relative distinguished name that holds the
    values, unless there is no value or [ExtraNames] has an attribute of
    the type. *)
Definition appendRDNs (n : Name) (in_ : RDNSequence) (values : list string)
    (oid : ObjectIdentifier) : RDNSequence :=
  if (Nat.eqb (length values) 0 || oidInAttributeTypeAndValue oid (ExtraNames n))%bool
  then in_
  else in_ ++ [map (fun value => {| Type_ := oid; Value := value |}) values].

(** [Name.ToRDNSequence]: what is marshaled of a name.  [Names] is not.
    (A name of several values is a SET OF, whose elements DER orders by
    their encoding; they are kept here in the order of the field.) *)
Definition ToRDNSequence (n : Name) : RDNSequence :=
  let ret := appendRDNs n [] (Country n) oidCountry in
  let ret := appendRDNs n ret (Province n) oidProvince in
  let ret := appendRDNs n ret (Locality n) oidLocality in
  let ret := appendRDNs n ret (StreetAddress n) oidStreetAddress in
  let ret := appendRDNs n ret (PostalCode n) oidPostalCode in
  let ret := appendRDNs n ret (Organization n) oidOrganization in
  let ret := appendRDNs n ret (OrganizationalUnit n) oidOrganizationalUnit in
  let ret := if String.eqb (CommonName n) "" then ret
             else appendRDNs n ret [CommonName n] oidCommonName in
  let ret := if String.eqb (SerialNumber n) "" then ret
             else appendRDNs n ret [SerialNumber n] oidSerialNumber in
  ret ++ map (fun atv => [atv]) (ExtraNames n).

(** One attribute read into a name: it is appended to [Names], and to
    the field of its type when it has one (the common name and the
    serial number hold the last one read). *)
Definition fillAttribute (n : Name) (atv : AttributeTypeAndValue) : Name :=
  let add (oid : ObjectIdentifier) (field : list string) : list string :=
    if hasType oid atv then field ++ [Value atv] else field in
  let set (oid : ObjectIdentifier) (field : string) : string :=
    if hasType oid atv then Value atv else field in
  {| Country := add oidCountry (Country n);
     Organization := add oidOrganization (Organization n);
     OrganizationalUnit := add oidOrganizationalUnit (OrganizationalUnit n);
     Locality := add oidLocality (Locality n);
     Province := add oidProvince (Province n);
     StreetAddress := add oidStreetAddress (StreetAddress n);
     PostalCode := add oidPostalCode (PostalCode n);
     SerialNumber := set oidSerialNumber (SerialNumber n);
     CommonName := set oidCommonName (CommonName n);
     Names := Names n ++ [atv];
     ExtraNames := ExtraNames n |}.

(** [Name.FillFromRDNSequence]. *)
Definition FillFromRDNSequence (n : Name) (rdns : RDNSequence) : Name :=
  fold_left (fun n rdn => fold_left fillAttribute rdn n) rdns n.

(** A name as it is read back from its encoding: every attribute is in
    [Names], and [ExtraNames] is empty. *)
Definition reparsed (n : Name) : Name :=
  FillFromRDNSequence emptyName (ToRDNSequence n).


Record Extension : Type :=
  { Id : ObjectIdentifier;
    Critical : bool;
    Value_ : bytes }.

End pkix.

Module x509.

Inductive SignatureAlgorithm : Type :=
| UnknownSignatureAlgorithm
| SHA256WithRSA | SHA384WithRSA | SHA512WithRSA
| ECDSAWithSHA1 | ECDSAWithSHA256 | ECDSAWithSHA384 | ECDSAWithSHA512
| PureEd25519.

Inductive PublicKeyAlgorithm : Type := RSA | ECDSA | Ed25519.

Definition PublicKeyAlgorithm_eqb (a b : PublicKeyAlgorithm) : bool :=
  match a, b with
  | RSA, RSA | ECDSA, ECDSA | Ed25519, Ed25519 => true
  | _, _ => false
  end.

Inductive ExtKeyUsage : Type :=
| ExtKeyUsageAny | ExtKeyUsageServerAuth | ExtKeyUsageClientAuth
| ExtKeyUsageCodeSigning | ExtKeyUsageEmailProtection
| ExtKeyUsageTimeStamping | ExtKeyUsageOCSPSigning.

Definition ExtKeyUsage_eqb (a b : ExtKeyUsage) : bool :=
  match a, b with
  | ExtKeyUsageAny, ExtKeyUsageAny
  | ExtKeyUsageServerAuth, ExtKeyUsageServerAuth
  | ExtKeyUsageClientAuth, ExtKeyUsageClientAuth
  | ExtKeyUsageCodeSigning, ExtKeyUsageCodeSigning
  | ExtKeyUsageEmailProtection, ExtKeyUsageEmailProtection
  | ExtKeyUsageTimeStamping, ExtKeyUsageTimeStamping
  | ExtKeyUsageOCSPSigning, ExtKeyUsageOCSPSigning => true
  | _, _ => false
  end.

(** The [KeyUsage] bit set; [KeyUsageDigitalSignature] is bit 0. *)
Definition KeyUsageDigitalSignature : Z := 1.

(** A signature, symbolically: the key that verifies it and the
    algorithm it was made under. *)
Record Sig : Type :=
  { sig_key : PublicKey;
    sig_algorithm : SignatureAlgorithm }.

Record Certificate : Type :=
  { SignatureAlgorithm_ : SignatureAlgorithm;
    Signature : option Sig;
    Version : Z;
    SerialNumber : Z;
    Issuer : pkix.Name;
    Subject : pkix.Name;
    NotBefore : Time;
    NotAfter : Time;
    KeyUsage : Z;
    ExtKeyUsage_ : list ExtKeyUsage;
    BasicConstraintsValid : bool;
    IsCA : bool;
    SubjectKeyId : bytes;
    AuthorityKeyId : bytes;
    PublicKey_ : PublicKey }.

Record CertificateRequest : Type :=
  { csr_Subject : pkix.Name;
    csr_PublicKey : PublicKey;
    csr_Extensions : list pkix.Extension;
    csr_ExtraExtensions : list pkix.Extension }.

(** DER data, symbolically: the encoding of a certificate, or bytes that
    are not one. *)
Inductive DER : Type :=
| DERCertificate (c : Certificate)
| DEROther (b : bytes).

(** The signing parameters [CreateCertificate] selects
    ([signingParamsForPublicKey]): the default of the key when no
    algorithm is requested, else the requested one, which must be of the
    key's type. *)
Definition keyType (pub : PublicKey) : option PublicKeyAlgorithm :=
  match pub with
  | ECDSAPublicKey _ _ _ => Some ECDSA
  | RSAPublicKey _ _ => Some RSA
  | Ed25519PublicKey _ => Some Ed25519
  | OtherPublicKey => None
  end.

Definition defaultAlgorithm (pub : PublicKey) : SignatureAlgorithm :=
  match pub with
  | RSAPublicKey _ _ => SHA256WithRSA
  | ECDSAPublicKey P224 _ _ | ECDSAPublicKey P256 _ _ => ECDSAWithSHA256
  | ECDSAPublicKey P384 _ _ => ECDSAWithSHA384
  | ECDSAPublicKey P521 _ _ => ECDSAWithSHA512
  | Ed25519PublicKey _ => PureEd25519
  | OtherPublicKey => UnknownSignatureAlgorithm
  end.

Definition algorithmKeyType (a : SignatureAlgorithm) : option PublicKeyAlgorithm :=
  match a with
  | UnknownSignatureAlgorithm => None
  | SHA256WithRSA | SHA384WithRSA | SHA512WithRSA => Some RSA
  | ECDSAWithSHA1 | ECDSAWithSHA256 | ECDSAWithSHA384 | ECDSAWithSHA512 => Some ECDSA
  | PureEd25519 => Some Ed25519
  end.

Definition signingParamsForPublicKey (pub : PublicKey)
    (requested : SignatureAlgorithm) : reply SignatureAlgorithm :=
  match keyType pub with
  | None => Failed (Foreign "x509: only RSA, ECDSA and Ed25519 keys supported")
  | Some pubType =>
      match algorithmKeyType requested with
      | None => Done (defaultAlgorithm pub)
      | Some kt =>
          if PublicKeyAlgorithm_eqb kt pubType then Done requested
          else Failed (Foreign "x509: requested SignatureAlgorithm does not match private key type")
      end
  end.

(** [x509.CreateCertificate template parent pub priv]: the fields taken
    from the template, the issuer from the parent's subject, the
    authority key id from the parent when it has a subject key id and
    the certificate is not self-issued, signed by [priv].  The result
    stands for the encoding, so its fields are what the encoding holds:
    the times to the second, the subject as [ToRDNSequence] marshals it
    and [FillFromRDNSequence] reads it back.  The issuer is the subject
    of the parent as the parent's own encoding has it ([RawSubject]). *)
Definition CreateCertificate (template parent : Certificate)
    (pub : PublicKey) (priv : Signer) : reply DER :=
  match signingParamsForPublicKey (Public priv) (SignatureAlgorithm_ template) with
  | Done algo =>
      match keyType pub, SignError priv with
      | None, _ => Failed (Foreign "x509: unsupported public key type")
      | Some _, Some e => Failed e
      | Some _, None =>
          let aki :=
            if (negb (pkix.Name_eqb (Subject parent) (pkix.reparsed (Subject template)))
                && negb (Nat.eqb (length (SubjectKeyId parent)) 0))%bool
            then SubjectKeyId parent else AuthorityKeyId template in
          Done (DERCertificate
                {| SignatureAlgorithm_ := algo;
                   Signature := Some {| sig_key := Public priv; sig_algorithm := algo |};
                   Version := 3;
                   SerialNumber := SerialNumber template;
                   Issuer := Subject parent;
                   Subject := pkix.reparsed (Subject template);
                   NotBefore := time_DER (NotBefore template);
                   NotAfter := time_DER (NotAfter template);
                   KeyUsage := KeyUsage template;
                   ExtKeyUsage_ := ExtKeyUsage_ template;
                   BasicConstraintsValid := BasicConstraintsValid template;
                   IsCA := (BasicConstraintsValid template && IsCA template)%bool;
                   SubjectKeyId := SubjectKeyId template;
                   AuthorityKeyId := aki;
                   PublicKey_ := pub |})
      end
  | Failed e => Failed e
  end.

Definition ParseCertificate (raw : DER) : reply Certificate :=
  match raw with
  | DERCertificate c => Done c
  | DEROther _ => Failed (Foreign "x509: malformed certificate")
  end.

End x509.

(* ================================================================== *)
(** * Strings and paths *)

Definition nl : string := String (ascii_of_nat 10) EmptyString.

(** [strings.Split] on a one-character separator. *)
Fixpoint split (sep : ascii) (s : string) : list string :=
  match s with
  | EmptyString => [EmptyString]
  | String c r =>
      if Ascii.eqb c sep then EmptyString :: split sep r
      else match split sep r with
           | h :: t => String c h :: t
           | [] => [String c EmptyString]
           end
  end.

Definition digit_value (c : ascii) : option Z :=
  let n := Z.of_nat (nat_of_ascii c) in
  if (48 <=? n) && (n <=? 57) then Some (n - 48)
  else if (97 <=? n) && (n <=? 102) then Some (n - 87)
  else if (65 <=? n) && (n <=? 70) then Some (n - 55)
  else None.

Fixpoint parse_digits (base : Z) (s : string) (acc : Z) : option Z :=
  match s with
  | EmptyString => Some acc
  | String c r =>
      match digit_value c with
      | Some d => if d <? base then parse_digits base r (acc * base + d) else None
      | None => None
      end
  end.

(** [strconv.ParseUint s base bits] for an explicit base 10 or 16. *)
Definition ParseUint (s : string) (base bits : Z) : reply Z :=
  match s with
  | EmptyString => Failed (Foreign "strconv.ParseUint: invalid syntax")
  | _ =>
      match parse_digits base s 0 with
      | Some v => if v <? 2 ^ bits then Done v
                  else Failed (Foreign "strconv.ParseUint: value out of range")
      | None => Failed (Foreign "strconv.ParseUint: invalid syntax")
      end
  end.

(** path/filepath on a Unix system. *)
Module filepath.

Definition step (rooted : bool) (stack : list string) (comp : string) : list string :=
  if String.eqb comp "" || String.eqb comp "." then stack
  else if String.eqb comp ".." then
    match stack with
    | top :: rest => if String.eqb top ".." then comp :: stack else rest
    | [] => if rooted then [] else [comp]
    end
  else comp :: stack.

Definition isRooted (path : string) : bool :=
  match path with
  | String c _ => Ascii.eqb c "/"
  | EmptyString => false
  end.

(** [Clean]: the shortest equivalent path, by lexical processing. *)
Definition Clean (path : string) : string :=
  let rooted := isRooted path in
  let body := String.concat "/" (rev (fold_left (step rooted) (split "/" path) [])) in
  if rooted then ("/" ++ body)%string
  else if String.eqb body "" then "." else body.

(** [Dir]: all but the last element of the path, cleaned. *)
Definition Dir (path : string) : string :=
  match removelast (split "/" path) with
  | [] => Clean ""
  | comps => Clean (String.concat "/" comps ++ "/")%string
  end.

Fixpoint dropEmpty (elem : list string) : list string :=
  match elem with
  | e :: rest => if String.eqb e "" then dropEmpty rest else elem
  | [] => []
  end.

(** [Join]: the elements joined by the separator, cleaned; empty
    leading elements are ignored. *)
Definition Join (elem : list string) : string :=
  match dropEmpty elem with
  | [] => ""
  | rest => Clean (String.concat "/" rest)
  end.

End filepath.

(* ================================================================== *)
(** * Package addr *)

(** Modelled from the spec: package addr (go/lib/addr) is not among the
    sources.  The spec writes an ISD-AS as [1-ff00:0:110] and its file
    form as [ISD1-ASff00_0_110]: a decimal ISD, and an AS number that is
    either a decimal BGP number or three groups of 16 bits in hexadecimal,
    joined by [:], or by [_] in file names. *)
Module addr.

Record IA : Type :=
  { I : Z;      (* uint16 *)
    A : Z }.    (* 48 bits *)

Definition IsZero (ia : IA) : bool := (I ia =? 0) && (A ia =? 0).

Definition MaxBGPAS : Z := 2 ^ 32 - 1.
Definition MaxAS : Z := 2 ^ 48 - 1.

Definition fmtAS (a : Z) (sep : string) : string :=
  if MaxAS <? a then (fmt_d a ++ " [Illegal AS: larger than " ++ fmt_d MaxAS ++ "]")%string
  else if a <=? MaxBGPAS then fmt_d a
  else String.concat sep
         [fmt_x (Z.land (Z.shiftr a 32) 0xffff);
          fmt_x (Z.land (Z.shiftr a 16) 0xffff);
          fmt_x (Z.land a 0xffff)].

Definition AS_String (a : Z) : string := fmtAS a ":".
Definition FileFmt (a : Z) : string := fmtAS a "_".

Definition IA_String (ia : IA) : string :=
  (fmt_d (I ia) ++ "-" ++ AS_String (A ia))%string.

Definition ASFromString (s : string) : reply Z :=
  match split ":" s with
  | [bgp] =>
      match ParseUint bgp 10 32 with
      | Done v => Done v
      | Failed _ => Failed (New "Unable to parse AS")
      end
  | [p0; p1; p2] =>
      match ParseUint p0 16 16, ParseUint p1 16 16, ParseUint p2 16 16 with
      | Done v0, Done v1, Done v2 =>
          Done (Z.lor (Z.shiftl (Z.lor (Z.shiftl v0 16) v1) 16) v2)
      | _, _, _ => Failed (New "Unable to parse AS part")
      end
  | _ => Failed (New "unable to parse AS: wrong number of separators")
  end.

Definition IAFromString (s : string) : reply IA :=
  match split "-" s with
  | [isd; as_] =>
      match ParseUint isd 10 16 with
      | Done i =>
          match ASFromString as_ with
          | Done a => Done {| I := i; A := a |}
          | Failed e => Failed e
          end
      | Failed _ => Failed (New "Unable to parse ISD")
      end
  | _ => Failed (New "Invalid ISD-AS")
  end.

End addr.

(* ================================================================== *)
(** * Package cppki *)

Module cppki.

Import x509.

Record Validity : Type :=
  { NotBefore : Time;
    NotAfter : Time }.

(** Modelled from the spec: the method [Validity.Covers] is declared in
    cppki's validity file, which is not among the sources; section 4.1
    gives it as [outer.notBefore <= inner.notBefore &&
    inner.notAfter <= outer.notAfter]. *)
Definition Covers (outer inner : Validity) : bool :=
  (NotBefore outer <=? NotBefore inner) && (NotAfter inner <=? NotAfter outer).

(** [SubjectKeyID]: the SHA-1 hash of the marshaled public key; only
    ECDSA keys are supported. *)
Definition SubjectKeyID (pub : PublicKey) : result bytes :=
  match pub with
  | ECDSAPublicKey curve X Y =>
      match elliptic_Marshal curve X Y with
      | Ok m => Ok (sha1.Sum m)
      | Err e => Err e
      | Panic s => Panic s
      end
  | _ => Err (New "not supported")
  end.

Definition validityOf (c : Certificate) : Validity :=
  {| NotBefore := x509.NotBefore c; NotAfter := x509.NotAfter c |}.

Definition hasExtKeyUsage (u : ExtKeyUsage) (c : Certificate) : bool :=
  existsb (ExtKeyUsage_eqb u) (ExtKeyUsage_ c).

Definition result_bytes_eqb (r : result bytes) (b : bytes) : bool :=
  match r with Ok b' => bytes_eqb b' b | _ => false end.

(** Modelled from the spec: [ValidateChain] is declared in cppki's
    certificate file, which is not among the sources.  Section 3 gives
    the shape it checks: a chain is the ordered pair (AS certificate, CA
    certificate); the leaf's issuer is the CA's subject; the leaf's
    validity is contained in the CA's; the leaf has the digital-signature
    key usage, the server-auth, client-auth and time-stamping extended key
    usages, a subject key identifier derived from its public key, and no
    basic constraints. *)
Definition ValidateChain (chain : list Certificate) : reply unit :=
  match chain with
  | [as_; ca] =>
      if negb (pkix.Name_eqb (Issuer as_) (Subject ca))
      then Failed (New "issuer of the AS certificate is not the subject of the CA certificate")
      else if negb (Covers (validityOf ca) (validityOf as_))
      then Failed (New "AS certificate validity not covered by the CA certificate")
      else if negb (Z.testbit (KeyUsage as_) 0)
      then Failed (New "AS certificate lacks the digital signature key usage")
      else if negb (hasExtKeyUsage ExtKeyUsageServerAuth as_
                    && hasExtKeyUsage ExtKeyUsageClientAuth as_
                    && hasExtKeyUsage ExtKeyUsageTimeStamping as_)
      then Failed (New "AS certificate lacks a required extended key usage")
      else if negb (result_bytes_eqb (SubjectKeyID (PublicKey_ as_)) (SubjectKeyId as_))
      then Failed (New "AS certificate subject key identifier does not match its key")
      else if BasicConstraintsValid as_
      then Failed (New "AS certificate has basic constraints")
      else Done tt
  | _ => Failed (New "chain must contain exactly the AS and the CA certificate")
  end.

(** Object identifiers declared by cppki outside of the sources: the
    ISD-AS name attribute of the SCION control-plane PKI and the
    standard identifiers of RFC 5280. *)
Definition OIDNameIA : pkix.ObjectIdentifier := [1; 3; 6; 1; 4; 1; 55324; 1; 2; 1].
Definition OIDExtensionSubjectKeyID : pkix.ObjectIdentifier := [2; 5; 29; 14].
Definition OIDExtensionKeyUsage : pkix.ObjectIdentifier := [2; 5; 29; 15].
Definition OIDExtKeyUsageServerAuth : pkix.ObjectIdentifier := [1; 3; 6; 1; 5; 5; 7; 3; 1].
Definition OIDExtKeyUsageClientAuth : pkix.ObjectIdentifier := [1; 3; 6; 1; 5; 5; 7; 3; 2].
Definition OIDExtKeyUsageTimeStamping : pkix.ObjectIdentifier := [1; 3; 6; 1; 5; 5; 7; 3; 8].

(** Modelled from the spec: [ExtractIA] is declared in cppki's
    certificate file, which is not among the sources.  Section 4.2:
    extract the AS identifier from the distinguished name using the
    fixed object identifier of the ISD-AS attribute; fail if it is
    absent or malformed. *)
Definition ExtractIA (name : pkix.Name) : reply addr.IA :=
  match find (fun atv => pkix.oid_eqb (pkix.Type_ atv) OIDNameIA) (pkix.Names name) with
  | Some atv =>
      match addr.IAFromString (pkix.Value atv) with
      | Done ia => Done ia
      | Failed e => Failed (WrapStr "invalid ISD-AS attribute" e)
      end
  | None => Failed (New "ISD-AS attribute not found")
  end.

Record TRCID : Type :=
  { ISD : Z;       (* uint16 *)
    Base : Z;      (* uint64 *)
    Serial : Z }.  (* uint64 *)

Record TRC : Type :=
  { ID : TRCID;
    TRCValidity : Validity;
    GracePeriod : Duration }.

(** Modelled from the spec: the method [TRC.InGracePeriod] is declared
    in cppki's TRC file, which is not among the sources.  Section 3: a
    TRC is in its grace period if the current time is within the
    configured window after its activation. *)
Definition InGracePeriod (trc : TRC) (now : Time) : bool :=
  (NotBefore (TRCValidity trc) <=? now)
  && (now <=? time_Add (NotBefore (TRCValidity trc)) (GracePeriod trc)).

(** Arithmetic on [uint64] wraps around. *)
Definition wrap64 (x : Z) : Z := x mod 2 ^ 64.

(** What [CreateChain] takes from its surroundings: the wall clock
    ([time.Now]) and the system's random source ([rand.Read], which
    fills the whole buffer or fails). *)
Record World : Type :=
  { time_Now : Time;
    rand_Read : nat -> reply bytes }.

Inductive Event : Type :=
| EvTimeNow
| EvRandRead (n : nat)
| EvCreateCertificate (template parent : Certificate) (pub : PublicKey) (priv : Signer)
| EvParseCertificate (raw : DER).

Module CAPolicy.

(** [CAPolicy] defines how AS certificates are generated.  The CA
    certificate is a pointer in the source; it is taken to be set. *)
Record t : Type :=
  { Validity : Duration;
    Certificate : x509.Certificate;
    Signer : Signer;
    CurrentTime : Time }.

Local Open Scope go_scope.

(** The signing time: [CurrentTime], or the wall clock if it is zero. *)
Definition signingTime (w : World) (ca : t) : M Event Time :=
  if time_IsZero (CurrentTime ca)
  then call EvTimeNow (Done (time_Now w))
  else ret (CurrentTime ca).

Definition effectiveNow (w : World) (ca : t) : Time :=
  if time_IsZero (CurrentTime ca) then time_Now w else CurrentTime ca.

(** The validity of the CA certificate, and the validity of an AS
    certificate issued at [now]. *)
Definition caValidity (ca : t) : cppki.Validity :=
  {| NotBefore := x509.NotBefore (Certificate ca);
     NotAfter := x509.NotAfter (Certificate ca) |}.

Definition asValidity (ca : t) (now : Time) : cppki.Validity :=
  {| NotBefore := now; NotAfter := time_Add now (Validity ca) |}.

Definition template (ca : t) (asVal : cppki.Validity) (serial : bytes)
    (subject : pkix.Name) (skid : bytes) : x509.Certificate :=
  {| SignatureAlgorithm_ := ECDSAWithSHA512;
     Signature := None;
     Version := 3;
     SerialNumber := big_SetBytes serial;
     Issuer := pkix.emptyName;
     Subject := subject;
     x509.NotBefore := cppki.NotBefore asVal;
     x509.NotAfter := cppki.NotAfter asVal;
     KeyUsage := KeyUsageDigitalSignature;
     ExtKeyUsage_ := [ExtKeyUsageServerAuth; ExtKeyUsageClientAuth;
                      ExtKeyUsageTimeStamping];
     BasicConstraintsValid := false;
     IsCA := false;
     SubjectKeyId := skid;
     AuthorityKeyId := SubjectKeyId (Certificate ca);
     PublicKey_ := OtherPublicKey |}.

(** [CreateChain] takes the certificate request and creates a
    certificate chain. *)
Definition CreateChain (w : World) (ca : t) (csr : CertificateRequest)
    : M Event (list x509.Certificate) :=
  now <- signingTime w ca ;;
  let caVal := caValidity ca in
  let asVal := asValidity ca now in
  if negb (Covers caVal asVal)
  then fail (New "AS certificate validity not covered")
  else
    (* Choose random serial number. *)
    serial <- wrap "creating random serial number"
                (call (EvRandRead 20) (rand_Read w 20)) ;;
    (* ExtraNames are used for marshaling *)
    let subject := pkix.with_ExtraNames (csr_Subject csr)
                     (pkix.Names (csr_Subject csr)) in
    skid <- wrap "computing subject key ID"
              (lift (SubjectKeyID (csr_PublicKey csr))) ;;
    let tmpl := template ca asVal serial subject skid in
    raw <- wrap "creating AS certificate"
             (call (EvCreateCertificate tmpl (Certificate ca) (csr_PublicKey csr) (Signer ca))
                   (x509.CreateCertificate tmpl (Certificate ca)
                      (csr_PublicKey csr) (Signer ca))) ;;
    as_ <- wrap "parse created AS certificate"
             (call (EvParseCertificate raw) (x509.ParseCertificate raw)) ;;
    let chain := [as_; Certificate ca] in
    wrap "created invalid AS certificate" (ask (ValidateChain chain)) ;;;
    ret chain.

End CAPolicy.

(** A random source that fills the buffer it is given, with bytes. *)
Definition fillsBuffer (w : World) : Prop :=
  forall n b, rand_Read w n = Done b ->
              length b = n /\ Forall (fun x => 0 <= x < 256) b.

End cppki.

(* ================================================================== *)
(** * Package certs: the renew command *)

Module certs.

Import x509.
Local Open Scope go_scope.

(** ** Data *)

Record Features : Type :=
  { DisableLegacyRequest : bool;
    DisableCMSRequest : bool }.

Record SubjectVars : Type :=
  { CommonName : string;
    Country : string;
    ISDAS : addr.IA;
    Locality : string;
    Organization : string;
    OrganizationalUnit : string;
    PostalCode : string;
    Province : string;
    SerialNumber : string;
    StreetAddress : string }.

Definition IP := bytes.

(** The flags of the command; [listen] is nil unless given. *)
Record Flags : Type :=
  { keyFile : string;
    outFile : string;
    csrFile : string;
    reqFile : string;
    templateFile : string;
    transportCertFile : string;
    transportKeyFile : string;
    trcFiles : list string;
    dispatcherPath : string;
    sciondAddr : string;
    listen : option IP;
    timeout : Duration;
    features : list string;
    tracer : string }.

(** [ecdsa.PrivateKey], and the keys [x509.ParsePKCS8PrivateKey] yields. *)
Record ECPrivateKey : Type :=
  { ec_Curve : Curve; ec_X : Z; ec_Y : Z; ec_D : Z }.

Definition ec_Public (k : ECPrivateKey) : PublicKey :=
  ECDSAPublicKey (ec_Curve k) (ec_X k) (ec_Y k).

Inductive PrivateKey : Type :=
| ECDSAPrivateKey (k : ECPrivateKey)
| RSAPrivateKey (N E D : Z)
| Ed25519PrivateKey (seed : bytes).

(** [pem.Block]. *)
Record Block : Type :=
  { Type_ : string;
    Bytes : DER }.

Record UDPAddr : Type :=
  { IA : addr.IA;
    Host : option IP }.

(** [trust.Signer]. *)
Record TrustSigner : Type :=
  { ts_PrivateKey : ECPrivateKey;
    ts_Algorithm : Z;
    ts_IA : addr.IA;
    ts_TRCID : cppki.TRCID;
    ts_SubjectKeyID : bytes;
    ts_Expiration : Time;
    ts_ChainValidity : cppki.Validity;
    ts_Subject : pkix.Name;
    ts_Chain : list Certificate }.

(** The protobuf messages of the renewal service.  A message-typed
    field is a pointer, nil when absent. *)
Record SignedMessage : Type :=
  { HeaderAndBody : bytes;
    sm_Signature : bytes }.

Record ChainRenewalRequest : Type :=
  { SignedRequest : option SignedMessage;
    CmsSignedRequest : option bytes }.

Record ChainRenewalResponse : Type :=
  { SignedResponse : option SignedMessage;
    CmsSignedResponse : bytes }.

Record Chain : Type :=
  { AsCert : DER;
    CaCert : DER }.

Record ChainRenewalResponseBody : Type :=
  { Chain_ : option Chain }.

(** The CMS structures of package protocol. *)
Record ContentInfo : Type :=
  { ContentType : pkix.ObjectIdentifier;
    Content : bytes }.

Record SignedData : Type :=
  { EContentType : pkix.ObjectIdentifier;
    EContent : bytes }.

(** ** The surroundings

    Everything the command calls that is not in this file: the
    standard library's file system, PEM, PKCS #8, JSON and CSR
    functions, and the repository's packages feature, cppki, sciond,
    snet, signed, renewal, protocol and the gRPC client.  Each is a
    function from its arguments to its outcome.  A file has one content
    for the whole run: [ReadFile] does not see what [WriteFile] wrote,
    so a run is described only when its exports (--csr-out, --req-out)
    do not name a file that is read after them, which the transport key
    file is. *)
Record World : Type :=
  { time_Now : Time;
    setupTracer : string -> string -> reply unit;
    feature_Parse : list string -> reply Features;
    loadTRCs : list string -> reply (list cppki.TRC);
    ReadPEMCerts : string -> reply (list Certificate);
    VerifyChain : list Certificate -> list cppki.TRC -> reply unit;
    ReadFile : string -> reply bytes;
    WriteFile : string -> Block -> reply unit;
    os_Create : string -> reply unit;
    pem_Encode : string -> Block -> reply unit;
    file_Close : string -> reply unit;
    pem_Decode : bytes -> option Block;
    ParsePKCS8PrivateKey : DER -> reply PrivateKey;
    json_Unmarshal : bytes -> reply SubjectVars;
    extendedKeyUsages : list pkix.ObjectIdentifier -> pkix.Extension;
    CreateCertificateRequest : CertificateRequest -> ECPrivateKey -> reply bytes;
    sciond_Connect : string -> reply unit;
    sciond_LocalIA : reply addr.IA;
    DefaultLocalIP : reply IP;
    snet_Dial : UDPAddr -> UDPAddr -> reply unit;
    SelectSignatureAlgorithm : PublicKey -> reply Z;
    NewLegacyChainRenewalRequest : bytes -> TrustSigner -> reply ChainRenewalRequest;
    NewChainRenewalRequest : bytes -> TrustSigner -> reply ChainRenewalRequest;
    grpc_Dial : addr.IA -> reply unit;
    ChainRenewal : ChainRenewalRequest -> reply ChainRenewalResponse;
    ParseContentInfo : bytes -> reply ContentInfo;
    SignedDataContent : ContentInfo -> reply SignedData;
    DataEContent : SignedData -> reply (list DER);
    ExtractUnverifiedBody : option SignedMessage -> reply bytes;
    proto_Unmarshal : bytes -> reply ChainRenewalResponseBody }.

Inductive Event : Type :=
| EvSetupTracer (agent : string)
| EvCloseTracer
| EvLoadTRCs (files : list string)
| EvReadPEMCerts (file : string)
| EvReadFile (file : string)
| EvWriteFile (file : string) (block : Block)
| EvStdout (text : string)
| EvStderr (text : string)
| EvCreateCertificateRequest (template : CertificateRequest) (key : ECPrivateKey)
| EvSciondConnect (address : string)
| EvSnetDial (local remote : UDPAddr)
| EvGrpcDial (dst : addr.IA)
| EvChainRenewal (req : ChainRenewalRequest)
| EvConnClose
| EvCreate (file : string)
| EvPemEncode (file : string) (block : Block)
| EvClose (file : string).

(** [defer f()]: [f] runs when the function returns, whatever the
    outcome. *)
Definition defer {A} (ev : Event) (m : M Event A) : M Event A :=
  (trace m ++ [ev], outcome m).

(** The text of an error, as the command prints it. *)
Fixpoint error_text (e : error) : string :=
  match e with
  | New msg => msg
  | WrapStr msg cause => (msg ++ ": " ++ error_text cause)%string
  | Foreign msg => msg
  end.

(** [fmt.Println]: the operands separated by spaces, and a newline. *)
Definition Println (operands : list string) : M Event unit :=
  emit (EvStdout (String.concat " " operands ++ nl)%string).

Definition Fprintln_stderr (operands : list string) : M Event unit :=
  emit (EvStderr (String.concat " " operands ++ nl)%string).

(** [s[0]] on a slice: a panic when it is empty. *)
Definition index0 {A} (s : list A) : M Event A :=
  match s with
  | x :: _ => ret x
  | [] => panic "index out of range [0] with length 0"
  end.

(** ** Keys and the CSR template *)

Definition readECKey (w : World) (file : string) : M Event ECPrivateKey :=
  raw <- call (EvReadFile file) (ReadFile w file) ;;
  match pem_Decode w raw with
  | None => panic "invalid memory address or nil pointer dereference"
  | Some block =>
      key <- ask (ParsePKCS8PrivateKey w (Bytes block)) ;;
      match key with
      | ECDSAPrivateKey v => ret v
      | _ => fail (New "only ecdsa keys are supported")
      end
  end.

Definition readVars (w : World) (file : string) : M Event SubjectVars :=
  raw <- call (EvReadFile file) (ReadFile w file) ;;
  ask (json_Unmarshal w raw).

Definition fieldOf (value : string) : list string :=
  if String.eqb value "" then [] else [value].

Definition subjectFromVars (vars : SubjectVars) : reply pkix.Name :=
  if addr.IsZero (ISDAS vars) then Failed (New "isd_as required in template")
  else Done {| pkix.Country := fieldOf (Country vars);
             pkix.Organization := fieldOf (Organization vars);
             pkix.OrganizationalUnit := fieldOf (OrganizationalUnit vars);
             pkix.Locality := fieldOf (Locality vars);
             pkix.Province := fieldOf (Province vars);
             pkix.StreetAddress := fieldOf (StreetAddress vars);
             pkix.PostalCode := fieldOf (PostalCode vars);
             pkix.SerialNumber := SerialNumber vars;
             pkix.CommonName := CommonName vars;
             pkix.Names := [];
             pkix.ExtraNames :=
               [ {| pkix.Type_ := cppki.OIDNameIA;
                    pkix.Value := addr.IA_String (ISDAS vars) |} ] |}.

Definition subjectFromTemplate (w : World) (tmpl : string) : M Event pkix.Name :=
  vars <- wrap "reading template" (readVars w tmpl) ;;
  ask (subjectFromVars vars).

(** DER length octets, and [asn1.Marshal] on a byte slice (an OCTET
    STRING). *)
Definition asn1_length (n : nat) : bytes :=
  if Nat.ltb n 128 then [Z.of_nat n]
  else let b := big_Bytes (Z.of_nat n) in (0x80 + Z.of_nat (length b)) :: b.

Definition asn1_Marshal_bytes (b : bytes) : bytes :=
  4 :: asn1_length (length b) ++ b.

Definition subjectKeyID (pub : PublicKey) : result pkix.Extension :=
  match cppki.SubjectKeyID pub with
  | Ok skid =>
      Ok {| pkix.Id := cppki.OIDExtensionSubjectKeyID;
            pkix.Critical := false;
            pkix.Value_ := asn1_Marshal_bytes skid |}
  | Err e => Err e
  | Panic s => Panic s
  end.

(** The bit string of one bit, set: [0x80] corresponds to
    [x509.KeyUsageDigitalSignature]. *)
Definition keyUsage : pkix.Extension :=
  {| pkix.Id := cppki.OIDExtensionKeyUsage;
     pkix.Critical := true;
     pkix.Value_ := [3; 2; 7; 0x80] |}.

Definition extKeyUsage (w : World) : pkix.Extension :=
  extendedKeyUsages w
    [cppki.OIDExtKeyUsageServerAuth; cppki.OIDExtKeyUsageClientAuth;
     cppki.OIDExtKeyUsageTimeStamping].

Definition buildExtensions (w : World) (pub : PublicKey)
    : M Event (list pkix.Extension) :=
  subKeyID <- wrap "creating SubjectKeyID extension" (lift (subjectKeyID pub)) ;;
  ret [keyUsage; extKeyUsage w; subKeyID].

Definition csrTemplate (w : World) (prev : Certificate) (pub : PublicKey)
    (tmpl : string) : M Event CertificateRequest :=
  let s := pkix.with_ExtraNames (Subject prev) (pkix.Names (Subject prev)) in
  s <- (if String.eqb tmpl "" then ret s else subjectFromTemplate w tmpl) ;;
  exts <- wrap "building extensions" (buildExtensions w pub) ;;
  ret {| csr_Subject := s;
         csr_PublicKey := OtherPublicKey;
         csr_Extensions := [];
         csr_ExtraExtensions := exts |}.

(** ** Trust material *)

Definition maybeMissingTRCInGrace (w : World) (trcs : list cppki.TRC) : bool :=
  match trcs with
  | [trc] => cppki.InGracePeriod trc (time_Now w)
  | _ => false
  end.

(** The two lines that point at the predecessor TRC.  [trcs[0]] is
    read after [maybeMissingTRCInGrace] held. *)
Definition graceGuidance (first : string) (trcs : list cppki.TRC) : M Event unit :=
  Println [first] ;;;
  trc <- index0 trcs ;;
  emit (EvStdout ("Try to verify with the predecessor TRC: (Base = "
                  ++ fmt_d (cppki.Base (cppki.ID trc)) ++ ", Serial = "
                  ++ fmt_d (cppki.wrap64 (cppki.Serial (cppki.ID trc) - 1))
                  ++ ")" ++ nl)%string).

Definition loadChain (w : World) (trcs : list cppki.TRC) (file : string)
    : M Event (list Certificate * addr.IA) :=
  chain <- call (EvReadPEMCerts file) (ReadPEMCerts w file) ;;
  match VerifyChain w chain trcs with
  | Done _ =>
      leaf <- index0 chain ;;
      match cppki.ExtractIA (Issuer leaf) with
      | Done ia => ret (chain, ia)
      | Failed _ => panic "chain is already validated"
      end
  | Failed e =>
      (if maybeMissingTRCInGrace w trcs
       then graceGuidance
              "Verification failed, but current time still in Grace Period of latest TRC"
              trcs
       else ret tt) ;;;
      fail (WrapStr "verification of transport cert failed with provided TRC" e)
  end.

Definition createSigner (w : World) (srcIA : addr.IA) (trc : cppki.TRC)
    (chain : list Certificate) (keyFile : string) : M Event TrustSigner :=
  key <- readECKey w keyFile ;;
  algo <- ask (SelectSignatureAlgorithm w (ec_Public key)) ;;
  leaf <- index0 chain ;;
  ret {| ts_PrivateKey := key;
         ts_Algorithm := algo;
         ts_IA := srcIA;
         ts_TRCID := cppki.ID trc;
         ts_SubjectKeyID := SubjectKeyId leaf;
         ts_Expiration := time_Add (time_Now w) (2 * Hour);
         ts_ChainValidity := {| cppki.NotBefore := NotBefore leaf;
                                cppki.NotAfter := NotAfter leaf |};
         ts_Subject := Subject leaf;
         ts_Chain := chain |}.

(** ** The exchange *)

Definition findLocalAddr (w : World) (sciond : string) : M Event UDPAddr :=
  call (EvSciondConnect sciond) (sciond_Connect w sciond) ;;;
  localIA <- ask (sciond_LocalIA w) ;;
  localIP <- ask (DefaultLocalIP w) ;;
  ret {| IA := localIA; Host := Some localIP |}.

Definition buildDialer (w : World) (sciond : string) (local remote : UDPAddr)
    : M Event unit :=
  wrap "connecting to SCION Daemon"
    (call (EvSciondConnect sciond) (sciond_Connect w sciond)) ;;;
  wrap "dialing" (call (EvSnetDial local remote) (snet_Dial w local remote)).

Definition sendRequest (w : World) (dstIA : addr.IA) (req : ChainRenewalRequest)
    : M Event ChainRenewalResponse :=
  call (EvGrpcDial dstIA) (grpc_Dial w dstIA) ;;;
  defer EvConnClose (call (EvChainRenewal req) (ChainRenewal w req)).

(** [x509.ParseCertificates]: one or more certificates from
    concatenated DER data. *)
Fixpoint ParseCertificates (raw : list DER) : reply (list Certificate) :=
  match raw with
  | [] => Done []
  | d :: rest =>
      match ParseCertificate d with
      | Done c =>
          match ParseCertificates rest with
          | Done cs => Done (c :: cs)
          | Failed e => Failed e
          end
      | Failed e => Failed e
      end
  end.

Definition extractChainLegacy (w : World) (rep : ChainRenewalResponse)
    : M Event (list Certificate) :=
  body <- ask (ExtractUnverifiedBody w (SignedResponse rep)) ;;
  replyBody <- ask (proto_Unmarshal w body) ;;
  match Chain_ replyBody with
  | None => panic "invalid memory address or nil pointer dereference"
  | Some c =>
      c0 <- wrap "parsing AS certificate" (ask (ParseCertificate (AsCert c))) ;;
      c1 <- wrap "parsing CA certificate" (ask (ParseCertificate (CaCert c))) ;;
      let chain := [c0; c1] in
      ask (cppki.ValidateChain chain) ;;;
      ret chain
  end.

Definition extractChain (w : World) (rep : ChainRenewalResponse)
    : M Event (list Certificate) :=
  if Nat.eqb (length (CmsSignedResponse rep)) 0 then extractChainLegacy w rep
  else
    ci <- ask (ParseContentInfo w (CmsSignedResponse rep)) ;;
    sd <- ask (SignedDataContent w ci) ;;
    raw <- ask (DataEContent w sd) ;;
    chain <- ask (ParseCertificates raw) ;;
    ask (cppki.ValidateChain chain) ;;;
    ret chain.

(** ** Output *)

Fixpoint encodeAll (w : World) (file : string) (chain : list Certificate)
    : M Event unit :=
  match chain with
  | [] => ret tt
  | c :: rest =>
      let block := {| Type_ := "CERTIFICATE"; Bytes := DERCertificate c |} in
      call (EvPemEncode file block) (pem_Encode w file block) ;;;
      encodeAll w file rest
  end.

Definition writeChain (w : World) (chain : list Certificate) (file : string)
    : M Event unit :=
  call (EvCreate file) (os_Create w file) ;;;
  encodeAll w file chain ;;;
  call (EvClose file) (file_Close w file).

Definition outFileFromSubject (renewed : list Certificate) (dir : string)
    : M Event string :=
  leaf <- index0 renewed ;;
  match cppki.ExtractIA (Subject leaf) with
  | Done subject =>
      ret (filepath.Join
             [dir;
              ("ISD" ++ fmt_d (addr.I subject) ++ "-AS" ++ addr.FileFmt (addr.A subject)
               ++ "." ++ fmt_x_bytes (big_Bytes (x509.SerialNumber leaf)) ++ ".pem")%string])
  | Failed _ => panic "chain is already validated"
  end.

(** ** The command

    The function [RunE] of the command, cut at the steps its comments
    name.  The tracing span, its tags, the log set-up and the context
    with its time-out carry no data of the run and are not represented. *)

Definition zeroIA : addr.IA := {| addr.I := 0; addr.A := 0 |}.

(** The positional argument, if any, is the ISD-AS of the CA. *)
Definition parseRemote (args : list string) : M Event addr.IA :=
  match args with
  | [] => ret zeroIA
  | a :: _ => ask (addr.IAFromString a)
  end.

(** [ioutil.WriteFile] whose failure is reported on the standard error
    and not returned: "... is not important, carry on with execution". *)
Definition tryWriteFile (w : World) (file : string) (block : Block) : M Event unit :=
  match WriteFile w file block with
  | Done _ => emit (EvWriteFile file block)
  | Failed e =>
      emit (EvWriteFile file block) ;;;
      Fprintln_stderr ["Failed writing CSR:"; error_text e]
  end.

(** Step 1. create CSR. *)
Definition createCSR (w : World) (flags : Flags) (chain : list Certificate)
    : M Event bytes :=
  key <- readECKey w (keyFile flags) ;;
  prev <- index0 chain ;;
  tmpl <- csrTemplate w prev (ec_Public key) (templateFile flags) ;;
  csr <- call (EvCreateCertificateRequest tmpl key)
           (CreateCertificateRequest w tmpl key) ;;
  (if String.eqb (csrFile flags) "" then ret tt
   else tryWriteFile w (csrFile flags)
          {| Type_ := "CERTIFICATE REQUEST"; Bytes := DEROther csr |}) ;;;
  ret csr.

(** Step 2. create messenger. *)
Definition createMessenger (w : World) (flags : Flags) (ca : addr.IA)
    : M Event (UDPAddr * UDPAddr) :=
  local <- findLocalAddr w (sciondAddr flags) ;;
  let local := match listen flags with
               | Some ip => {| IA := IA local; Host := Some ip |}
               | None => local
               end in
  let remote := {| IA := ca; Host := None |} in
  buildDialer w (sciondAddr flags) local remote ;;;
  ret (local, remote).

(** Step 3. create the request. *)
Definition createRequest (w : World) (flags : Flags) (ft : Features)
    (trcs : list cppki.TRC) (chain : list Certificate) (local : UDPAddr)
    (csr : bytes) : M Event ChainRenewalRequest :=
  trc <- index0 trcs ;;
  signer <- createSigner w (IA local) trc chain (transportKeyFile flags) ;;
  let req := {| SignedRequest := None; CmsSignedRequest := None |} in
  req <- (if DisableLegacyRequest ft then ret req
          else legacyReq <- ask (NewLegacyChainRenewalRequest w csr signer) ;;
               ret {| SignedRequest := SignedRequest legacyReq;
                      CmsSignedRequest := CmsSignedRequest req |}) ;;
  req <- (if DisableCMSRequest ft then ret req
          else cmsReq <- ask (NewChainRenewalRequest w csr signer) ;;
               ret {| SignedRequest := SignedRequest req;
                      CmsSignedRequest := CmsSignedRequest cmsReq |}) ;;
  (if String.eqb (reqFile flags) "" then ret tt
   else match CmsSignedRequest req with
        | None => fail (New "cannot write request to file: no request created")
        | Some cms =>
            tryWriteFile w (reqFile flags) {| Type_ := "CMS"; Bytes := DEROther cms |}
        end) ;;;
  ret req.

(** [if err := f(); err != nil { handler }], the error not returned. *)
Definition onError (m : M Event unit) (handler : error -> M Event unit)
    : M Event unit :=
  match m with
  | (t, Err e) => bind (t, Ok tt) (fun _ => handler e)
  | other => other
  end.

(** The output path: the flag, or the path derived from the renewed
    chain. *)
Definition outPath (flags : Flags) (renewed : list Certificate) : M Event string :=
  if String.eqb (outFile flags) ""
  then outFileFromSubject renewed (filepath.Dir (transportCertFile flags))
  else ret (outFile flags).

(** Step 5 (verification) and step 6. write to disk. *)
Definition verifyAndWrite (w : World) (flags : Flags) (trcs : list cppki.TRC)
    (renewed : list Certificate) : M Event unit :=
  out <- outPath flags renewed ;;
  match VerifyChain w renewed trcs with
  | Failed e =>
      let out := (out ++ ".unverified")%string in
      Println ["Verification failed, writing chain: "; out] ;;;
      onError (writeChain w renewed out)
        (fun e' => Println ["Failed to write unverified chain: "; error_text e']) ;;;
      (if maybeMissingTRCInGrace w trcs
       then graceGuidance
              "Verification failed, but current time still in Grace Period of latest TRC"
              trcs
       else ret tt) ;;;
      fail (WrapStr "verification failed" e)
  | Done _ =>
      writeChain w renewed out ;;;
      emit (EvStdout ("Successfully wrote new chain at " ++ out ++ nl)%string)
  end.

(** The command after the tracer is set up, through step 5's
    extraction: the trusted TRCs and the renewed chain. *)
Definition request (w : World) (flags : Flags) (ca : addr.IA)
    : M Event (list cppki.TRC * list Certificate) :=
  ft <- ask (feature_Parse w (features flags)) ;;
  if DisableCMSRequest ft && DisableLegacyRequest ft
  then fail (New "both legacy and CMS request disabled")
  else
    trcs <- call (EvLoadTRCs (trcFiles flags)) (loadTRCs w (trcFiles flags)) ;;
    loaded <- loadChain w trcs (transportCertFile flags) ;;
    let '(chain, transportCA) := loaded in
    ca <- (if addr.IsZero ca
           then Println ["Extracted remote from transport certificate chain: ";
                         addr.IA_String transportCA] ;;;
                ret transportCA
           else ret ca) ;;
    csr <- createCSR w flags chain ;;
    addrs <- createMessenger w flags ca ;;
    let '(local, remote) := addrs in
    req <- createRequest w flags ft trcs chain local csr ;;
    (* Step 4. send the request via SCION. *)
    rep <- sendRequest w (IA remote) req ;;
    (* Step 5. extract and verify chain. *)
    renewed <- extractChain w rep ;;
    ret (trcs, renewed).

Definition renew (w : World) (flags : Flags) (ca : addr.IA) : M Event unit :=
  got <- request w flags ca ;;
  verifyAndWrite w flags (fst got) (snd got).

Definition RunE (w : World) (flags : Flags) (args : list string) : M Event unit :=
  ca <- parseRemote args ;;
  wrap "setting up tracing"
    (call (EvSetupTracer (tracer flags)) (setupTracer w "scion-pki" (tracer flags))) ;;;
  defer EvCloseTracer (renew w flags ca).

(** The events that reach out to the network, and those that create the
    CSR or transmit the request. *)
Definition isNetwork (ev : Event) : bool :=
  match ev with
  | EvSciondConnect _ | EvSnetDial _ _ | EvGrpcDial _ | EvChainRenewal _ => true
  | _ => false
  end.

Definition isCSRCreation (ev : Event) : bool :=
  match ev with
  | EvCreateCertificateRequest _ _ => true
  | _ => false
  end.

Definition isTransmission (ev : Event) : bool :=
  match ev with
  | EvGrpcDial _ | EvChainRenewal _ => true
  | _ => false
  end.

Definition isChainRenewal (ev : Event) : bool :=
  match ev with
  | EvChainRenewal _ => true
  | _ => false
  end.

(** How many renewal requests a trace holds. *)
Definition requestsSent (t : list Event) : nat :=
  length (filter isChainRenewal t).

(** The command on its way to step 4: what the steps before it produced
    when the request [req] is about to be sent to [dst]. *)
Definition reaches (w : World) (flags : Flags) (ca dst : addr.IA)
    (req : ChainRenewalRequest) : Prop :=
  exists ft trcs chain transportCA csr local,
    feature_Parse w (features flags) = Done ft
    /\ DisableCMSRequest ft && DisableLegacyRequest ft = false
    /\ loadTRCs w (trcFiles flags) = Done trcs
    /\ outcome (loadChain w trcs (transportCertFile flags)) = Ok (chain, transportCA)
    /\ dst = (if addr.IsZero ca then transportCA else ca)
    /\ outcome (createCSR w flags chain) = Ok csr
    /\ outcome (createMessenger w flags dst) = Ok (local, {| IA := dst; Host := None |})
    /\ outcome (createRequest w flags ft trcs chain local csr) = Ok req.

(** A trace that transmits nothing, or nothing but in one run of
    [sendRequest] on a destination and a request that [P] holds of. *)
Definition around (P : addr.IA -> ChainRenewalRequest -> Prop) (w : World)
    (t : list Event) : Prop :=
  Forall (fun ev => isTransmission ev = false) t
  \/ exists pre post dst req,
       P dst req
       /\ t = pre ++ trace (sendRequest w dst req) ++ post
       /\ Forall (fun ev => isTransmission ev = false) pre
       /\ Forall (fun ev => isTransmission ev = false) post.

(** The events of the tracer. *)
Definition isTracer (ev : Event) : bool :=
  match ev with
  | EvSetupTracer _ | EvCloseTracer => true
  | _ => false
  end.

(** The line that names the predecessor TRC. *)
Definition isGuidance (ev : Event) : bool :=
  match ev with
  | EvStdout text => String.prefix "Try to verify with the predecessor TRC" text
  | _ => false
  end.

End certs.

(* ================================================================== *)
(** * Sample data *)

(** A CA of ISD 1 and a subject AS, as the repository's test topology
    names them. *)
Module Sample.

Import x509.

Definition second : Z := 1000000000.
Definition day : Duration := 24 * Hour.

(** 2020-10-01 00:00:00 UTC, counted from the zero instant. *)
Definition t0 : Time := (62135596800 + 1601510400) * second.

Definition name (commonName ia : string) : pkix.Name :=
  {| pkix.Country := ["CH"]; pkix.Organization := []; pkix.OrganizationalUnit := [];
     pkix.Locality := []; pkix.Province := []; pkix.StreetAddress := [];
     pkix.PostalCode := []; pkix.SerialNumber := ""; pkix.CommonName := commonName;
     pkix.Names := [ {| pkix.Type_ := cppki.OIDNameIA; pkix.Value := ia |} ];
     pkix.ExtraNames := [] |}.

(** The base points of P-256 and P-384 (the public keys of the private
    key 1). *)
Definition caKey : PublicKey :=
  ECDSAPublicKey P256
    0x6b17d1f2e12c4247f8bce6e563a440f277037d812deb33a0f4a13945d898c296
    0x4fe342e2fe1a7f9b8ee7eb4a7c0f9e162bce33576b315ececbb6406837bf51f5.

Definition asKey : PublicKey :=
  ECDSAPublicKey P384
    0xaa87ca22be8b05378eb1c71ef320ad746e1d3b628ba79b9859f741e082542a385502f25dbf55296c3a545e3872760ab7
    0x3617de4a96262c6f5d9e98bf9292dc29f8f41dbd289a147ce9da3113b5f0b8c00a60b1ce1d7e819d7a431d7c90ea0e5f.

Definition skidOf (pub : PublicKey) : bytes :=
  match cppki.SubjectKeyID pub with
  | Ok id => id
  | _ => []
  end.

(** A CA certificate on a P-256 key, issued under ECDSA with SHA-256,
    valid for a year from [t0]. *)
Definition caCert : Certificate :=
  {| SignatureAlgorithm_ := ECDSAWithSHA256;
     Signature := None;
     Version := 3;
     SerialNumber := 0x2a;
     Issuer := name "1-ff00:0:110 Root Certificate" "1-ff00:0:110";
     Subject := name "1-ff00:0:110 CA Certificate" "1-ff00:0:110";
     NotBefore := t0;
     NotAfter := t0 + 365 * day;
     KeyUsage := 32;
     ExtKeyUsage_ := [];
     BasicConstraintsValid := true;
     IsCA := true;
     SubjectKeyId := skidOf caKey;
     AuthorityKeyId := [];
     PublicKey_ := caKey |}.

Definition caSigner : Signer := {| Public := caKey; SignError := None |}.

(** A policy that issues for three days, and one that issues for two
    years, beyond the end of the CA certificate. *)
Definition policy (validity : Duration) : cppki.CAPolicy.t :=
  {| cppki.CAPolicy.Validity := validity;
     cppki.CAPolicy.Certificate := caCert;
     cppki.CAPolicy.Signer := caSigner;
     cppki.CAPolicy.CurrentTime := 0 |}.

Definition issuingWorld : cppki.World :=
  {| cppki.time_Now := t0 + 10 * day;
     cppki.rand_Read := fun n => Done (repeat 0x5c n) |}.

Definition csr : CertificateRequest :=
  {| csr_Subject := name "1-ff00:0:111 AS Certificate" "1-ff00:0:111";
     csr_PublicKey := asKey;
     csr_Extensions := [];
     csr_ExtraExtensions := [] |}.




(** *** A run of the renew command *)

Import certs.

Definition issued (now : Time) : list Certificate :=
  match outcome (cppki.CAPolicy.CreateChain
                   {| cppki.time_Now := now;
                      cppki.rand_Read := fun n => Done (repeat 0x5c n) |}
                   (policy (3 * day)) csr) with
  | Ok chain => chain
  | _ => []
  end.

(** The chain that authenticates the client, and the renewed one. *)
Definition transportChain : list Certificate := issued (t0 + 8 * day).
Definition renewedChain : list Certificate := issued (t0 + 10 * day).

(** A TRC of ISD 1 activated nine days after [t0]. *)
Definition trc (serial : Z) (grace : Duration) : cppki.TRC :=
  {| cppki.ID := {| cppki.ISD := 1; cppki.Base := 1; cppki.Serial := serial |};
     cppki.TRCValidity := {| cppki.NotBefore := t0 + 9 * day;
                             cppki.NotAfter := t0 + 400 * day |};
     cppki.GracePeriod := grace |}.

Definition asPrivateKey : PrivateKey :=
  ECDSAPrivateKey
    {| ec_Curve := P384;
       ec_X := 0xaa87ca22be8b05378eb1c71ef320ad746e1d3b628ba79b9859f741e082542a385502f25dbf55296c3a545e3872760ab7;
       ec_Y := 0x3617de4a96262c6f5d9e98bf9292dc29f8f41dbd289a147ce9da3113b5f0b8c00a60b1ce1d7e819d7a431d7c90ea0e5f;
       ec_D := 1 |}.

Definition derChain (chain : list Certificate) : list DER :=
  map DERCertificate chain.

Definition legacyBody (chain : list Certificate) : option Chain :=
  match chain with
  | [a; c] => Some {| AsCert := DERCertificate a; CaCert := DERCertificate c |}
  | _ => None
  end.

Definition hasFeature (name : string) (l : list string) : bool :=
  existsb (String.eqb name) l.

(** Surroundings in which every call succeeds, given the TRCs on disk,
    the verdict of the chain verifier, the key in the key files, the
    reply of the CA and what the two encodings of the reply hold. *)
Definition world (trcs : list cppki.TRC)
    (verify : list Certificate -> reply unit) (key : PrivateKey)
    (response : ChainRenewalResponse) (cms : list DER) (legacy : option Chain)
    : World :=
  {| time_Now := t0 + 10 * day;
     setupTracer := fun _ _ => Done tt;
     feature_Parse := fun l =>
       Done {| DisableLegacyRequest := hasFeature "disable_legacy_request" l;
               DisableCMSRequest := hasFeature "disable_cms_request" l |};
     loadTRCs := fun _ => Done trcs;
     ReadPEMCerts := fun _ => Done transportChain;
     VerifyChain := fun chain _ => verify chain;
     ReadFile := fun _ => Done [0x2d; 0x2d; 0x2d];
     WriteFile := fun _ _ => Done tt;
     os_Create := fun _ => Done tt;
     pem_Encode := fun _ _ => Done tt;
     file_Close := fun _ => Done tt;
     pem_Decode := fun raw => Some {| Type_ := "PRIVATE KEY"; Bytes := DEROther raw |};
     ParsePKCS8PrivateKey := fun _ => Done key;
     json_Unmarshal := fun _ => Failed (Foreign "unexpected end of JSON input");
     extendedKeyUsages := fun _ =>
       {| pkix.Id := [2; 5; 29; 37]; pkix.Critical := false; pkix.Value_ := [] |};
     CreateCertificateRequest := fun _ _ => Done [0x30; 0x00];
     sciond_Connect := fun _ => Done tt;
     sciond_LocalIA := Done {| addr.I := 1; addr.A := 0xff0000000111 |};
     DefaultLocalIP := Done [127; 0; 0; 1];
     snet_Dial := fun _ _ => Done tt;
     SelectSignatureAlgorithm := fun _ => Done 1;
     NewLegacyChainRenewalRequest := fun csr _ =>
       Done {| SignedRequest := Some {| HeaderAndBody := csr; sm_Signature := [] |};
               CmsSignedRequest := None |};
     NewChainRenewalRequest := fun csr _ =>
       Done {| SignedRequest := None; CmsSignedRequest := Some csr |};
     grpc_Dial := fun _ => Done tt;
     ChainRenewal := fun _ => Done response;
     ParseContentInfo := fun b =>
       Done {| ContentType := [1; 2; 840; 113549; 1; 7; 2]; Content := b |};
     SignedDataContent := fun ci =>
       Done {| EContentType := [1; 2; 840; 113549; 1; 7; 1]; EContent := Content ci |};
     DataEContent := fun _ => Done cms;
     ExtractUnverifiedBody := fun m =>
       match m with
       | Some sm => Done (HeaderAndBody sm)
       | None => Failed (New "nil signed message")
       end;
     proto_Unmarshal := fun _ => Done {| Chain_ := legacy |} |}.

(** The surroundings [w] with other key files and another template
    file: what [pem.Decode] finds in a file and what the JSON decoder
    reads. *)
Definition withFiles (decode : bytes -> option Block)
    (vars : reply SubjectVars) (w : World) : World :=
  {| time_Now := time_Now w;
     setupTracer := setupTracer w;
     feature_Parse := feature_Parse w;
     loadTRCs := loadTRCs w;
     ReadPEMCerts := ReadPEMCerts w;
     VerifyChain := VerifyChain w;
     ReadFile := ReadFile w;
     WriteFile := WriteFile w;
     os_Create := os_Create w;
     pem_Encode := pem_Encode w;
     file_Close := file_Close w;
     pem_Decode := decode;
     ParsePKCS8PrivateKey := ParsePKCS8PrivateKey w;
     json_Unmarshal := fun _ => vars;
     extendedKeyUsages := extendedKeyUsages w;
     CreateCertificateRequest := CreateCertificateRequest w;
     sciond_Connect := sciond_Connect w;
     sciond_LocalIA := sciond_LocalIA w;
     DefaultLocalIP := DefaultLocalIP w;
     snet_Dial := snet_Dial w;
     SelectSignatureAlgorithm := SelectSignatureAlgorithm w;
     NewLegacyChainRenewalRequest := NewLegacyChainRenewalRequest w;
     NewChainRenewalRequest := NewChainRenewalRequest w;
     grpc_Dial := grpc_Dial w;
     ChainRenewal := ChainRenewal w;
     ParseContentInfo := ParseContentInfo w;
     SignedDataContent := SignedDataContent w;
     DataEContent := DataEContent w;
     ExtractUnverifiedBody := ExtractUnverifiedBody w;
     proto_Unmarshal := proto_Unmarshal w |}.

Definition cmsResponse : ChainRenewalResponse :=
  {| SignedResponse := None; CmsSignedResponse := [0x30; 0x80] |}.

Definition legacyResponse : ChainRenewalResponse :=
  {| SignedResponse := Some {| HeaderAndBody := [0x0a]; sm_Signature := [] |};
     CmsSignedResponse := [] |}.

Definition accept : list Certificate -> reply unit := fun _ => Done tt.


Definition flags (out req : string) (feats : list string) : Flags :=
  {| keyFile := "/certs/cp-as.key";
     outFile := out;
     csrFile := "";
     reqFile := req;
     templateFile := "";
     transportCertFile := "/certs/old.pem";
     transportKeyFile := "/certs/cp-as.key";
     trcFiles := ["/certs/ISD1-B1-S2.trc"];
     dispatcherPath := "/run/shm/dispatcher/default.sock";
     sciondAddr := "127.0.0.1:30255";
     listen := None;
     timeout := 5 * second;
     features := feats;
     tracer := "" |}.

(** The renewed leaf of the spec's example: AS 1-ff00:0:110, serial
    number 0x1a2b. *)
Definition leaf110 : Certificate :=
  {| SignatureAlgorithm_ := ECDSAWithSHA512;
     Signature := Some {| sig_key := caKey; sig_algorithm := ECDSAWithSHA512 |};
     Version := 3;
     x509.SerialNumber := 0x1a2b;
     Issuer := name "1-ff00:0:110 CA Certificate" "1-ff00:0:110";
     Subject := name "1-ff00:0:110 AS Certificate" "1-ff00:0:110";
     NotBefore := t0 + 10 * day;
     NotAfter := t0 + 13 * day;
     KeyUsage := KeyUsageDigitalSignature;
     ExtKeyUsage_ := [ExtKeyUsageServerAuth; ExtKeyUsageClientAuth;
                      ExtKeyUsageTimeStamping];
     BasicConstraintsValid := false;
     IsCA := false;
     SubjectKeyId := skidOf asKey;
     AuthorityKeyId := skidOf caKey;
     PublicKey_ := asKey |}.

End Sample.

(* ================================================================== *)
(** * Properties *)

(** ** Bytes and SHA-1 *)

Lemma be_fixed_length n x : length (be_fixed n x) = n.
Proof.
  revert x; induction n as [|n IH]; intro x; simpl; [reflexivity|].
  rewrite length_app, IH; simpl; lia.
Qed.

Lemma sha1_Sum_length msg : length (sha1.Sum msg) = sha1.Size.
Proof. unfold sha1.Sum; rewrite !length_app, !be_fixed_length; reflexivity. Qed.

(** The test vectors of FIPS 180. *)
Example sha1_empty :
  fmt_x_bytes (sha1.Sum []) = "da39a3ee5e6b4b0d3255bfef95601890afd80709".
Proof. vm_compute. reflexivity. Qed.

Example sha1_abc :
  fmt_x_bytes (sha1.Sum (ascii_bytes "abc")) = "a9993e364706816aba3e25717850c26c9cd0d89d".
Proof. vm_compute. reflexivity. Qed.

Example sha1_two_blocks :
  fmt_x_bytes (sha1.Sum (ascii_bytes
    "abcdbcdecdefdefgefghfghighijhijkijkljklmklmnlmnomnopnopq"))
  = "84983e441c3bd26ebaae4aa1f95129e5e54670f1".
Proof. vm_compute. reflexivity. Qed.

(** ** Names *)

Lemma list_eqb_refl {A} (eqb : A -> A -> bool) :
  (forall x, eqb x x = true) -> forall l, pkix.list_eqb eqb l l = true.
Proof.
  intros H l; induction l as [|x l IH]; simpl; [reflexivity|].
  now rewrite H, IH.
Qed.

Lemma oid_eqb_refl o : pkix.oid_eqb o o = true.
Proof. unfold pkix.oid_eqb; destruct (list_eq_dec Z.eq_dec o o); congruence. Qed.

Lemma atv_eqb_refl a : pkix.atv_eqb a a = true.
Proof. unfold pkix.atv_eqb; now rewrite oid_eqb_refl, String.eqb_refl. Qed.

Lemma Name_eqb_refl n : pkix.Name_eqb n n = true.
Proof.
  unfold pkix.Name_eqb.
  rewrite !(list_eqb_refl String.eqb String.eqb_refl), !String.eqb_refl.
  now rewrite !(list_eqb_refl pkix.atv_eqb atv_eqb_refl).
Qed.

(** ** The trace monad *)

Section Monad.
Context {E A B : Type}.

Lemma outcome_bind (m : M E A) (f : A -> M E B) :
  outcome (bind m f) =
  match outcome m with
  | Ok a => outcome (f a)
  | Err e => Err e
  | Panic s => Panic s
  end.
Proof.
  destruct m as [t [a|e|s]]; simpl; try reflexivity.
  now destruct (f a).
Qed.

Lemma trace_bind (m : M E A) (f : A -> M E B) :
  trace (bind m f) =
  trace m ++ match outcome m with
             | Ok a => trace (f a)
             | _ => []
             end.
Proof.
  destruct m as [t [a|e|s]]; simpl; try now rewrite app_nil_r.
  now destruct (f a).
Qed.

Lemma outcome_bind_Ok (m : M E A) (f : A -> M E B) b :
  outcome (bind m f) = Ok b ->
  exists a, outcome m = Ok a /\ outcome (f a) = Ok b.
Proof.
  rewrite outcome_bind; destruct (outcome m) as [a|e|s]; try discriminate.
  intro H; now exists a.
Qed.

Lemma Forall_trace_bind (P : E -> Prop) (m : M E A) (f : A -> M E B) :
  Forall P (trace m) ->
  (forall a, outcome m = Ok a -> Forall P (trace (f a))) ->
  Forall P (trace (bind m f)).
Proof.
  intros Hm Hf; rewrite trace_bind; apply Forall_app; split; [exact Hm|].
  destruct (outcome m) as [a|e|s]; auto.
Qed.

Lemma outcome_wrap msg (m : M E A) :
  outcome (wrap msg m) =
  match outcome m with
  | Err e => Err (WrapStr msg e)
  | other => other
  end.
Proof. now destruct m as [t [a|e|s]]. Qed.

Lemma trace_wrap msg (m : M E A) : trace (wrap msg m) = trace m.
Proof. now destruct m as [t [a|e|s]]. Qed.

Lemma outcome_ask_Ok (r : reply A) a :
  outcome (ask (E := E) r) = Ok a <-> r = Done a.
Proof. destruct r; simpl; split; congruence. Qed.

Lemma outcome_call_Ok (ev : E) (r : reply A) a :
  outcome (call ev r) = Ok a <-> r = Done a.
Proof. destruct r; simpl; split; congruence. Qed.

Lemma outcome_wrap_Ok msg (m : M E A) a :
  outcome (wrap msg m) = Ok a <-> outcome m = Ok a.
Proof. rewrite outcome_wrap; destruct (outcome m); split; congruence. Qed.

Lemma outcome_ask (r : reply A) : outcome (ask (E := E) r) = of_reply r.
Proof. reflexivity. Qed.

Lemma outcome_call (ev : E) (r : reply A) : outcome (call ev r) = of_reply r.
Proof. reflexivity. Qed.

Lemma trace_ask (r : reply A) : trace (ask (E := E) r) = [].
Proof. reflexivity. Qed.

Lemma trace_call (ev : E) (r : reply A) : trace (call ev r) = [ev].
Proof. reflexivity. Qed.

Lemma bind_ret a (f : A -> M E B) : bind (ret a) f = f a.
Proof. simpl; now destruct (f a). Qed.

Lemma bind_Done a (f : A -> M E B) : bind (ask (Done a)) f = f a.
Proof. simpl; now destruct (f a). Qed.

Lemma bind_Failed e (f : A -> M E B) : bind (ask (Failed e)) f = ([], Err e).
Proof. reflexivity. Qed.

Lemma bind_ask_Done (r : reply A) a (f : A -> M E B) :
  r = Done a -> bind (ask r) f = f a.
Proof. intros ->; simpl; now destruct (f a). Qed.

Lemma bind_ask_Failed (r : reply A) e (f : A -> M E B) :
  r = Failed e -> bind (ask r) f = ([], Err e).
Proof. now intros ->. Qed.

Lemma bind_wrap_ask_Done msg (r : reply A) a (f : A -> M E B) :
  r = Done a -> bind (wrap msg (ask r)) f = f a.
Proof. intros ->; simpl; now destruct (f a). Qed.

Lemma bind_wrap_ask_Failed msg (r : reply A) e (f : A -> M E B) :
  r = Failed e -> bind (wrap msg (ask r)) f = ([], Err (WrapStr msg e)).
Proof. now intros ->. Qed.

End Monad.

(** ** Validity *)

(** C1.  [Covers outer inner] holds exactly when the outer interval starts
    no later and ends no earlier than the inner one, and is false exactly
    when one of the two bounds violates the containment. *)
Theorem Covers_iff_contained (outer inner : cppki.Validity) :
  (cppki.Covers outer inner = true <->
   cppki.NotBefore outer <= cppki.NotBefore inner
   /\ cppki.NotAfter inner <= cppki.NotAfter outer)
  /\
  (cppki.Covers outer inner = false <->
   cppki.NotBefore inner < cppki.NotBefore outer
   \/ cppki.NotAfter outer < cppki.NotAfter inner).
Proof.
  unfold cppki.Covers; split.
  - rewrite andb_true_iff, !Z.leb_le; tauto.
  - rewrite andb_false_iff, !Z.leb_gt; tauto.
Qed.

(** ** Issuing a chain *)

Section CreateChain.
Import x509 cppki.
Variables (w : cppki.World) (ca : CAPolicy.t) (csr : CertificateRequest).

Let now : Time := CAPolicy.effectiveNow w ca.
Let caVal : Validity := CAPolicy.caValidity ca.
Let asVal : Validity := CAPolicy.asValidity ca now.

Lemma outcome_signingTime :
  outcome (CAPolicy.signingTime w ca) = Ok (CAPolicy.effectiveNow w ca).
Proof.
  unfold CAPolicy.signingTime, CAPolicy.effectiveNow.
  now destruct (time_IsZero (CAPolicy.CurrentTime ca)).
Qed.

Lemma trace_signingTime :
  trace (CAPolicy.signingTime w ca) =
  if time_IsZero (CAPolicy.CurrentTime ca) then [EvTimeNow] else [].
Proof.
  unfold CAPolicy.signingTime.
  now destruct (time_IsZero (CAPolicy.CurrentTime ca)).
Qed.

(** A chain that [CreateChain] returns is the parsed output of
    [x509.CreateCertificate] on the template, followed by the CA
    certificate. *)
Lemma CreateChain_Ok_inv chain :
  outcome (CAPolicy.CreateChain w ca csr) = Ok chain ->
  exists serial skid leaf,
    Covers caVal asVal = true
    /\ rand_Read w 20 = Done serial
    /\ SubjectKeyID (csr_PublicKey csr) = Ok skid
    /\ CreateCertificate
         (CAPolicy.template ca asVal serial
            (pkix.with_ExtraNames (csr_Subject csr) (pkix.Names (csr_Subject csr))) skid)
         (CAPolicy.Certificate ca) (csr_PublicKey csr) (CAPolicy.Signer ca)
       = Done (DERCertificate leaf)
    /\ ValidateChain [leaf; CAPolicy.Certificate ca] = Done tt
    /\ chain = [leaf; CAPolicy.Certificate ca].
Proof.
  unfold CAPolicy.CreateChain.
  rewrite outcome_bind, outcome_signingTime.
  fold now; cbv zeta; fold caVal asVal.
  destruct (Covers caVal asVal) eqn:Hcov; simpl negb; cbv iota;
    [|discriminate].
  intro H.
  apply outcome_bind_Ok in H as (serial & Hserial & H).
  rewrite outcome_wrap in Hserial; simpl in Hserial.
  destruct (rand_Read w 20) as [serial'|e] eqn:Hrand; simpl in Hserial;
    [|discriminate].
  injection Hserial as Heq; subst.
  apply outcome_bind_Ok in H as (skid & Hskid & H).
  rewrite outcome_wrap in Hskid; simpl in Hskid.
  destruct (SubjectKeyID (csr_PublicKey csr)) as [skid'|e|s] eqn:Hid;
    try discriminate.
  injection Hskid as Heq; subst.
  apply outcome_bind_Ok in H as (raw & Hraw & H).
  rewrite outcome_wrap in Hraw; simpl in Hraw.
  match type of Hraw with
  | context [of_reply ?c] => destruct c as [raw'|e] eqn:Hcreate
  end; simpl in Hraw; [|discriminate].
  injection Hraw as Heq; subst.
  apply outcome_bind_Ok in H as (leaf & Hleaf & H).
  rewrite outcome_wrap in Hleaf; simpl in Hleaf.
  destruct raw as [c|b]; simpl in Hleaf; [|discriminate].
  injection Hleaf as Heq; subst.
  apply outcome_bind_Ok in H as ([] & Hval & H).
  destruct (ValidateChain [leaf; CAPolicy.Certificate ca]) as [[]|e] eqn:Hv;
    [|rewrite outcome_wrap in Hval; discriminate].
  simpl in H. injection H as Heq; subst.
  exists serial, skid, leaf. repeat split; auto.
Qed.

(** The leaf that [x509.CreateCertificate] makes from the template. *)
Lemma CreateCertificate_template_inv val serial subject skid leaf :
  CreateCertificate (CAPolicy.template ca val serial subject skid)
    (CAPolicy.Certificate ca) (csr_PublicKey csr) (CAPolicy.Signer ca)
  = Done (DERCertificate leaf) ->
  SignatureAlgorithm_ leaf = ECDSAWithSHA512
  /\ Signature leaf = Some {| sig_key := Public (CAPolicy.Signer ca);
                              sig_algorithm := ECDSAWithSHA512 |}
  /\ Issuer leaf = Subject (CAPolicy.Certificate ca)
  /\ SubjectKeyId leaf = skid
  /\ PublicKey_ leaf = csr_PublicKey csr
  /\ x509.NotBefore leaf = time_DER (NotBefore val)
  /\ x509.NotAfter leaf = time_DER (NotAfter val).
Proof.
  unfold CreateCertificate, signingParamsForPublicKey; simpl.
  destruct (keyType (Public (CAPolicy.Signer ca))) as [[]|]; simpl; try discriminate.
  destruct (keyType (csr_PublicKey csr)); try discriminate.
  destruct (SignError (CAPolicy.Signer ca)); try discriminate.
  intro H; injection H as <-; simpl; repeat split.
Qed.

End CreateChain.

(** C2.  When the window from the signing time to the signing time plus
    the configured duration is not covered by the validity of the CA
    certificate, [CreateChain] returns the error "AS certificate validity
    not covered" and no chain, and has by then neither drawn a serial
    number nor created, parsed or signed any certificate: at most the
    clock was read. *)
Theorem CreateChain_validity_not_covered
    (w : cppki.World) (ca : cppki.CAPolicy.t) (csr : x509.CertificateRequest) :
  cppki.Covers (cppki.CAPolicy.caValidity ca)
    (cppki.CAPolicy.asValidity ca (cppki.CAPolicy.effectiveNow w ca)) = false ->
  outcome (cppki.CAPolicy.CreateChain w ca csr)
  = Err (New "AS certificate validity not covered")
  /\ trace (cppki.CAPolicy.CreateChain w ca csr)
     = (if time_IsZero (cppki.CAPolicy.CurrentTime ca) then [cppki.EvTimeNow] else [])
  /\ Forall (fun ev => ev = cppki.EvTimeNow) (trace (cppki.CAPolicy.CreateChain w ca csr)).
Proof.
  intro Hcov.
  assert (Ht : trace (cppki.CAPolicy.CreateChain w ca csr)
               = (if time_IsZero (cppki.CAPolicy.CurrentTime ca)
                  then [cppki.EvTimeNow] else [])).
  { unfold cppki.CAPolicy.CreateChain.
    rewrite trace_bind, outcome_signingTime, trace_signingTime.
    cbv zeta; rewrite Hcov; simpl. now rewrite app_nil_r. }
  split; [|split; [exact Ht|]].
  - unfold cppki.CAPolicy.CreateChain.
    rewrite outcome_bind, outcome_signingTime.
    cbv zeta; now rewrite Hcov.
  - rewrite Ht. destruct (time_IsZero (cppki.CAPolicy.CurrentTime ca)); auto.
Qed.

(** A CA certificate valid for a year cannot cover an AS certificate of
    two years. *)
Lemma CreateChain_validity_not_covered_witness :
  cppki.Covers (cppki.CAPolicy.caValidity (Sample.policy (730 * Sample.day)))
    (cppki.CAPolicy.asValidity (Sample.policy (730 * Sample.day))
       (cppki.CAPolicy.effectiveNow Sample.issuingWorld
          (Sample.policy (730 * Sample.day)))) = false
  /\ outcome (cppki.CAPolicy.CreateChain Sample.issuingWorld
                (Sample.policy (730 * Sample.day)) Sample.csr)
     = Err (New "AS certificate validity not covered").
Proof.
  split; [reflexivity|].
  apply (CreateChain_validity_not_covered Sample.issuingWorld
           (Sample.policy (730 * Sample.day)) Sample.csr).
  reflexivity.
Defined.

(** Whatever the CA, an issued leaf is signed by the signer of the
    policy, and always under ECDSA with SHA-512, the algorithm the
    template fixes. *)
Lemma CreateChain_leaf_signature
    (w : cppki.World) (ca : cppki.CAPolicy.t) (csr : x509.CertificateRequest) chain :
  outcome (cppki.CAPolicy.CreateChain w ca csr) = Ok chain ->
  exists leaf,
    chain = [leaf; cppki.CAPolicy.Certificate ca]
    /\ x509.Signature leaf
       = Some {| x509.sig_key := Public (cppki.CAPolicy.Signer ca);
                 x509.sig_algorithm := x509.ECDSAWithSHA512 |}
    /\ x509.SignatureAlgorithm_ leaf = x509.ECDSAWithSHA512.
Proof.
  intro H.
  apply CreateChain_Ok_inv in H as (serial & skid & leaf & _ & _ & _ & Hc & _ & ->).
  apply CreateCertificate_template_inv in Hc as (Ha & Hs & _).
  now exists leaf.
Qed.

(** C3.  At a CA whose key is on P-256 and whose certificate declares
    ECDSA with SHA-256, [CreateChain] accepts the request and signs the
    leaf with the CA's key, but under ECDSA with SHA-512: neither the
    algorithm the CA certificate declares nor the one of the CA's key. *)
Theorem CreateChain_P256_CA_signs_under_SHA512 :
  exists leaf,
    outcome (cppki.CAPolicy.CreateChain Sample.issuingWorld
               (Sample.policy (3 * Sample.day)) Sample.csr)
    = Ok [leaf; Sample.caCert]
    /\ x509.Signature leaf
       = Some {| x509.sig_key := Sample.caKey;
                 x509.sig_algorithm := x509.ECDSAWithSHA512 |}
    /\ x509.SignatureAlgorithm_ Sample.caCert = x509.ECDSAWithSHA256
    /\ x509.defaultAlgorithm (Public Sample.caSigner) = x509.ECDSAWithSHA256.
Proof.
  destruct (outcome (cppki.CAPolicy.CreateChain Sample.issuingWorld
                       (Sample.policy (3 * Sample.day)) Sample.csr))
    as [chain|e|s] eqn:H.
  - destruct (CreateChain_leaf_signature _ _ _ H) as (leaf & -> & Hs & _).
    exists leaf; repeat split; assumption.
  - vm_compute in H; discriminate.
  - vm_compute in H; discriminate.
Qed.

(** ** The subject key identifier *)

(** C4.  The subject key identifier is a function of the public key
    alone: for an ECDSA key it is the SHA-1 hash, 20 bytes, of the
    marshaled point, and no other key yields one.  The leaf [CreateChain]
    issues carries the identifier recomputed from the public key of the
    request, so that two requests with the same key get the same
    identifier whatever else they carry, and whatever the CA, the clock
    and the random source. *)
Theorem SubjectKeyID_recomputed_from_key :
  (forall pub id,
      cppki.SubjectKeyID pub = Ok id ->
      length id = 20%nat
      /\ exists curve X Y m,
           pub = ECDSAPublicKey curve X Y
           /\ elliptic_Marshal curve X Y = Ok m
           /\ id = sha1.Sum m)
  /\ (forall w ca csr chain,
         outcome (cppki.CAPolicy.CreateChain w ca csr) = Ok chain ->
         exists leaf,
           chain = [leaf; cppki.CAPolicy.Certificate ca]
           /\ cppki.SubjectKeyID (x509.csr_PublicKey csr) = Ok (x509.SubjectKeyId leaf))
  /\ (forall w w' ca ca' csr csr' leaf leaf' rest rest',
         x509.csr_PublicKey csr = x509.csr_PublicKey csr' ->
         outcome (cppki.CAPolicy.CreateChain w ca csr) = Ok (leaf :: rest) ->
         outcome (cppki.CAPolicy.CreateChain w' ca' csr') = Ok (leaf' :: rest') ->
         x509.SubjectKeyId leaf = x509.SubjectKeyId leaf').
Proof.
  assert (Hleaf : forall w ca csr chain,
             outcome (cppki.CAPolicy.CreateChain w ca csr) = Ok chain ->
             exists leaf,
               chain = [leaf; cppki.CAPolicy.Certificate ca]
               /\ cppki.SubjectKeyID (x509.csr_PublicKey csr)
                  = Ok (x509.SubjectKeyId leaf)).
  { intros w ca csr chain H.
    apply CreateChain_Ok_inv in H as (serial & skid & leaf & _ & _ & Hid & Hc & _ & ->).
    apply CreateCertificate_template_inv in Hc as (_ & _ & _ & Hk & _).
    exists leaf; split; [reflexivity|]. now rewrite Hk. }
  split; [|split; [exact Hleaf|]].
  - intros pub id H; unfold cppki.SubjectKeyID in H.
    destruct pub as [curve X Y| | |]; try discriminate.
    destruct (elliptic_Marshal curve X Y) as [m|e|s] eqn:Hm; try discriminate.
    injection H as <-; split; [apply sha1_Sum_length|].
    now exists curve, X, Y, m.
  - intros w w' ca ca' csr csr' leaf leaf' rest rest' Hkey H H'.
    apply Hleaf in H as (l & Hl & Hid), H' as (l' & Hl' & Hid').
    injection Hl as -> _; injection Hl' as -> _.
    rewrite Hkey in Hid; rewrite Hid in Hid'. now injection Hid'.
Qed.

(** The sample request: the issued leaf carries the SHA-1 identifier of
    the requested key. *)
Lemma SubjectKeyID_recomputed_from_key_witness :
  exists chain leaf,
    outcome (cppki.CAPolicy.CreateChain Sample.issuingWorld
               (Sample.policy (3 * Sample.day)) Sample.csr) = Ok chain
    /\ chain = [leaf; Sample.caCert]
    /\ cppki.SubjectKeyID Sample.asKey = Ok (x509.SubjectKeyId leaf)
    /\ length (x509.SubjectKeyId leaf) = 20%nat.
Proof.
  destruct (outcome (cppki.CAPolicy.CreateChain Sample.issuingWorld
                       (Sample.policy (3 * Sample.day)) Sample.csr))
    as [chain|e|s] eqn:H; [|vm_compute in H; discriminate..].
  destruct (proj1 (proj2 SubjectKeyID_recomputed_from_key) _ _ _ _ H)
    as (leaf & Hc & Hid).
  exists chain, leaf; repeat split; try assumption.
  exact (proj1 (proj1 SubjectKeyID_recomputed_from_key _ _ Hid)).
Defined.

(** ** Parsing the reply *)

Section ExtractChain.
Import x509 certs.
Variables (w : World) (rep : ChainRenewalResponse).

Lemma ParseCertificates_length raw chain :
  ParseCertificates raw = Done chain -> length chain = length raw.
Proof.
  revert chain; induction raw as [|d raw IH]; simpl; intros chain H.
  - now injection H as <-.
  - destruct (ParseCertificate d); [|discriminate].
    destruct (ParseCertificates raw) as [cs|]; [|discriminate].
    injection H as <-; simpl; f_equal; now apply IH.
Qed.

(** Only a pair passes [ValidateChain]. *)
Lemma ValidateChain_two chain :
  cppki.ValidateChain chain = Done tt -> length chain = 2%nat.
Proof. now destruct chain as [|a [|c [|x rest]]]. Qed.

(** The legacy path succeeds exactly on a reply whose body decodes to
    a chain message of two parseable certificates that form a valid
    chain. *)
Lemma extractChainLegacy_Ok chain :
  outcome (extractChainLegacy w rep) = Ok chain <->
  exists body c c0 c1,
    ExtractUnverifiedBody w (SignedResponse rep) = Done body
    /\ proto_Unmarshal w body = Done {| Chain_ := Some c |}
    /\ ParseCertificate (AsCert c) = Done c0
    /\ ParseCertificate (CaCert c) = Done c1
    /\ cppki.ValidateChain [c0; c1] = Done tt
    /\ chain = [c0; c1].
Proof.
  unfold extractChainLegacy; split.
  - intro H.
    apply outcome_bind_Ok in H as (body & Hb%outcome_ask_Ok & H).
    apply outcome_bind_Ok in H as ([[c|]] & Hu%outcome_ask_Ok & H);
      cbn [Chain_] in H; [|discriminate].
    apply outcome_bind_Ok in H as (c0 & H0%outcome_wrap_Ok%outcome_ask_Ok & H).
    apply outcome_bind_Ok in H as (c1 & H1%outcome_wrap_Ok%outcome_ask_Ok & H).
    apply outcome_bind_Ok in H as ([] & Hv%outcome_ask_Ok & H).
    injection H as <-.
    now exists body, c, c0, c1.
  - intros (body & c & c0 & c1 & Hb & Hu & H0 & H1 & Hv & ->).
    rewrite (@bind_ask_Done _ _ _ _ _ _ Hb), (@bind_ask_Done _ _ _ _ _ _ Hu); cbn [Chain_].
    rewrite (@bind_wrap_ask_Done _ _ _ _ _ _ _ H0), (@bind_wrap_ask_Done _ _ _ _ _ _ _ H1).
    now rewrite (@bind_ask_Done _ _ _ _ _ _ Hv).
Qed.

(** The CMS path succeeds exactly on a reply whose content info,
    signed data and encapsulated content decode to certificates that
    form a valid chain. *)
Lemma extractChain_CMS_Ok chain :
  CmsSignedResponse rep <> [] ->
  outcome (extractChain w rep) = Ok chain <->
  exists ci sd raw,
    ParseContentInfo w (CmsSignedResponse rep) = Done ci
    /\ SignedDataContent w ci = Done sd
    /\ DataEContent w sd = Done raw
    /\ ParseCertificates raw = Done chain
    /\ cppki.ValidateChain chain = Done tt.
Proof.
  intro Hne; unfold extractChain.
  destruct (CmsSignedResponse rep) as [|b cms] eqn:Hc; [congruence|].
  change (Nat.eqb (length (b :: cms)) 0) with false; cbv iota; split.
  - intro H.
    apply outcome_bind_Ok in H as (ci & H1%outcome_ask_Ok & H).
    apply outcome_bind_Ok in H as (sd & H2%outcome_ask_Ok & H).
    apply outcome_bind_Ok in H as (raw & H3%outcome_ask_Ok & H).
    apply outcome_bind_Ok in H as (cs & H4%outcome_ask_Ok & H).
    apply outcome_bind_Ok in H as ([] & H5%outcome_ask_Ok & H).
    injection H as <-.
    now exists ci, sd, raw.
  - intros (ci & sd & raw & H1 & H2 & H3 & H4 & H5).
    rewrite (@bind_ask_Done _ _ _ _ _ _ H1), (@bind_ask_Done _ _ _ _ _ _ H2), (@bind_ask_Done _ _ _ _ _ _ H3).
    now rewrite (@bind_ask_Done _ _ _ _ _ _ H4), (@bind_ask_Done _ _ _ _ _ _ H5).
Qed.

(** The CMS path never panics: what is not a chain is an error. *)
Lemma extractChain_CMS_total :
  CmsSignedResponse rep <> [] ->
  is_Ok (outcome (extractChain w rep)) = false ->
  is_Err (outcome (extractChain w rep)) = true.
Proof.
  intro Hne; unfold extractChain.
  destruct (CmsSignedResponse rep) as [|b cms] eqn:Hc; [congruence|].
  change (Nat.eqb (length (b :: cms)) 0) with false; cbv iota.
  destruct (ParseContentInfo w (b :: cms)) as [ci|e];
    [rewrite bind_Done|now rewrite bind_Failed].
  destruct (SignedDataContent w ci) as [sd|e];
    [rewrite bind_Done|now rewrite bind_Failed].
  destruct (DataEContent w sd) as [raw|e];
    [rewrite bind_Done|now rewrite bind_Failed].
  destruct (ParseCertificates raw) as [cs|e];
    [rewrite bind_Done|now rewrite bind_Failed].
  destruct (cppki.ValidateChain cs) as [[]|e];
    [rewrite bind_Done|now rewrite bind_Failed].
  discriminate.
Qed.

End ExtractChain.

(** C5.  [extractChain] takes the CMS encoding when the reply carries a
    non-empty one, whatever the legacy field holds, and the legacy
    encoding otherwise.  On either path a chain is returned exactly when
    every decoding step of that path succeeds and the two certificates
    form a valid chain, and a returned chain has exactly two
    certificates.  A CMS payload that a step rejects yields that step's
    error and no chain, and so does a legacy payload, with one
    exception: a legacy body that decodes to a message without the
    chain makes [replyBody.Chain.AsCert] dereference a nil pointer, and
    the function panics where the other malformed payloads give a
    parsing error.  That is the only way [extractChain] panics. *)
Theorem extractChain_legacy_reply_without_chain_panics
    (w : certs.World) (rep : certs.ChainRenewalResponse) :
  (* the choice of the path *)
  (certs.CmsSignedResponse rep = [] ->
   certs.extractChain w rep = certs.extractChainLegacy w rep)
  /\ (certs.CmsSignedResponse rep <> [] ->
      forall legacy,
        certs.extractChain w rep
        = certs.extractChain w
            {| certs.SignedResponse := legacy;
               certs.CmsSignedResponse := certs.CmsSignedResponse rep |})
  (* the chains of the CMS path *)
  /\ (certs.CmsSignedResponse rep <> [] ->
      forall chain,
        outcome (certs.extractChain w rep) = Ok chain <->
        exists ci sd raw,
          certs.ParseContentInfo w (certs.CmsSignedResponse rep) = Done ci
          /\ certs.SignedDataContent w ci = Done sd
          /\ certs.DataEContent w sd = Done raw
          /\ certs.ParseCertificates raw = Done chain
          /\ cppki.ValidateChain chain = Done tt)
  (* the chains of the legacy path *)
  /\ (certs.CmsSignedResponse rep = [] ->
      forall chain,
        outcome (certs.extractChain w rep) = Ok chain <->
        exists body c c0 c1,
          certs.ExtractUnverifiedBody w (certs.SignedResponse rep) = Done body
          /\ certs.proto_Unmarshal w body = Done {| certs.Chain_ := Some c |}
          /\ x509.ParseCertificate (certs.AsCert c) = Done c0
          /\ x509.ParseCertificate (certs.CaCert c) = Done c1
          /\ cppki.ValidateChain [c0; c1] = Done tt
          /\ chain = [c0; c1])
  (* a chain is a pair *)
  /\ (forall chain,
         outcome (certs.extractChain w rep) = Ok chain -> length chain = 2%nat)
  (* a rejected CMS payload is an error *)
  /\ (certs.CmsSignedResponse rep <> [] ->
      (forall e, certs.ParseContentInfo w (certs.CmsSignedResponse rep) = Failed e ->
                 outcome (certs.extractChain w rep) = Err e)
      /\ (forall ci e,
             certs.ParseContentInfo w (certs.CmsSignedResponse rep) = Done ci ->
             certs.SignedDataContent w ci = Failed e ->
             outcome (certs.extractChain w rep) = Err e)
      /\ (forall ci sd e,
             certs.ParseContentInfo w (certs.CmsSignedResponse rep) = Done ci ->
             certs.SignedDataContent w ci = Done sd ->
             certs.DataEContent w sd = Failed e ->
             outcome (certs.extractChain w rep) = Err e)
      /\ (forall ci sd raw e,
             certs.ParseContentInfo w (certs.CmsSignedResponse rep) = Done ci ->
             certs.SignedDataContent w ci = Done sd ->
             certs.DataEContent w sd = Done raw ->
             certs.ParseCertificates raw = Failed e ->
             outcome (certs.extractChain w rep) = Err e)
      /\ (is_Ok (outcome (certs.extractChain w rep)) = false ->
          is_Err (outcome (certs.extractChain w rep)) = true))
  (* a legacy payload that a step rejects is an error *)
  /\ (certs.CmsSignedResponse rep = [] ->
      (forall e, certs.ExtractUnverifiedBody w (certs.SignedResponse rep) = Failed e ->
                 outcome (certs.extractChain w rep) = Err e)
      /\ (forall body e,
             certs.ExtractUnverifiedBody w (certs.SignedResponse rep) = Done body ->
             certs.proto_Unmarshal w body = Failed e ->
             outcome (certs.extractChain w rep) = Err e)
      /\ (forall body c e,
             certs.ExtractUnverifiedBody w (certs.SignedResponse rep) = Done body ->
             certs.proto_Unmarshal w body = Done {| certs.Chain_ := Some c |} ->
             x509.ParseCertificate (certs.AsCert c) = Failed e ->
             outcome (certs.extractChain w rep)
             = Err (WrapStr "parsing AS certificate" e))
      /\ (forall body c c0 e,
             certs.ExtractUnverifiedBody w (certs.SignedResponse rep) = Done body ->
             certs.proto_Unmarshal w body = Done {| certs.Chain_ := Some c |} ->
             x509.ParseCertificate (certs.AsCert c) = Done c0 ->
             x509.ParseCertificate (certs.CaCert c) = Failed e ->
             outcome (certs.extractChain w rep)
             = Err (WrapStr "parsing CA certificate" e)))
  (* the legacy body without the chain: a panic, not an error *)
  /\ (certs.CmsSignedResponse rep = [] ->
      forall body,
        certs.ExtractUnverifiedBody w (certs.SignedResponse rep) = Done body ->
        certs.proto_Unmarshal w body = Done {| certs.Chain_ := None |} ->
        certs.extractChain w rep
        = ([], Panic "invalid memory address or nil pointer dereference"))
  (* and nothing else panics *)
  /\ (forall s,
         outcome (certs.extractChain w rep) = Panic s ->
         certs.CmsSignedResponse rep = []
         /\ exists body,
             certs.ExtractUnverifiedBody w (certs.SignedResponse rep) = Done body
             /\ certs.proto_Unmarshal w body = Done {| certs.Chain_ := None |}).
Proof.
  assert (Hleg : certs.CmsSignedResponse rep = [] ->
                 certs.extractChain w rep = certs.extractChainLegacy w rep).
  { intro H; unfold certs.extractChain; now rewrite H. }
  split; [exact Hleg|].
  split; [|split; [|split; [|split; [|split; [|split; [|split]]]]]].
  - intros Hne legacy; unfold certs.extractChain; simpl.
    now destruct (certs.CmsSignedResponse rep).
  - intros Hne chain; now apply extractChain_CMS_Ok.
  - intros Hc chain; rewrite (Hleg Hc); apply extractChainLegacy_Ok.
  - intros chain H.
    destruct (certs.CmsSignedResponse rep) as [|b cms] eqn:Hc.
    + rewrite (Hleg eq_refl) in H.
      now apply extractChainLegacy_Ok in H as (? & ? & ? & ? & _ & _ & _ & _ & _ & ->).
    + assert (Hne : certs.CmsSignedResponse rep <> []) by congruence.
      apply (extractChain_CMS_Ok w rep chain Hne) in H as (? & ? & ? & _ & _ & _ & _ & Hv).
      now apply ValidateChain_two.
  - intro Hne; unfold certs.extractChain at 1 2 3 4.
    destruct (certs.CmsSignedResponse rep) as [|b cms] eqn:Hc; [congruence|].
    change (Nat.eqb (length (b :: cms)) 0) with false; cbv iota; repeat split.
    + intros e H; now rewrite (@bind_ask_Failed _ _ _ _ _ _ H).
    + intros ci e H1 H2.
      now rewrite (@bind_ask_Done _ _ _ _ _ _ H1), (@bind_ask_Failed _ _ _ _ _ _ H2).
    + intros ci sd e H1 H2 H3.
      rewrite (@bind_ask_Done _ _ _ _ _ _ H1), (@bind_ask_Done _ _ _ _ _ _ H2).
      now rewrite (@bind_ask_Failed _ _ _ _ _ _ H3).
    + intros ci sd raw e H1 H2 H3 H4.
      rewrite (@bind_ask_Done _ _ _ _ _ _ H1), (@bind_ask_Done _ _ _ _ _ _ H2), (@bind_ask_Done _ _ _ _ _ _ H3).
      now rewrite (@bind_ask_Failed _ _ _ _ _ _ H4).
    + rewrite <- Hc in *. now apply extractChain_CMS_total.
  - intro Hc; rewrite (Hleg Hc); unfold certs.extractChainLegacy; repeat split.
    + intros e H; now rewrite (@bind_ask_Failed _ _ _ _ _ _ H).
    + intros body e H1 H2.
      now rewrite (@bind_ask_Done _ _ _ _ _ _ H1), (@bind_ask_Failed _ _ _ _ _ _ H2).
    + intros body c e H1 H2 H3.
      rewrite (@bind_ask_Done _ _ _ _ _ _ H1), (@bind_ask_Done _ _ _ _ _ _ H2); cbn [certs.Chain_].
      now rewrite (@bind_wrap_ask_Failed _ _ _ _ _ _ _ H3).
    + intros body c c0 e H1 H2 H3 H4.
      rewrite (@bind_ask_Done _ _ _ _ _ _ H1), (@bind_ask_Done _ _ _ _ _ _ H2); cbn [certs.Chain_].
      rewrite (@bind_wrap_ask_Done _ _ _ _ _ _ _ H3).
      now rewrite (@bind_wrap_ask_Failed _ _ _ _ _ _ _ H4).
  - intros Hc body H1 H2; rewrite (Hleg Hc); unfold certs.extractChainLegacy.
    now rewrite (@bind_ask_Done _ _ _ _ _ _ H1), (@bind_ask_Done _ _ _ _ _ _ H2).
  - intros s Hp.
    destruct (certs.CmsSignedResponse rep) as [|b cms] eqn:Hc.
    + split; [reflexivity|].
      rewrite (Hleg eq_refl) in Hp; unfold certs.extractChainLegacy in Hp.
      destruct (certs.ExtractUnverifiedBody w (certs.SignedResponse rep)) as [body|e];
        [rewrite bind_Done in Hp|now rewrite bind_Failed in Hp].
      destruct (certs.proto_Unmarshal w body) as [[[c|]]|e] eqn:Hu;
        [|now exists body|now rewrite bind_Failed in Hp].
      exfalso; rewrite bind_Done in Hp; cbn [certs.Chain_] in Hp.
      rewrite outcome_bind, outcome_wrap, outcome_ask in Hp.
      destruct (x509.ParseCertificate (certs.AsCert c)) as [c0|e]; [|discriminate].
      cbn [of_reply] in Hp.
      rewrite outcome_bind, outcome_wrap, outcome_ask in Hp.
      destruct (x509.ParseCertificate (certs.CaCert c)) as [c1|e]; [|discriminate].
      cbn [of_reply] in Hp.
      rewrite outcome_bind, outcome_ask in Hp.
      destruct (cppki.ValidateChain [c0; c1]) as [[]|e]; discriminate.
    + exfalso.
      assert (Hne : certs.CmsSignedResponse rep <> []) by congruence.
      pose proof (extractChain_CMS_total w rep Hne) as Ht.
      rewrite Hp in Ht; now specialize (Ht eq_refl).
Qed.

(** A reply in the CMS encoding and one in the legacy encoding that
    hold the renewed chain, and a legacy reply whose body decodes to a
    message without the chain. *)
Lemma extractChain_legacy_reply_without_chain_panics_witness :
  let wc := Sample.world [] Sample.accept Sample.asPrivateKey Sample.cmsResponse
              (Sample.derChain Sample.renewedChain) None in
  let wl := Sample.world [] Sample.accept Sample.asPrivateKey Sample.legacyResponse
              [] (Sample.legacyBody Sample.renewedChain) in
  let wn := Sample.world [] Sample.accept Sample.asPrivateKey Sample.legacyResponse
              [] None in
  outcome (certs.extractChain wc Sample.cmsResponse) = Ok Sample.renewedChain
  /\ outcome (certs.extractChain wl Sample.legacyResponse) = Ok Sample.renewedChain
  /\ length Sample.renewedChain = 2%nat
  /\ certs.extractChain wn Sample.legacyResponse
     = ([], Panic "invalid memory address or nil pointer dereference").
Proof.
  intros wc wl wn.
  assert (Hr : exists c0 c1, Sample.renewedChain = [c0; c1]).
  { vm_compute; eexists _, _; reflexivity. }
  destruct Hr as (c0 & c1 & Hr).
  assert (Hv : cppki.ValidateChain Sample.renewedChain = Done tt)
    by (vm_compute; reflexivity).
  destruct (extractChain_legacy_reply_without_chain_panics wc Sample.cmsResponse)
    as (_ & _ & Hcms & _ & Hlen & _).
  destruct (extractChain_legacy_reply_without_chain_panics wl Sample.legacyResponse)
    as (_ & _ & _ & Hlegacy & _).
  destruct (extractChain_legacy_reply_without_chain_panics wn Sample.legacyResponse)
    as (_ & _ & _ & _ & _ & _ & _ & Hpanic & _).
  assert (Hc : outcome (certs.extractChain wc Sample.cmsResponse)
               = Ok Sample.renewedChain).
  { apply Hcms; [discriminate|].
    eexists _, _, _; split; [reflexivity|split; [reflexivity|split; [reflexivity|]]].
    split; [|exact Hv].
    unfold Sample.derChain; rewrite Hr; reflexivity. }
  split; [exact Hc|split; [|split; [exact (Hlen _ Hc)|]]].
  - apply (Hlegacy eq_refl).
    exists [0x0a], {| certs.AsCert := x509.DERCertificate c0;
                      certs.CaCert := x509.DERCertificate c1 |}, c0, c1.
    split; [reflexivity|].
    split; [cbn [certs.proto_Unmarshal wl Sample.world]; now rewrite Hr|].
    split; [reflexivity|split; [reflexivity|]].
    split; [now rewrite <- Hr|exact Hr].
  - exact (Hpanic eq_refl [0x0a] eq_refl eq_refl).
Defined.

(** The same chain in the legacy encoding parses to the same
    certificates. *)
Example extractChain_legacy_sample :
  outcome (certs.extractChain
             (Sample.world [] Sample.accept Sample.asPrivateKey Sample.legacyResponse
                [] (Sample.legacyBody Sample.renewedChain))
             Sample.legacyResponse)
  = Ok Sample.renewedChain.
Proof. vm_compute; reflexivity. Qed.

(** ** Reading a key *)

(** C9.  A key file whose PEM block holds a PKCS #8 private key that is
    not an ECDSA key is refused with the error "only ecdsa keys are
    supported" and no key; an ECDSA key is returned. *)
Theorem readECKey_only_ecdsa
    (w : certs.World) (file : string) (raw : bytes) (block : certs.Block)
    (key : certs.PrivateKey) :
  certs.ReadFile w file = Done raw ->
  certs.pem_Decode w raw = Some block ->
  certs.ParsePKCS8PrivateKey w (certs.Bytes block) = Done key ->
  outcome (certs.readECKey w file)
  = match key with
    | certs.ECDSAPrivateKey v => Ok v
    | _ => Err (New "only ecdsa keys are supported")
    end.
Proof.
  intros Hr Hd Hp; unfold certs.readECKey.
  rewrite outcome_bind, outcome_call, Hr; cbn [of_reply]; rewrite Hd.
  rewrite outcome_bind, outcome_ask, Hp; cbn [of_reply].
  now destruct key.
Qed.

(** An RSA key in the key file. *)
Lemma readECKey_only_ecdsa_witness :
  outcome (certs.readECKey
             (Sample.world [] Sample.accept (certs.RSAPrivateKey 3233 17 2753)
                Sample.cmsResponse [] None)
             "/certs/cp-as.key")
  = Err (New "only ecdsa keys are supported").
Proof.
  apply (@readECKey_only_ecdsa
           (Sample.world [] Sample.accept (certs.RSAPrivateKey 3233 17 2753)
              Sample.cmsResponse [] None)
           "/certs/cp-as.key" [0x2d; 0x2d; 0x2d]
           {| certs.Type_ := "PRIVATE KEY"; certs.Bytes := x509.DEROther [0x2d; 0x2d; 0x2d] |}
           (certs.RSAPrivateKey 3233 17 2753));
    reflexivity.
Defined.

(** ** The feature flags *)

Section BothDisabled.
Import certs.
Variables (w : World) (flags : Flags) (ft : Features).
Hypothesis Hparse : feature_Parse w (features flags) = Done ft.
Hypothesis Hcms : DisableCMSRequest ft = true.
Hypothesis Hlegacy : DisableLegacyRequest ft = true.

Lemma request_both_disabled ca :
  request w flags ca = ([], Err (New "both legacy and CMS request disabled")).
Proof.
  unfold request.
  rewrite (@bind_ask_Done _ _ _ _ _ _ Hparse), Hcms, Hlegacy.
  reflexivity.
Qed.

Lemma renew_both_disabled ca :
  renew w flags ca = ([], Err (New "both legacy and CMS request disabled")).
Proof. unfold renew; now rewrite request_both_disabled. Qed.

End BothDisabled.

(** C7.  With both the legacy and the CMS request disabled, the command
    returns an error, and its trace holds no network event and no
    creation of a CSR: once the remote is parsed and the tracer is set up
    the error is "both legacy and CMS request disabled", and nothing else
    was done. *)
Theorem RunE_both_encodings_disabled
    (w : certs.World) (flags : certs.Flags) (args : list string) (ft : certs.Features) :
  certs.feature_Parse w (certs.features flags) = Done ft ->
  certs.DisableCMSRequest ft = true ->
  certs.DisableLegacyRequest ft = true ->
  is_Err (outcome (certs.RunE w flags args)) = true
  /\ Forall (fun ev => certs.isNetwork ev = false /\ certs.isCSRCreation ev = false)
       (trace (certs.RunE w flags args))
  /\ (forall ca,
         outcome (certs.parseRemote args) = Ok ca ->
         certs.setupTracer w "scion-pki" (certs.tracer flags) = Done tt ->
         certs.RunE w flags args
         = ([certs.EvSetupTracer (certs.tracer flags); certs.EvCloseTracer],
            Err (New "both legacy and CMS request disabled"))).
Proof.
  intros Hparse Hcms Hlegacy.
  assert (Hr : forall ca, certs.renew w flags ca
                          = ([], Err (New "both legacy and CMS request disabled")))
    by (intro ca; now apply renew_both_disabled with (ft := ft)).
  unfold certs.RunE, certs.defer, certs.parseRemote.
  destruct args as [|a rest]; [rewrite bind_ret|].
  - rewrite Hr.
    destruct (certs.setupTracer w "scion-pki" (certs.tracer flags)) as [[]|e];
      simpl; (split; [reflexivity|split; [repeat constructor|]]).
    + intros ca _ _; reflexivity.
    + intros ca _ H; discriminate.
  - destruct (addr.IAFromString a) as [ia|e];
      [rewrite bind_Done, Hr|rewrite bind_Failed].
    + destruct (certs.setupTracer w "scion-pki" (certs.tracer flags)) as [[]|e];
        simpl; (split; [reflexivity|split; [repeat constructor|]]).
      * intros ca _ _; reflexivity.
      * intros ca _ H; discriminate.
    + simpl; split; [reflexivity|split; [constructor|]].
      intros ca H; discriminate.
Qed.

(** Both features given on the command line. *)
Lemma RunE_both_encodings_disabled_witness :
  certs.RunE
    (Sample.world [Sample.trc 2 0] Sample.accept Sample.asPrivateKey
       Sample.cmsResponse [] None)
    (Sample.flags "" "" ["disable_legacy_request"; "disable_cms_request"])
    ["1-ff00:0:110"]
  = ([certs.EvSetupTracer ""; certs.EvCloseTracer],
     Err (New "both legacy and CMS request disabled")).
Proof.
  apply (proj2 (proj2
    (@RunE_both_encodings_disabled
       (Sample.world [Sample.trc 2 0] Sample.accept Sample.asPrivateKey
          Sample.cmsResponse [] None)
       (Sample.flags "" "" ["disable_legacy_request"; "disable_cms_request"])
       ["1-ff00:0:110"]
       {| certs.DisableLegacyRequest := true; certs.DisableCMSRequest := true |}
       eq_refl eq_refl eq_refl))
    {| addr.I := 1; addr.A := 0xff0000000110 |});
    reflexivity.
Defined.

(** ** The output path *)

Lemma trace_outPath flags renewed : trace (certs.outPath flags renewed) = [].
Proof.
  unfold certs.outPath, certs.outFileFromSubject.
  destruct (String.eqb (certs.outFile flags) ""); [|reflexivity].
  destruct renewed as [|leaf rest]; [reflexivity|].
  cbn [certs.index0]; rewrite bind_ret.
  now destruct (cppki.ExtractIA (x509.Subject leaf)).
Qed.

(** [writeChain] begins by creating the file. *)
Lemma trace_writeChain w chain file :
  exists rest, trace (certs.writeChain w chain file) = certs.EvCreate file :: rest.
Proof.
  unfold certs.writeChain; rewrite trace_bind, trace_call; simpl; eauto.
Qed.

(** C8.  Without an explicit output path the path is the directory of
    the transport certificate chain joined with ISD<isd>-AS<as>.<serial>.pem,
    where the ISD (in decimal) and the AS (in file format) are those of
    the subject of the renewed leaf and the serial number is the leaf's,
    in hexadecimal; it is the file the verified chain is written to.  For
    AS 1-ff00:0:110, serial number 0x1a2b and the transport chain in
    /certs/old.pem the path is /certs/ISD1-ASff00_0_110.1a2b.pem. *)
Theorem default_output_path :
  (forall flags leaf rest ia,
      certs.outFile flags = "" ->
      cppki.ExtractIA (x509.Subject leaf) = Done ia ->
      certs.outPath flags (leaf :: rest)
      = ret (filepath.Join
               [filepath.Dir (certs.transportCertFile flags);
                ("ISD" ++ fmt_d (addr.I ia) ++ "-AS" ++ addr.FileFmt (addr.A ia)
                 ++ "." ++ fmt_x_bytes (big_Bytes (x509.SerialNumber leaf))
                 ++ ".pem")%string]))
  /\ (forall w flags trcs renewed out,
         outcome (certs.outPath flags renewed) = Ok out ->
         certs.VerifyChain w renewed trcs = Done tt ->
         exists rest,
           trace (certs.verifyAndWrite w flags trcs renewed) = certs.EvCreate out :: rest)
  /\ (forall flags rest,
         certs.outFile flags = "" ->
         certs.transportCertFile flags = "/certs/old.pem" ->
         cppki.ExtractIA (x509.Subject Sample.leaf110)
         = Done {| addr.I := 1; addr.A := 0xff0000000110 |}
         /\ x509.SerialNumber Sample.leaf110 = 0x1a2b
         /\ certs.outPath flags (Sample.leaf110 :: rest)
            = ret "/certs/ISD1-ASff00_0_110.1a2b.pem").
Proof.
  assert (H1 : forall flags leaf rest ia,
      certs.outFile flags = "" ->
      cppki.ExtractIA (x509.Subject leaf) = Done ia ->
      certs.outPath flags (leaf :: rest)
      = ret (filepath.Join
               [filepath.Dir (certs.transportCertFile flags);
                ("ISD" ++ fmt_d (addr.I ia) ++ "-AS" ++ addr.FileFmt (addr.A ia)
                 ++ "." ++ fmt_x_bytes (big_Bytes (x509.SerialNumber leaf))
                 ++ ".pem")%string])).
  { intros flags leaf rest ia Hout Hia.
    unfold certs.outPath, certs.outFileFromSubject; rewrite Hout; cbn [String.eqb].
    cbn [certs.index0]; rewrite bind_ret, Hia; reflexivity. }
  split; [exact H1|split].
  - intros w flags trcs renewed out Hout Hv.
    unfold certs.verifyAndWrite.
    rewrite trace_bind, trace_outPath, Hout, Hv; cbn [app].
    rewrite trace_bind.
    destruct (trace_writeChain w renewed out) as (rest & ->).
    simpl; eauto.
  - intros flags rest Hout Hcert.
    split; [reflexivity|split; [reflexivity|]].
    rewrite (H1 flags Sample.leaf110 rest {| addr.I := 1; addr.A := 0xff0000000110 |}
               Hout eq_refl).
    rewrite Hcert; reflexivity.
Qed.

(** The flags of the example. *)
Lemma default_output_path_witness :
  certs.outPath (Sample.flags "" "" []) [Sample.leaf110; Sample.caCert]
  = ret "/certs/ISD1-ASff00_0_110.1a2b.pem".
Proof.
  exact (proj2 (proj2 (proj2 (proj2 default_output_path)
                         (Sample.flags "" "" []) [Sample.caCert] eq_refl eq_refl))).
Defined.

(** ** A renewed chain that does not verify *)

Section VerificationFailure.
Import certs.
Variable w : World.

Let quiet (ev : Event) : Prop := isGuidance ev = false.





Variables (flags : Flags) (trcs : list cppki.TRC) (renewed : list x509.Certificate).
Variables (out : string) (e : error).
Hypothesis Hout : outcome (outPath flags renewed) = Ok out.
Hypothesis Hverify : VerifyChain w renewed trcs = Failed e.



End VerificationFailure.





(** ** Exporting the signed request *)

(** A trace of a step of the command in which nothing is transmitted. *)
Lemma trace_index0 {A} (s : list A) : trace (certs.index0 s) = [].
Proof. now destruct s. Qed.

Create HintDb quiet.

Ltac quiet_step head :=
  first
    [ solve [auto with quiet]
    | apply Forall_nil
    | apply Forall_trace_bind; [|intros ? _]
    | rewrite trace_wrap
    | rewrite trace_call
    | rewrite trace_ask
    | rewrite trace_index0
    | apply Forall_cons; [head|]
    | progress cbn [trace fst ret fail panic lift emit certs.Println
                      certs.Fprintln_stderr certs.index0]
    | match goal with
      | |- Forall _ (trace (if ?b then _ else _)) => destruct b
      | |- Forall _ (trace (match ?x with _ => _ end)) => destruct x
      end ].

Ltac quiet := repeat (quiet_step reflexivity).

Section RequestExport.
Import certs.
Variable w : World.

Let silent (ev : Event) : Prop := isTransmission ev = false.

Lemma silent_readECKey file : Forall silent (trace (readECKey w file)).
Proof. unfold readECKey; quiet. Qed.

#[local] Hint Resolve silent_readECKey : quiet.

Lemma silent_csrTemplate prev pub tmpl :
  Forall silent (trace (csrTemplate w prev pub tmpl)).
Proof.
  unfold csrTemplate, subjectFromTemplate, readVars, buildExtensions; quiet.
Qed.

Lemma silent_tryWriteFile file block : Forall silent (trace (tryWriteFile w file block)).
Proof. unfold tryWriteFile; quiet. Qed.

#[local] Hint Resolve silent_csrTemplate silent_tryWriteFile : quiet.

Lemma silent_createCSR flags chain : Forall silent (trace (createCSR w flags chain)).
Proof. unfold createCSR; quiet. Qed.

Lemma silent_createMessenger flags ca :
  Forall silent (trace (createMessenger w flags ca)).
Proof. unfold createMessenger, findLocalAddr, buildDialer; quiet. Qed.

Lemma silent_createSigner srcIA trc chain keyFile :
  Forall silent (trace (createSigner w srcIA trc chain keyFile)).
Proof. unfold createSigner; quiet. Qed.

#[local] Hint Resolve silent_createSigner : quiet.

Lemma silent_createRequest flags ft trcs chain local csr :
  Forall silent (trace (createRequest w flags ft trcs chain local csr)).
Proof. unfold createRequest; quiet. Qed.

Lemma silent_loadChain trcs file : Forall silent (trace (loadChain w trcs file)).
Proof. unfold loadChain, graceGuidance; quiet. Qed.

(** The export of the CSR, and of a request that exists, cannot fail
    the command. *)
Lemma tryWriteFile_Ok file block : outcome (tryWriteFile w file block) = Ok tt.
Proof. unfold tryWriteFile; now destruct (WriteFile w file block). Qed.

Variables (flags : Flags) (ft : Features).
Hypothesis Hcms : DisableCMSRequest ft = true.
Hypothesis Hfile : reqFile flags <> "".

Lemma reqFile_set : String.eqb (reqFile flags) "" = false.
Proof. now apply String.eqb_neq. Qed.

(** Without a CMS request there is nothing to export: the request is
    not returned. *)
Lemma createRequest_not_Ok trcs chain local csr req :
  outcome (createRequest w flags ft trcs chain local csr) <> Ok req.
Proof.
  unfold createRequest; intro H.
  apply outcome_bind_Ok in H as (trc & _ & H).
  apply outcome_bind_Ok in H as (signer & _ & H).
  apply outcome_bind_Ok in H as (req1 & H1 & H).
  assert (Hnone : CmsSignedRequest req1 = None).
  { destruct (DisableLegacyRequest ft).
    - simpl in H1; now injection H1 as <-.
    - apply outcome_bind_Ok in H1 as (legacyReq & _ & H1).
      simpl in H1; now injection H1 as <-. }
  rewrite Hcms, bind_ret, reqFile_set, Hnone in H.
  discriminate.
Qed.

Lemma createRequest_export_fails trcs trc rest chain local csr signer :
  trcs = trc :: rest ->
  outcome (createSigner w (IA local) trc chain (transportKeyFile flags)) = Ok signer ->
  DisableLegacyRequest ft = true
  \/ (exists legacyReq, NewLegacyChainRenewalRequest w csr signer = Done legacyReq) ->
  outcome (createRequest w flags ft trcs chain local csr)
  = Err (New "cannot write request to file: no request created")
  /\ trace (createRequest w flags ft trcs chain local csr)
     = trace (createSigner w (IA local) trc chain (transportKeyFile flags)).
Proof.
  intros -> Hs Hl; unfold createRequest; cbn [index0]; rewrite bind_ret.
  destruct (createSigner w (IA local) trc chain (transportKeyFile flags))
    as [t r]; simpl in Hs; subst r.
  destruct Hl as [Hl|(legacyReq & Hl)].
  - rewrite Hl, Hcms; cbn [bind ret]; rewrite reqFile_set; cbn.
    now rewrite !app_nil_r.
  - destruct (DisableLegacyRequest ft);
      rewrite Hcms; cbn [bind ret]; [|rewrite Hl; cbn [ask of_reply bind ret]];
      rewrite reqFile_set; cbn; now rewrite !app_nil_r.
Qed.

Hypothesis Hparse : feature_Parse w (features flags) = Done ft.

Lemma request_export_silent ca :
  Forall silent (trace (request w flags ca))
  /\ is_Ok (outcome (request w flags ca)) = false.
Proof.
  unfold request; rewrite (@bind_ask_Done _ _ _ _ _ _ Hparse).
  destruct (DisableCMSRequest ft && DisableLegacyRequest ft);
    [split; [constructor|reflexivity]|].
  split.
  - apply Forall_trace_bind; [quiet|intros trcs _].
    apply Forall_trace_bind; [apply silent_loadChain|intros [chain transportCA] _].
    apply Forall_trace_bind; [quiet|intros ca' _].
    apply Forall_trace_bind; [apply silent_createCSR|intros csr _].
    apply Forall_trace_bind; [apply silent_createMessenger|intros [local remote] _].
    apply Forall_trace_bind; [apply silent_createRequest|intros req Hreq].
    now apply createRequest_not_Ok in Hreq.
  - destruct (outcome _) as [[trcs renewed]|e|s] eqn:H; try reflexivity.
    apply outcome_bind_Ok in H as (trcs' & _ & H).
    apply outcome_bind_Ok in H as ([chain transportCA] & _ & H).
    apply outcome_bind_Ok in H as (ca' & _ & H).
    apply outcome_bind_Ok in H as (csr & _ & H).
    apply outcome_bind_Ok in H as ([local remote] & _ & H).
    apply outcome_bind_Ok in H as (req & Hreq & _).
    now apply createRequest_not_Ok in Hreq.
Qed.

Lemma RunE_export_silent args :
  Forall silent (trace (RunE w flags args))
  /\ is_Ok (outcome (RunE w flags args)) = false.
Proof.
  assert (Hrenew : forall ca,
             Forall silent (trace (renew w flags ca))
             /\ is_Ok (outcome (renew w flags ca)) = false).
  { intro ca; destruct (request_export_silent ca) as (Ht & Ho).
    unfold renew; split.
    - apply Forall_trace_bind; [exact Ht|].
      intros got Hgot; rewrite Hgot in Ho; discriminate.
    - rewrite outcome_bind. now destruct (outcome (request w flags ca)). }
  unfold RunE; split.
  - apply Forall_trace_bind; [unfold parseRemote; quiet|intros ca _].
    apply Forall_trace_bind; [quiet|intros _ _].
    unfold defer; cbn [trace fst]; apply Forall_app; split;
      [apply Hrenew|repeat constructor].
  - rewrite outcome_bind; destruct (outcome (parseRemote args)) as [ca|e|s];
      try reflexivity.
    rewrite outcome_bind, outcome_wrap, outcome_call.
    destruct (setupTracer w "scion-pki" (tracer flags)) as [[]|e]; try reflexivity.
    cbn [of_reply]; unfold defer; cbn [outcome snd]. apply Hrenew.
Qed.

End RequestExport.

(** C10.  When the signed request is to be exported and the CMS request
    is disabled, the command does not succeed and transmits nothing: no
    connection to the CA is opened and no renewal request is sent.  The
    step that creates the request ends, once the signer and the legacy
    request exist, with the error "cannot write request to file: no
    request created", without writing a file.  The export of the CSR, by
    contrast, never fails the command. *)
Theorem request_export_without_CMS_is_fatal
    (w : certs.World) (flags : certs.Flags) (ft : certs.Features) :
  certs.feature_Parse w (certs.features flags) = Done ft ->
  certs.DisableCMSRequest ft = true ->
  certs.reqFile flags <> "" ->
  (forall args,
      is_Ok (outcome (certs.RunE w flags args)) = false
      /\ Forall (fun ev => certs.isTransmission ev = false)
           (trace (certs.RunE w flags args)))
  /\ (forall trcs trc rest chain local csr signer,
         trcs = trc :: rest ->
         outcome (certs.createSigner w (certs.IA local) trc chain
                    (certs.transportKeyFile flags)) = Ok signer ->
         certs.DisableLegacyRequest ft = true
         \/ (exists legacyReq,
                certs.NewLegacyChainRenewalRequest w csr signer = Done legacyReq) ->
         outcome (certs.createRequest w flags ft trcs chain local csr)
         = Err (New "cannot write request to file: no request created")
         /\ Forall (fun ev => forall file block, ev <> certs.EvWriteFile file block)
              (trace (certs.createRequest w flags ft trcs chain local csr)))
  /\ (forall file block, outcome (certs.tryWriteFile w file block) = Ok tt).
Proof.
  intros Hparse Hcms Hfile; split; [|split].
  - intro args.
    destruct (@RunE_export_silent w flags ft Hcms Hfile Hparse args) as (Ht & Ho).
    now split.
  - intros trcs trc rest chain local csr signer Htrcs Hs Hl.
    destruct (@createRequest_export_fails w flags ft Hcms Hfile trcs trc rest chain
                local csr signer Htrcs Hs Hl) as (Ho & Ht).
    split; [exact Ho|rewrite Ht].
    unfold certs.createSigner, certs.readECKey.
    repeat (quiet_step ltac:(intros; discriminate)).
  - apply tryWriteFile_Ok.
Qed.

(** The request is to be written to /tmp/req.pem and only the legacy
    request is enabled. *)
Lemma request_export_without_CMS_is_fatal_witness :
  let w := Sample.world [Sample.trc 2 0] Sample.accept Sample.asPrivateKey
             Sample.cmsResponse (Sample.derChain Sample.renewedChain) None in
  let flags := Sample.flags "" "/tmp/req.pem" ["disable_cms_request"] in
  is_Ok (outcome (certs.RunE w flags [])) = false
  /\ Forall (fun ev => certs.isTransmission ev = false) (trace (certs.RunE w flags []))
  /\ outcome (certs.RunE w flags [])
     = Err (New "cannot write request to file: no request created").
Proof.
  intros w flags.
  pose proof (@request_export_without_CMS_is_fatal w flags
                {| certs.DisableLegacyRequest := false; certs.DisableCMSRequest := true |}
                eq_refl eq_refl) as H.
  assert (Hfile : certs.reqFile flags <> "") by discriminate.
  destruct (proj1 (H Hfile) []) as (Ho & Ht).
  split; [exact Ho|split; [exact Ht|]].
  vm_compute; reflexivity.
Defined.

(* ================================================================== *)
(** * Further properties of the code *)

Unset Implicit Arguments.

(** ** [CreateChain]: what is issued *)

Lemma big_SetBytes_bound (b : bytes) :
  Forall (fun x => 0 <= x < 256) b ->
  0 <= big_SetBytes b < 256 ^ Z.of_nat (length b).
Proof.
  unfold big_SetBytes.
  assert (H : forall acc n,
             0 <= acc < 256 ^ Z.of_nat n ->
             Forall (fun x => 0 <= x < 256) b ->
             0 <= fold_left (fun a x => a * 256 + x) b acc
             < 256 ^ Z.of_nat (n + length b)).
  { induction b as [|x b IH]; intros acc n Hacc Hb; simpl.
    - now rewrite Nat.add_0_r.
    - inversion Hb as [|? ? Hx Hb']; subst.
      replace (n + S (length b))%nat with (S n + length b)%nat by lia.
      apply IH; [|exact Hb'].
      rewrite Nat2Z.inj_succ, Z.pow_succ_r by lia. lia. }
  intro Hb; apply (H 0 0%nat); [simpl; lia|exact Hb].
Qed.

(** ** Names through their encoding *)

Section NameRoundTrip.
Import pkix.






















End NameRoundTrip.

(** The certificate that [x509.CreateCertificate] makes from the
    template, field by field. *)
Lemma CreateCertificate_template_fields ca val serial subject skid pub leaf :
  x509.CreateCertificate (cppki.CAPolicy.template ca val serial subject skid)
    (cppki.CAPolicy.Certificate ca) pub (cppki.CAPolicy.Signer ca)
  = Done (x509.DERCertificate leaf) ->
  x509.Version leaf = 3
  /\ x509.SerialNumber leaf = big_SetBytes serial
  /\ x509.Subject leaf = pkix.reparsed subject
  /\ x509.KeyUsage leaf = x509.KeyUsageDigitalSignature
  /\ x509.ExtKeyUsage_ leaf
     = [x509.ExtKeyUsageServerAuth; x509.ExtKeyUsageClientAuth;
        x509.ExtKeyUsageTimeStamping]
  /\ x509.BasicConstraintsValid leaf = false
  /\ x509.IsCA leaf = false
  /\ x509.AuthorityKeyId leaf = x509.SubjectKeyId (cppki.CAPolicy.Certificate ca).
Proof.
  unfold x509.CreateCertificate, x509.signingParamsForPublicKey.
  cbn [cppki.CAPolicy.template x509.SignatureAlgorithm_ x509.algorithmKeyType].
  destruct (x509.keyType (Public (cppki.CAPolicy.Signer ca))) as [[]|];
    cbn [x509.PublicKeyAlgorithm_eqb]; try discriminate.
  destruct (x509.keyType pub); try discriminate.
  destruct (SignError (cppki.CAPolicy.Signer ca)); try discriminate.
  intro H; injection H as <-.
  cbn [x509.Version x509.SerialNumber x509.Subject x509.KeyUsage x509.ExtKeyUsage_
         x509.BasicConstraintsValid x509.IsCA x509.AuthorityKeyId andb].
  repeat split.
  now destruct (_ && _)%bool.
Qed.




(** X2.  With a random source that fills the buffer, the serial number
    of an issued leaf is the big-endian value of the twenty bytes drawn:
    a natural number below 2^160. *)
Theorem CreateChain_serial_number
    (w : cppki.World) (ca : cppki.CAPolicy.t) (csr : x509.CertificateRequest)
    (leaf : x509.Certificate) (rest : list x509.Certificate) :
  cppki.fillsBuffer w ->
  outcome (cppki.CAPolicy.CreateChain w ca csr) = Ok (leaf :: rest) ->
  (exists serial,
      cppki.rand_Read w 20 = Done serial
      /\ length serial = 20%nat
      /\ x509.SerialNumber leaf = big_SetBytes serial)
  /\ 0 <= x509.SerialNumber leaf < 2 ^ 160.
Proof.
  intros Hw H.
  apply CreateChain_Ok_inv in H
    as (serial & skid & leaf' & _ & Hr & _ & Hc & _ & Heq).
  injection Heq as -> _.
  pose proof (CreateCertificate_template_fields _ _ _ _ _ _ _ Hc) as (_ & Hs & _).
  destruct (Hw _ _ Hr) as (Hlen & Hb).
  split; [now exists serial|].
  rewrite Hs. pose proof (big_SetBytes_bound _ Hb) as Hbound.
  rewrite Hlen in Hbound. exact Hbound.
Qed.

Lemma issuingWorld_fillsBuffer : cppki.fillsBuffer Sample.issuingWorld.
Proof.
  intros n b H; simpl in H; injection H as <-; split.
  - apply repeat_length.
  - apply Forall_forall; intros x Hx; apply repeat_spec in Hx; subst; lia.
Qed.

Lemma CreateChain_serial_number_witness :
  exists leaf rest,
    outcome (cppki.CAPolicy.CreateChain Sample.issuingWorld
               (Sample.policy (3 * Sample.day)) Sample.csr) = Ok (leaf :: rest)
    /\ 0 <= x509.SerialNumber leaf < 2 ^ 160.
Proof.
  destruct (outcome (cppki.CAPolicy.CreateChain Sample.issuingWorld
                       (Sample.policy (3 * Sample.day)) Sample.csr))
    as [[|leaf rest]|e|s] eqn:H; [vm_compute in H; discriminate| |vm_compute in H; discriminate..].
  exists leaf, rest; split; [reflexivity|].
  exact (proj2 (CreateChain_serial_number _ _ _ _ _ issuingWorld_fillsBuffer H)).
Defined.

(** ** [CreateChain]: what is refused *)

Section CreateChainErrors.
Import x509 cppki.
Variables (w : World) (ca : CAPolicy.t) (csr : CertificateRequest).
Hypothesis Hcov :
  Covers (CAPolicy.caValidity ca)
    (CAPolicy.asValidity ca (CAPolicy.effectiveNow w ca)) = true.

Let clock : list Event :=
  if time_IsZero (CAPolicy.CurrentTime ca) then [EvTimeNow] else [].

Lemma CreateChain_covered :
  CAPolicy.CreateChain w ca csr
  = bind (clock, Ok (CAPolicy.effectiveNow w ca)) (fun now =>
      bind (wrap "creating random serial number"
              (call (EvRandRead 20) (rand_Read w 20))) (fun serial =>
      let subject := pkix.with_ExtraNames (csr_Subject csr)
                       (pkix.Names (csr_Subject csr)) in
      bind (wrap "computing subject key ID"
              (lift (SubjectKeyID (csr_PublicKey csr)))) (fun skid =>
      let tmpl := CAPolicy.template ca (CAPolicy.asValidity ca now) serial subject skid in
      bind (wrap "creating AS certificate"
              (call (EvCreateCertificate tmpl (CAPolicy.Certificate ca)
                       (csr_PublicKey csr) (CAPolicy.Signer ca))
                 (CreateCertificate tmpl (CAPolicy.Certificate ca)
                    (csr_PublicKey csr) (CAPolicy.Signer ca)))) (fun raw =>
      bind (wrap "parse created AS certificate"
              (call (EvParseCertificate raw) (ParseCertificate raw))) (fun as_ =>
      bind (wrap "created invalid AS certificate"
              (ask (ValidateChain [as_; CAPolicy.Certificate ca]))) (fun _ =>
      ret [as_; CAPolicy.Certificate ca])))))).
Proof.
  unfold CAPolicy.CreateChain, CAPolicy.signingTime, clock, CAPolicy.effectiveNow in *.
  destruct (time_IsZero (CAPolicy.CurrentTime ca)); cbn [call of_reply ret bind];
    cbv zeta; rewrite Hcov; reflexivity.
Qed.

Lemma CreateChain_random_failure e :
  rand_Read w 20 = Failed e ->
  CAPolicy.CreateChain w ca csr
  = (clock ++ [EvRandRead 20], Err (WrapStr "creating random serial number" e)).
Proof. intro H; rewrite CreateChain_covered, H; reflexivity. Qed.

Lemma CreateChain_unsupported_key serial :
  rand_Read w 20 = Done serial ->
  (forall curve X Y, csr_PublicKey csr <> ECDSAPublicKey curve X Y) ->
  CAPolicy.CreateChain w ca csr
  = (clock ++ [EvRandRead 20],
     Err (WrapStr "computing subject key ID" (New "not supported"))).
Proof.
  intros H Hkey; rewrite CreateChain_covered, H.
  destruct (csr_PublicKey csr) as [curve X Y| | |] eqn:Hk;
    [now destruct (Hkey curve X Y)|reflexivity..].
Qed.

End CreateChainErrors.

(** X3.  When the validity is covered, a failure of the random source is
    returned as "creating random serial number", and a request whose
    public key is not an ECDSA key as "computing subject key ID: not
    supported".  In both cases the clock and the random source are all
    that was used: no certificate was created or signed. *)
Theorem CreateChain_refuses_before_creating
    (w : cppki.World) (ca : cppki.CAPolicy.t) (csr : x509.CertificateRequest) :
  cppki.Covers (cppki.CAPolicy.caValidity ca)
    (cppki.CAPolicy.asValidity ca (cppki.CAPolicy.effectiveNow w ca)) = true ->
  let clock := if time_IsZero (cppki.CAPolicy.CurrentTime ca)
               then [cppki.EvTimeNow] else [] in
  (forall e,
      cppki.rand_Read w 20 = Failed e ->
      cppki.CAPolicy.CreateChain w ca csr
      = (clock ++ [cppki.EvRandRead 20],
         Err (WrapStr "creating random serial number" e)))
  /\ (forall serial,
         cppki.rand_Read w 20 = Done serial ->
         (forall curve X Y, x509.csr_PublicKey csr <> ECDSAPublicKey curve X Y) ->
         cppki.CAPolicy.CreateChain w ca csr
         = (clock ++ [cppki.EvRandRead 20],
            Err (WrapStr "computing subject key ID" (New "not supported")))).
Proof.
  intros Hcov clock; split.
  - intros e H; now apply CreateChain_random_failure.
  - intros serial H Hkey; now apply CreateChain_unsupported_key with (serial := serial).
Qed.

(** A request that carries an RSA key. *)
Lemma CreateChain_refuses_before_creating_witness :
  cppki.CAPolicy.CreateChain Sample.issuingWorld (Sample.policy (3 * Sample.day))
    {| x509.csr_Subject := x509.csr_Subject Sample.csr;
       x509.csr_PublicKey := RSAPublicKey 3233 17;
       x509.csr_Extensions := [];
       x509.csr_ExtraExtensions := [] |}
  = ([cppki.EvTimeNow; cppki.EvRandRead 20],
     Err (WrapStr "computing subject key ID" (New "not supported"))).
Proof.
  apply (proj2 (CreateChain_refuses_before_creating Sample.issuingWorld
                  (Sample.policy (3 * Sample.day)) _ eq_refl)
           (repeat 0x5c 20) eq_refl).
  intros curve X Y; discriminate.
Defined.

(** X4.  A chain is issued only if the signer of the CA holds an ECDSA
    key and signs without error, and the key of the request is an ECDSA
    key: the template asks for ECDSA with SHA-512, which no other key
    can sign under. *)
Theorem CreateChain_needs_ecdsa_keys
    (w : cppki.World) (ca : cppki.CAPolicy.t) (csr : x509.CertificateRequest)
    (chain : list x509.Certificate) :
  outcome (cppki.CAPolicy.CreateChain w ca csr) = Ok chain ->
  x509.keyType (Public (cppki.CAPolicy.Signer ca)) = Some x509.ECDSA
  /\ SignError (cppki.CAPolicy.Signer ca) = None
  /\ x509.keyType (x509.csr_PublicKey csr) = Some x509.ECDSA.
Proof.
  intro H.
  apply CreateChain_Ok_inv in H
    as (serial & skid & leaf & _ & _ & Hid & Hc & _ & _).
  assert (Hk : x509.keyType (x509.csr_PublicKey csr) = Some x509.ECDSA).
  { unfold cppki.SubjectKeyID in Hid.
    now destruct (x509.csr_PublicKey csr). }
  unfold x509.CreateCertificate, x509.signingParamsForPublicKey in Hc.
  simpl in Hc. rewrite Hk in Hc.
  destruct (x509.keyType (Public (cppki.CAPolicy.Signer ca))) as [[]|];
    simpl in Hc; try discriminate.
  destruct (SignError (cppki.CAPolicy.Signer ca)); try discriminate.
  auto.
Qed.

Lemma CreateChain_needs_ecdsa_keys_witness :
  x509.keyType (Public (cppki.CAPolicy.Signer (Sample.policy (3 * Sample.day))))
  = Some x509.ECDSA.
Proof.
  destruct (outcome (cppki.CAPolicy.CreateChain Sample.issuingWorld
                       (Sample.policy (3 * Sample.day)) Sample.csr))
    as [chain|e|s] eqn:H; [|vm_compute in H; discriminate..].
  exact (proj1 (CreateChain_needs_ecdsa_keys _ _ _ _ H)).
Defined.

(** ** The run of the command: what reaches the network *)

Section MonadMore.
Context {E A B : Type}.

Lemma bind_call_Done (ev : E) (r : reply A) (a : A) (f : A -> M E B) :
  r = Done a -> bind (call ev r) f = (ev :: trace (f a), outcome (f a)).
Proof. intros ->; simpl; now destruct (f a). Qed.

Lemma bind_call_Failed (ev : E) (r : reply A) (e : error) (f : A -> M E B) :
  r = Failed e -> bind (call ev r) f = ([ev], Err e).
Proof. now intros ->. Qed.

Lemma bind_run (t : list E) (a : A) (f : A -> M E B) :
  bind (t, Ok a) f = (t ++ trace (f a), outcome (f a)).
Proof. simpl; now destruct (f a). Qed.

Lemma bind_Ok (m : M E A) (a : A) (f : A -> M E B) :
  outcome m = Ok a -> bind m f = (trace m ++ trace (f a), outcome (f a)).
Proof. destruct m as [t r]; simpl; intros ->; now destruct (f a). Qed.

End MonadMore.

Lemma trace_parseRemote args : trace (certs.parseRemote args) = [].
Proof. now destruct args. Qed.

Lemma Forall_False_nil {A} (t : list A) : Forall (fun _ => False) t -> t = [].
Proof. destruct t as [|x t]; [reflexivity|]. intro H; inversion H; contradiction. Qed.

Lemma trace_extractChain w rep : trace (certs.extractChain w rep) = [].
Proof.
  apply Forall_False_nil.
  unfold certs.extractChain, certs.extractChainLegacy; quiet.
Qed.

(** What [writeChain] does is confined to its file. *)
Lemma writeChain_events w chain file :
  Forall (fun ev => ev = certs.EvCreate file
                    \/ (exists block, ev = certs.EvPemEncode file block)
                    \/ ev = certs.EvClose file)
    (trace (certs.writeChain w chain file)).
Proof.
  unfold certs.writeChain.
  apply Forall_trace_bind;
    [rewrite trace_call; apply Forall_cons; [now left|constructor]|intros _ _].
  apply Forall_trace_bind;
    [|intros _ _; rewrite trace_call; apply Forall_cons; [now right; right|constructor]].
  induction chain as [|c rest IH]; [constructor|].
  cbn [certs.encodeAll].
  apply Forall_trace_bind; [|intros _ _; exact IH].
  rewrite trace_call; apply Forall_cons; [right; left; eauto|constructor].
Qed.

Section Silence.
Import certs.
Variable w : World.

Let silent (ev : Event) : Prop := isNetwork ev = false.

Lemma local_writeChain chain file : Forall silent (trace (writeChain w chain file)).
Proof.
  eapply Forall_impl; [|apply writeChain_events].
  intros ev [->|[(block & ->)| ->]]; reflexivity.
Qed.

Lemma local_verifyAndWrite flags trcs renewed :
  Forall silent (trace (verifyAndWrite w flags trcs renewed)).
Proof.
  unfold verifyAndWrite.
  apply Forall_trace_bind; [rewrite trace_outPath; constructor|intros out _].
  destruct (VerifyChain w renewed trcs) as [[]|e].
  - apply Forall_trace_bind; [apply local_writeChain|intros _ _].
    repeat constructor.
  - apply Forall_trace_bind; [repeat constructor|intros _ _].
    apply Forall_trace_bind; [|intros _ _].
    + unfold onError.
      destruct (writeChain w renewed (out ++ ".unverified")) as [t [[]|e'|s]] eqn:Hw;
        pose proof (local_writeChain renewed (out ++ ".unverified")) as Hl;
        rewrite Hw in Hl; cbn [trace fst] in Hl; try exact Hl.
      rewrite bind_run; cbn [trace fst Println emit].
      apply Forall_app; split; [exact Hl|repeat constructor].
    + apply Forall_trace_bind; [|intros _ _; constructor].
      destruct (maybeMissingTRCInGrace w trcs); [|constructor].
      unfold graceGuidance.
      apply Forall_trace_bind; [repeat constructor|intros _ _].
      apply Forall_trace_bind; [rewrite trace_index0; constructor|intros trc _].
      repeat constructor.
Qed.

End Silence.

(** The steps of the command, read backwards from their results. *)
Section Steps.
Import certs.
Variables (w : World) (flags : Flags).

Lemma loadChain_Ok_inv trcs file chain ia :
  outcome (loadChain w trcs file) = Ok (chain, ia) ->
  exists leaf rest,
    ReadPEMCerts w file = Done chain
    /\ VerifyChain w chain trcs = Done tt
    /\ chain = leaf :: rest
    /\ cppki.ExtractIA (x509.Issuer leaf) = Done ia
    /\ trace (loadChain w trcs file) = [EvReadPEMCerts file].
Proof.
  unfold loadChain; rewrite trace_bind, outcome_bind, outcome_call, trace_call.
  destruct (ReadPEMCerts w file) as [chain'|e]; [|discriminate].
  cbn [of_reply].
  destruct (VerifyChain w chain' trcs) as [[]|e] eqn:Hv.
  - destruct chain' as [|leaf rest]; [discriminate|].
    cbn [index0]; rewrite bind_ret.
    destruct (cppki.ExtractIA (x509.Issuer leaf)) as [ia'|e] eqn:Hia; [|discriminate].
    intro H; injection H as <- <-. exists leaf, rest; repeat split; assumption.
  - rewrite outcome_bind.
    destruct (outcome (if maybeMissingTRCInGrace w trcs then _ else _));
      discriminate.
Qed.

Lemma createMessenger_Ok_inv ca local remote :
  outcome (createMessenger w flags ca) = Ok (local, remote) ->
  remote = {| IA := ca; Host := None |}
  /\ exists localIA localIP,
       sciond_LocalIA w = Done localIA
       /\ DefaultLocalIP w = Done localIP
       /\ local = {| IA := localIA;
                     Host := Some (match listen flags with
                                   | Some ip => ip
                                   | None => localIP
                                   end) |}
       /\ trace (createMessenger w flags ca)
          = [EvSciondConnect (sciondAddr flags); EvSciondConnect (sciondAddr flags);
             EvSnetDial local remote].
Proof.
  unfold createMessenger; intro H.
  apply outcome_bind_Ok in H as (loc0 & Hfind & H).
  apply outcome_bind_Ok in H as ([] & Hdial & H).
  simpl in H; injection H as <- <-.
  assert (Hf := Hfind); unfold findLocalAddr in Hf.
  apply outcome_bind_Ok in Hf as ([] & Hc%outcome_call_Ok & Hf).
  apply outcome_bind_Ok in Hf as (localIA & Hia%outcome_ask_Ok & Hf).
  apply outcome_bind_Ok in Hf as (localIP & Hip%outcome_ask_Ok & Hf).
  simpl in Hf; injection Hf as <-.
  assert (Hd := Hdial); unfold buildDialer in Hd.
  apply outcome_bind_Ok in Hd as ([] & _ & Hd).
  apply outcome_wrap_Ok, outcome_call_Ok in Hd.
  split; [reflexivity|].
  exists localIA, localIP; split; [exact Hia|split; [exact Hip|split]].
  - now destruct (listen flags).
  - rewrite (bind_Ok _ _ _ Hfind), (bind_Ok _ _ _ Hdial); cbn [trace fst app].
    unfold findLocalAddr, buildDialer; rewrite Hc, Hia, Hip, Hd.
    reflexivity.
Qed.

Lemma sendRequest_trace dst req :
  trace (sendRequest w dst req) = [EvGrpcDial dst]
  \/ trace (sendRequest w dst req) = [EvGrpcDial dst; EvChainRenewal req; EvConnClose].
Proof.
  unfold sendRequest, defer.
  destruct (grpc_Dial w dst) as [[]|e]; [right|left]; reflexivity.
Qed.

(** What the request holds depends on the features alone: an encoding
    that is disabled is absent, one that is enabled is what the renewal
    package made of the CSR. *)
Lemma createRequest_Ok_inv ft trcs chain local csr req :
  outcome (createRequest w flags ft trcs chain local csr) = Ok req ->
  exists trc rest signer,
    trcs = trc :: rest
    /\ outcome (createSigner w (IA local) trc chain (transportKeyFile flags)) = Ok signer
    /\ (if DisableLegacyRequest ft then SignedRequest req = None
        else exists legacyReq,
            NewLegacyChainRenewalRequest w csr signer = Done legacyReq
            /\ SignedRequest req = SignedRequest legacyReq)
    /\ (if DisableCMSRequest ft then CmsSignedRequest req = None
        else exists cmsReq,
            NewChainRenewalRequest w csr signer = Done cmsReq
            /\ CmsSignedRequest req = CmsSignedRequest cmsReq)
    /\ (reqFile flags <> "" ->
        exists cms,
          CmsSignedRequest req = Some cms
          /\ In (EvWriteFile (reqFile flags)
                   {| Type_ := "CMS"; Bytes := x509.DEROther cms |})
               (trace (createRequest w flags ft trcs chain local csr))).
Proof.
  unfold createRequest; intro H.
  destruct trcs as [|trc rest]; [discriminate|].
  assert (Hi : outcome (index0 (trc :: rest)) = Ok trc) by reflexivity.
  rewrite (bind_Ok _ _ _ Hi); rewrite (bind_Ok _ _ _ Hi) in H.
  cbn [outcome snd trace fst index0 ret app] in *.
  apply outcome_bind_Ok in H as (signer & Hs & H).
  rewrite (bind_Ok _ _ _ Hs).
  apply outcome_bind_Ok in H as (req1 & H1 & H).
  rewrite (bind_Ok _ _ _ H1).
  apply outcome_bind_Ok in H as (req2 & H2 & H).
  rewrite (bind_Ok _ _ _ H2).
  apply outcome_bind_Ok in H as ([] & H3 & H).
  simpl in H; injection H as <-.
  exists trc, rest, signer; split; [reflexivity|split; [exact Hs|]].
  assert (Hr1 : CmsSignedRequest req1 = None
                /\ if DisableLegacyRequest ft then SignedRequest req1 = None
                   else exists legacyReq,
                       NewLegacyChainRenewalRequest w csr signer = Done legacyReq
                       /\ SignedRequest req1 = SignedRequest legacyReq).
  { destruct (DisableLegacyRequest ft).
    - simpl in H1; injection H1 as <-; now split.
    - apply outcome_bind_Ok in H1 as (legacyReq & Hl%outcome_ask_Ok & H1).
      simpl in H1; injection H1 as <-; split; [reflexivity|now exists legacyReq]. }
  destruct Hr1 as (Hc1 & Hl1).
  assert (Hr2 : SignedRequest req2 = SignedRequest req1
                /\ if DisableCMSRequest ft then CmsSignedRequest req2 = None
                   else exists cmsReq,
                       NewChainRenewalRequest w csr signer = Done cmsReq
                       /\ CmsSignedRequest req2 = CmsSignedRequest cmsReq).
  { destruct (DisableCMSRequest ft).
    - simpl in H2; injection H2 as <-; now split.
    - apply outcome_bind_Ok in H2 as (cmsReq & Hc%outcome_ask_Ok & H2).
      simpl in H2; injection H2 as <-; split; [reflexivity|now exists cmsReq]. }
  destruct Hr2 as (Hl2 & Hc2).
  split; [|split; [exact Hc2|]].
  - rewrite Hl2; exact Hl1.
  - intro Hfile; apply String.eqb_neq in Hfile; rewrite Hfile in *.
    destruct (CmsSignedRequest req2) as [cms|]; [|discriminate].
    exists cms; split; [reflexivity|].
    cbn [trace fst].
    apply in_or_app; right; apply in_or_app; right; apply in_or_app; right.
    rewrite trace_bind; apply in_or_app; left.
    unfold tryWriteFile.
    destruct (WriteFile w (reqFile flags) _); simpl; auto.
Qed.

End Steps.

(** The one place of a run where something is transmitted. *)
Section Around.
Import certs.
Variable w : World.
Variable P : addr.IA -> ChainRenewalRequest -> Prop.

Let silent (ev : Event) : Prop := isTransmission ev = false.

Lemma around_app_l pre t :
  Forall silent pre -> around P w t -> around P w (pre ++ t).
Proof.
  intros Hpre [Ht|(p & q & dst & req & HP & -> & Hp & Hq)].
  - left; apply Forall_app; now split.
  - right; exists (pre ++ p), q, dst, req; repeat split; auto.
    + now rewrite app_assoc.
    + apply Forall_app; now split.
Qed.

Lemma around_app_r t post :
  around P w t -> Forall silent post -> around P w (t ++ post).
Proof.
  intros [Ht|(p & q & dst & req & HP & -> & Hp & Hq)] Hpost.
  - left; apply Forall_app; now split.
  - right; exists p, (q ++ post), dst, req; repeat split; auto.
    + now rewrite <- !app_assoc.
    + apply Forall_app; now split.
Qed.

Lemma around_pre {A B} (m : M Event A) (f : A -> M Event B) :
  Forall silent (trace m) ->
  (forall a, outcome m = Ok a -> around P w (trace (f a))) ->
  around P w (trace (bind m f)).
Proof.
  intros Hm Hf; rewrite trace_bind; apply around_app_l; [exact Hm|].
  destruct (outcome m) as [a|e|s]; [now apply Hf|left; constructor..].
Qed.

Lemma around_post {A B} (m : M Event A) (f : A -> M Event B) :
  around P w (trace m) ->
  (forall a, outcome m = Ok a -> Forall silent (trace (f a))) ->
  around P w (trace (bind m f)).
Proof.
  intros Hm Hf; rewrite trace_bind; apply around_app_r; [exact Hm|].
  destruct (outcome m) as [a|e|s]; [now apply Hf|constructor..].
Qed.

Lemma around_send dst req : P dst req -> around P w (trace (sendRequest w dst req)).
Proof.
  intro HP; right; exists [], [], dst, req.
  split; [exact HP|split; [now rewrite app_nil_r|split; constructor]].
Qed.

End Around.

Lemma around_mono (P Q : addr.IA -> certs.ChainRenewalRequest -> Prop) w t :
  (forall dst req, P dst req -> Q dst req) -> certs.around P w t -> certs.around Q w t.
Proof.
  intros HPQ [Ht|(p & q & dst & req & HP & -> & Hp & Hq)]; [now left|right].
  exists p, q, dst, req; repeat split; auto.
Qed.

Lemma network_transmission ev : certs.isNetwork ev = false -> certs.isTransmission ev = false.
Proof. now destruct ev. Qed.

Section Exchange.
Import certs.
Variables (w : World) (flags : Flags).

Let silent (ev : Event) : Prop := isTransmission ev = false.

Lemma request_around ca :
  around (reaches w flags ca) w (trace (request w flags ca)).
Proof.
  unfold request.
  apply around_pre; [constructor|intros ft Hft%outcome_ask_Ok].
  destruct (DisableCMSRequest ft && DisableLegacyRequest ft) eqn:Hboth;
    [left; constructor|].
  apply around_pre; [repeat constructor|intros trcs Htrcs%outcome_call_Ok].
  apply around_pre; [apply silent_loadChain|intros [chain transportCA] Hload].
  set (announce := if addr.IsZero ca then _ else _).
  assert (Hdst : outcome announce = Ok (if addr.IsZero ca then transportCA else ca)
                 /\ Forall silent (trace announce)).
  { subst announce; destruct (addr.IsZero ca); split; repeat constructor. }
  destruct Hdst as (Hdst & Hann).
  apply around_pre; [exact Hann|intros dst Hdst'].
  rewrite Hdst in Hdst'; injection Hdst' as <-.
  apply around_pre; [apply silent_createCSR|intros csr Hcsr].
  apply around_pre; [apply silent_createMessenger|intros [local remote] Hmsg].
  apply around_pre; [apply silent_createRequest|intros req Hreq].
  apply around_post.
  - apply around_send.
    destruct (createMessenger_Ok_inv w flags _ _ _ Hmsg) as (-> & _).
    exists ft, trcs, chain, transportCA, csr, local; repeat split; auto.
  - intros rep _.
    apply Forall_trace_bind; [rewrite trace_extractChain; constructor|].
    intros renewed _; constructor.
Qed.

Lemma RunE_around args :
  around (fun dst req => exists ca,
              outcome (parseRemote args) = Ok ca
              /\ setupTracer w "scion-pki" (tracer flags) = Done tt
              /\ reaches w flags ca dst req)
    w (trace (RunE w flags args)).
Proof.
  unfold RunE.
  apply around_pre; [rewrite trace_parseRemote; constructor|intros ca Hca].
  apply around_pre; [rewrite trace_wrap; repeat constructor|intros [] Hsetup].
  apply outcome_wrap_Ok, outcome_call_Ok in Hsetup.
  unfold defer; cbn [trace fst].
  apply around_app_r; [|repeat constructor].
  unfold renew.
  apply around_post.
  - eapply around_mono; [|apply request_around].
    intros dst req H; now exists ca.
  - intros [trcs renewed] _; cbn [fst snd].
    eapply Forall_impl; [|apply local_verifyAndWrite].
    intros ev; apply network_transmission.
Qed.

End Exchange.

(** Counting the requests of a trace. *)
Lemma requestsSent_app t u :
  certs.requestsSent (t ++ u) = (certs.requestsSent t + certs.requestsSent u)%nat.
Proof. unfold certs.requestsSent; now rewrite filter_app, length_app. Qed.

Lemma requestsSent_silent t :
  Forall (fun ev => certs.isTransmission ev = false) t -> certs.requestsSent t = 0%nat.
Proof.
  unfold certs.requestsSent; induction 1 as [|ev t Hev _ IH]; [reflexivity|].
  cbn [filter]; destruct ev; try discriminate; exact IH.
Qed.

Lemma silent_not_In t ev :
  Forall (fun ev => certs.isTransmission ev = false) t ->
  certs.isTransmission ev = true -> ~ In ev t.
Proof.
  intros Ht Hev Hin; rewrite Forall_forall in Ht.
  specialize (Ht ev Hin); congruence.
Qed.

Section Run.
Import certs.
Variables (w : World) (flags : Flags).

Lemma RunE_run args ca :
  outcome (parseRemote args) = Ok ca ->
  setupTracer w "scion-pki" (tracer flags) = Done tt ->
  RunE w flags args
  = (EvSetupTracer (tracer flags) :: trace (renew w flags ca) ++ [EvCloseTracer],
     outcome (renew w flags ca)).
Proof.
  intros Hca Hs; unfold RunE.
  rewrite (bind_Ok _ _ _ Hca), trace_parseRemote, Hs.
  reflexivity.
Qed.

(** The run through step 3, when each step succeeds. *)
Lemma request_run ca ft trcs chain transportCA csr local req :
  feature_Parse w (features flags) = Done ft ->
  DisableCMSRequest ft && DisableLegacyRequest ft = false ->
  loadTRCs w (trcFiles flags) = Done trcs ->
  outcome (loadChain w trcs (transportCertFile flags)) = Ok (chain, transportCA) ->
  outcome (createCSR w flags chain) = Ok csr ->
  outcome (createMessenger w flags (if addr.IsZero ca then transportCA else ca))
  = Ok (local, {| IA := if addr.IsZero ca then transportCA else ca; Host := None |}) ->
  outcome (createRequest w flags ft trcs chain local csr) = Ok req ->
  exists pre,
    trace (request w flags ca)
    = pre ++ trace (createRequest w flags ft trcs chain local csr)
          ++ trace (sendRequest w (if addr.IsZero ca then transportCA else ca) req)
    /\ outcome (request w flags ca)
       = outcome (rep <- sendRequest w (if addr.IsZero ca then transportCA else ca) req ;;
                  renewed <- extractChain w rep ;;
                  ret (trcs, renewed))%go.
Proof.
  intros Hft Hboth Htrcs Hload Hcsr Hmsg Hreq; unfold request.
  rewrite Hft, bind_Done, Hboth, Htrcs.
  rewrite (bind_call_Done _ _ _ _ eq_refl); cbn [trace fst outcome snd].
  rewrite (bind_Ok _ _ _ Hload); cbn [trace fst outcome snd].
  set (dst := if addr.IsZero ca then transportCA else ca) in *.
  set (announce := if addr.IsZero ca then _ else _).
  assert (Hdst : outcome announce = Ok dst).
  { subst announce dst; now destruct (addr.IsZero ca). }
  rewrite (bind_Ok _ _ _ Hdst); cbn [trace fst outcome snd].
  rewrite (bind_Ok _ _ _ Hcsr); cbn [trace fst outcome snd].
  rewrite (bind_Ok _ _ _ Hmsg); cbn [trace fst outcome snd IA].
  rewrite (bind_Ok _ _ _ Hreq); cbn [trace fst outcome snd].
  eexists; split; [|reflexivity].
  rewrite trace_bind.
  assert (Hnil : match outcome (sendRequest w dst req) with
                 | Ok rep => trace (renewed <- extractChain w rep ;; ret (trcs, renewed))%go
                 | _ => []
                 end = []).
  { destruct (outcome (sendRequest w dst req)); try reflexivity.
    rewrite trace_bind, trace_extractChain.
    now destruct (outcome (extractChain w a)). }
  rewrite Hnil, app_nil_r.
  rewrite !app_comm_cons, !app_assoc. reflexivity.
Qed.

Lemma In_sendRequest_dial dst req d :
  In (EvGrpcDial d) (trace (sendRequest w dst req)) -> d = dst.
Proof.
  destruct (sendRequest_trace w dst req) as [-> | ->]; simpl; intros [H|H];
    try congruence; try contradiction.
  destruct H as [H|[H|H]]; congruence || contradiction.
Qed.

Lemma In_sendRequest_request dst req r :
  In (EvChainRenewal r) (trace (sendRequest w dst req)) -> r = req.
Proof.
  destruct (sendRequest_trace w dst req) as [-> | ->]; simpl; intros [H|H];
    try congruence; try contradiction.
  destruct H as [H|[H|H]]; congruence || contradiction.
Qed.

(** An event that transmits sits in the one exchange of the run. *)
Lemma RunE_transmission args ev :
  isTransmission ev = true ->
  In ev (trace (RunE w flags args)) ->
  exists ca dst req,
    outcome (parseRemote args) = Ok ca
    /\ setupTracer w "scion-pki" (tracer flags) = Done tt
    /\ reaches w flags ca dst req
    /\ In ev (trace (sendRequest w dst req)).
Proof.
  intros Hev Hin.
  destruct (RunE_around w flags args)
    as [Ht|(pre & post & dst & req & (ca & Hca & Hs & Hr) & Heq & Hpre & Hpost)].
  - now apply (silent_not_In _ _ Ht Hev) in Hin.
  - rewrite Heq in Hin; apply in_app_or in Hin as [Hin|Hin];
      [now apply (silent_not_In _ _ Hpre Hev) in Hin|].
    apply in_app_or in Hin as [Hin|Hin];
      [|now apply (silent_not_In _ _ Hpost Hev) in Hin].
    now exists ca, dst, req.
Qed.

End Run.

(** ** The exchange with the CA *)

(** X6. The command calls the renewal service at most once in a run:
    [RunE] itself never repeats an exchange that failed.  (Retries
    within that one call are left to the gRPC retry profile it passes.) *)
Theorem RunE_sends_at_most_one_request (w : certs.World) (flags : certs.Flags)
    (args : list string) :
  (certs.requestsSent (trace (certs.RunE w flags args)) <= 1)%nat.
Proof.
  destruct (RunE_around w flags args)
    as [Ht|(pre & post & dst & req & _ & -> & Hpre & Hpost)].
  - rewrite (requestsSent_silent _ Ht); lia.
  - rewrite !requestsSent_app, (requestsSent_silent _ Hpre),
      (requestsSent_silent _ Hpost).
    destruct (sendRequest_trace w dst req) as [-> | ->]; cbn; lia.
Qed.

(** X7. Whenever the command dials, the transport chain it read has
    verified against the loaded TRCs, and the destination is the
    positional argument when that is a non-zero ISD-AS and otherwise the
    ISD-AS in the issuer of the transport chain's first certificate. *)
Theorem RunE_dials_the_CA (w : certs.World) (flags : certs.Flags)
    (args : list string) (dst : addr.IA) :
  In (certs.EvGrpcDial dst) (trace (certs.RunE w flags args)) ->
  exists ca trcs leaf rest issuer,
    outcome (certs.parseRemote args) = Ok ca
    /\ certs.loadTRCs w (certs.trcFiles flags) = Done trcs
    /\ certs.ReadPEMCerts w (certs.transportCertFile flags) = Done (leaf :: rest)
    /\ certs.VerifyChain w (leaf :: rest) trcs = Done tt
    /\ cppki.ExtractIA (x509.Issuer leaf) = Done issuer
    /\ dst = (if addr.IsZero ca then issuer else ca).
Proof.
  intro Hin.
  destruct (RunE_transmission w flags args (certs.EvGrpcDial dst) eq_refl Hin)
    as (ca & dst' & req & Hca & _ & Hr & Hsend).
  apply In_sendRequest_dial in Hsend as ->.
  destruct Hr as (ft & trcs & chain & tca & csr & local
                  & _ & _ & Htrcs & Hload & -> & _).
  destruct (loadChain_Ok_inv w _ _ _ _ Hload)
    as (leaf & rest & Hread & Hver & -> & Hia & _).
  now exists ca, trcs, leaf, rest, tca.
Qed.

Lemma RunE_dials_the_CA_witness :
  let w := Sample.world [Sample.trc 2 0] Sample.accept Sample.asPrivateKey
             Sample.cmsResponse (Sample.derChain Sample.renewedChain) None in
  let flags := Sample.flags "" "" [] in
  let dst := {| addr.I := 1; addr.A := 0xff0000000110 |} in
  In (certs.EvGrpcDial dst) (trace (certs.RunE w flags []))
  /\ exists ca trcs leaf rest issuer,
      outcome (certs.parseRemote []) = Ok ca
      /\ certs.loadTRCs w (certs.trcFiles flags) = Done trcs
      /\ certs.ReadPEMCerts w (certs.transportCertFile flags) = Done (leaf :: rest)
      /\ certs.VerifyChain w (leaf :: rest) trcs = Done tt
      /\ cppki.ExtractIA (x509.Issuer leaf) = Done issuer
      /\ dst = (if addr.IsZero ca then issuer else ca).
Proof.
  intros w flags dst.
  assert (Hin : In (certs.EvGrpcDial dst) (trace (certs.RunE w flags []))).
  { vm_compute; intuition reflexivity. }
  split; [exact Hin|].
  exact (RunE_dials_the_CA w flags [] dst Hin).
Defined.

Section StepsMore.
Import certs.
Variables (w : World) (flags : Flags).

Lemma createSigner_Ok_inv srcIA trc chain keyFile signer :
  outcome (createSigner w srcIA trc chain keyFile) = Ok signer ->
  exists key leaf rest,
    outcome (readECKey w keyFile) = Ok key
    /\ chain = leaf :: rest
    /\ ts_PrivateKey signer = key
    /\ ts_IA signer = srcIA
    /\ ts_TRCID signer = cppki.ID trc
    /\ ts_SubjectKeyID signer = x509.SubjectKeyId leaf
    /\ ts_Expiration signer = time_Now w + 2 * Hour
    /\ ts_Chain signer = chain.
Proof.
  unfold createSigner; intro H.
  apply outcome_bind_Ok in H as (key & Hkey & H).
  apply outcome_bind_Ok in H as (algo & _ & H).
  apply outcome_bind_Ok in H as (leaf & Hleaf & H).
  destruct chain as [|leaf' rest]; [discriminate|].
  simpl in Hleaf; injection Hleaf as ->.
  simpl in H; injection H as <-.
  now exists key, leaf, rest.
Qed.

Lemma createCSR_Ok_inv chain csr :
  outcome (createCSR w flags chain) = Ok csr ->
  exists key prev rest tmpl,
    outcome (readECKey w (keyFile flags)) = Ok key
    /\ chain = prev :: rest
    /\ outcome (csrTemplate w prev (ec_Public key) (templateFile flags)) = Ok tmpl
    /\ CreateCertificateRequest w tmpl key = Done csr.
Proof.
  unfold createCSR; intro H.
  apply outcome_bind_Ok in H as (key & Hkey & H).
  apply outcome_bind_Ok in H as (prev & Hprev & H).
  destruct chain as [|prev' rest]; [discriminate|].
  simpl in Hprev; injection Hprev as ->.
  apply outcome_bind_Ok in H as (tmpl & Htmpl & H).
  apply outcome_bind_Ok in H as (csr' & Hcsr%outcome_call_Ok & H).
  apply outcome_bind_Ok in H as ([] & _ & H).
  simpl in H; injection H as <-.
  now exists key, prev, rest, tmpl.
Qed.

Lemma extractChain_Ok_valid rep chain :
  outcome (extractChain w rep) = Ok chain -> cppki.ValidateChain chain = Done tt.
Proof.
  destruct (CmsSignedResponse rep) as [|b cms] eqn:Hc.
  - unfold extractChain; rewrite Hc; cbn [length Nat.eqb].
    intros (body & c & c0 & c1 & _ & _ & _ & _ & Hv & ->)%extractChainLegacy_Ok.
    exact Hv.
  - intro H; apply extractChain_CMS_Ok in H as (ci & sd & raw & _ & _ & _ & _ & Hv);
      [exact Hv|rewrite Hc; discriminate].
Qed.

Lemma sendRequest_Ok_inv dst req rep :
  outcome (sendRequest w dst req) = Ok rep ->
  grpc_Dial w dst = Done tt /\ ChainRenewal w req = Done rep.
Proof.
  unfold sendRequest, defer; intro H.
  apply outcome_bind_Ok in H as ([] & Hd%outcome_call_Ok & H).
  cbn [outcome snd] in H; now apply outcome_call_Ok in H.
Qed.

End StepsMore.

(** X8. A request the command sends holds no encoding that the features
    disable: with the legacy request disabled its SignedRequest is
    absent, with the CMS request disabled its CmsSignedRequest is. *)
Theorem RunE_sends_only_enabled_encodings (w : certs.World) (flags : certs.Flags)
    (args : list string) (req : certs.ChainRenewalRequest) :
  In (certs.EvChainRenewal req) (trace (certs.RunE w flags args)) ->
  exists ft,
    certs.feature_Parse w (certs.features flags) = Done ft
    /\ (certs.DisableLegacyRequest ft = true -> certs.SignedRequest req = None)
    /\ (certs.DisableCMSRequest ft = true -> certs.CmsSignedRequest req = None).
Proof.
  intro Hin.
  destruct (RunE_transmission w flags args (certs.EvChainRenewal req) eq_refl Hin)
    as (ca & dst & req' & _ & _ & Hr & Hsend).
  apply In_sendRequest_request in Hsend as ->.
  destruct Hr as (ft & trcs & chain & tca & csr & local
                  & Hft & _ & _ & _ & _ & _ & _ & Hreq).
  destruct (createRequest_Ok_inv w flags _ _ _ _ _ _ Hreq)
    as (trc & rest & signer & _ & _ & Hleg & Hcms & _).
  exists ft; split; [exact Hft|split; intro Hd; rewrite Hd in *; assumption].
Qed.

Lemma RunE_sends_only_enabled_encodings_witness :
  let w := Sample.world [Sample.trc 2 0] Sample.accept Sample.asPrivateKey
             Sample.cmsResponse (Sample.derChain Sample.renewedChain) None in
  let flags := Sample.flags "" "" ["disable_legacy_request"] in
  let req := {| certs.SignedRequest := None;
                certs.CmsSignedRequest := Some [0x30; 0x00] |} in
  In (certs.EvChainRenewal req) (trace (certs.RunE w flags []))
  /\ exists ft,
      certs.feature_Parse w (certs.features flags) = Done ft
      /\ (certs.DisableLegacyRequest ft = true -> certs.SignedRequest req = None)
      /\ (certs.DisableCMSRequest ft = true -> certs.CmsSignedRequest req = None).
Proof.
  intros w flags req.
  assert (Hin : In (certs.EvChainRenewal req) (trace (certs.RunE w flags []))).
  { vm_compute; intuition reflexivity. }
  split; [exact Hin|].
  exact (RunE_sends_only_enabled_encodings w flags [] req Hin).
Defined.

(** X9. A request the command sends was made, in each enabled encoding,
    from the CSR created under the key of the key file and by a signer
    that holds the key of the transport key file, the verified transport
    chain, the ID of the first loaded TRC and the local ISD-AS the SCION
    daemon reported. *)
Theorem RunE_request_provenance (w : certs.World) (flags : certs.Flags)
    (args : list string) (req : certs.ChainRenewalRequest) :
  In (certs.EvChainRenewal req) (trace (certs.RunE w flags args)) ->
  exists ft trc rest chain key tmpl csr localIA signer,
    certs.feature_Parse w (certs.features flags) = Done ft
    /\ certs.loadTRCs w (certs.trcFiles flags) = Done (trc :: rest)
    /\ certs.ReadPEMCerts w (certs.transportCertFile flags) = Done chain
    /\ certs.VerifyChain w chain (trc :: rest) = Done tt
    /\ outcome (certs.readECKey w (certs.keyFile flags)) = Ok key
    /\ certs.CreateCertificateRequest w tmpl key = Done csr
    /\ certs.sciond_LocalIA w = Done localIA
    /\ outcome (certs.readECKey w (certs.transportKeyFile flags))
       = Ok (certs.ts_PrivateKey signer)
    /\ certs.ts_IA signer = localIA
    /\ certs.ts_TRCID signer = cppki.ID trc
    /\ certs.ts_Chain signer = chain
    /\ (certs.DisableLegacyRequest ft = false ->
        exists legacyReq,
          certs.NewLegacyChainRenewalRequest w csr signer = Done legacyReq
          /\ certs.SignedRequest req = certs.SignedRequest legacyReq)
    /\ (certs.DisableCMSRequest ft = false ->
        exists cmsReq,
          certs.NewChainRenewalRequest w csr signer = Done cmsReq
          /\ certs.CmsSignedRequest req = certs.CmsSignedRequest cmsReq).
Proof.
  intro Hin.
  destruct (RunE_transmission w flags args (certs.EvChainRenewal req) eq_refl Hin)
    as (ca & dst & req' & _ & _ & Hr & Hsend).
  apply In_sendRequest_request in Hsend as ->.
  destruct Hr as (ft & trcs & chain & tca & csr & local
                  & Hft & _ & Htrcs & Hload & _ & Hcsr & Hmsg & Hreq).
  destruct (loadChain_Ok_inv w _ _ _ _ Hload)
    as (leaf & tail & Hread & Hver & _ & _ & _).
  destruct (createCSR_Ok_inv w flags _ _ Hcsr)
    as (key & prev & tail' & tmpl & Hkey & _ & _ & Hcreate).
  destruct (createMessenger_Ok_inv w flags _ _ _ Hmsg)
    as (_ & localIA & localIP & Hia & _ & Hlocal & _).
  destruct (createRequest_Ok_inv w flags _ _ _ _ _ _ Hreq)
    as (trc & rest & signer & -> & Hsigner & Hleg & Hcms & _).
  destruct (createSigner_Ok_inv w _ _ _ _ _ Hsigner)
    as (tkey & sleaf & srest & Htkey & _ & Hpk & Hsia & Hid & _ & _ & Hchain).
  exists ft, trc, rest, chain, key, tmpl, csr, localIA, signer.
  repeat (split; [first [assumption|idtac]|]).
  - now rewrite Hpk.
  - rewrite Hsia, Hlocal; reflexivity.
  - intro Hd; now rewrite Hd in Hleg.
  - intro Hd; now rewrite Hd in Hcms.
Qed.

Lemma RunE_request_provenance_witness :
  let w := Sample.world [Sample.trc 2 0] Sample.accept Sample.asPrivateKey
             Sample.cmsResponse (Sample.derChain Sample.renewedChain) None in
  let flags := Sample.flags "" "" [] in
  let req := {| certs.SignedRequest :=
                  Some {| certs.HeaderAndBody := [0x30; 0x00];
                          certs.sm_Signature := [] |};
                certs.CmsSignedRequest := Some [0x30; 0x00] |} in
  In (certs.EvChainRenewal req) (trace (certs.RunE w flags []))
  /\ exists ft trc rest chain key tmpl csr localIA signer,
      certs.feature_Parse w (certs.features flags) = Done ft
      /\ certs.loadTRCs w (certs.trcFiles flags) = Done (trc :: rest)
      /\ certs.ReadPEMCerts w (certs.transportCertFile flags) = Done chain
      /\ certs.VerifyChain w chain (trc :: rest) = Done tt
      /\ outcome (certs.readECKey w (certs.keyFile flags)) = Ok key
      /\ certs.CreateCertificateRequest w tmpl key = Done csr
      /\ certs.sciond_LocalIA w = Done localIA
      /\ outcome (certs.readECKey w (certs.transportKeyFile flags))
         = Ok (certs.ts_PrivateKey signer)
      /\ certs.ts_IA signer = localIA
      /\ certs.ts_TRCID signer = cppki.ID trc
      /\ certs.ts_Chain signer = chain
      /\ (certs.DisableLegacyRequest ft = false ->
          exists legacyReq,
            certs.NewLegacyChainRenewalRequest w csr signer = Done legacyReq
            /\ certs.SignedRequest req = certs.SignedRequest legacyReq)
      /\ (certs.DisableCMSRequest ft = false ->
          exists cmsReq,
            certs.NewChainRenewalRequest w csr signer = Done cmsReq
            /\ certs.CmsSignedRequest req = certs.CmsSignedRequest cmsReq).
Proof.
  intros w flags req.
  assert (Hin : In (certs.EvChainRenewal req) (trace (certs.RunE w flags []))).
  { vm_compute; intuition reflexivity. }
  split; [exact Hin|].
  exact (RunE_request_provenance w flags [] req Hin).
Defined.

(** X10. With --req-out set, a request that is sent carries a CMS
    encoding, and the same run wrote (or tried to write) a PEM block of
    type CMS holding exactly those bytes to that file. *)
Theorem RunE_exported_request_is_the_one_sent (w : certs.World)
    (flags : certs.Flags) (args : list string) (req : certs.ChainRenewalRequest) :
  certs.reqFile flags <> "" ->
  In (certs.EvChainRenewal req) (trace (certs.RunE w flags args)) ->
  exists cms,
    certs.CmsSignedRequest req = Some cms
    /\ In (certs.EvWriteFile (certs.reqFile flags)
             {| certs.Type_ := "CMS"; certs.Bytes := x509.DEROther cms |})
          (trace (certs.RunE w flags args)).
Proof.
  intros Hfile Hin.
  destruct (RunE_transmission w flags args (certs.EvChainRenewal req) eq_refl Hin)
    as (ca & dst & req' & Hca & Hsetup & Hr & Hsend).
  apply In_sendRequest_request in Hsend as ->.
  destruct Hr as (ft & trcs & chain & tca & csr & local
                  & Hft & Hboth & Htrcs & Hload & -> & Hcsr & Hmsg & Hreq).
  destruct (createRequest_Ok_inv w flags _ _ _ _ _ _ Hreq)
    as (trc & rest & signer & _ & _ & _ & _ & Hexp).
  destruct (Hexp Hfile) as (cms & Hcms & Hw).
  exists cms; split; [exact Hcms|].
  rewrite (RunE_run w flags args ca Hca Hsetup); cbn [trace fst].
  right; apply in_or_app; left.
  unfold certs.renew; rewrite trace_bind; apply in_or_app; left.
  destruct (request_run w flags ca ft trcs chain tca csr local req'
              Hft Hboth Htrcs Hload Hcsr Hmsg Hreq) as (pre & -> & _).
  apply in_or_app; right; apply in_or_app; left; exact Hw.
Qed.

Lemma RunE_exported_request_is_the_one_sent_witness :
  let w := Sample.world [Sample.trc 2 0] Sample.accept Sample.asPrivateKey
             Sample.cmsResponse (Sample.derChain Sample.renewedChain) None in
  let flags := Sample.flags "" "/tmp/req.pem" [] in
  let req := {| certs.SignedRequest :=
                  Some {| certs.HeaderAndBody := [0x30; 0x00];
                          certs.sm_Signature := [] |};
                certs.CmsSignedRequest := Some [0x30; 0x00] |} in
  certs.reqFile flags <> ""
  /\ In (certs.EvChainRenewal req) (trace (certs.RunE w flags []))
  /\ exists cms,
      certs.CmsSignedRequest req = Some cms
      /\ In (certs.EvWriteFile (certs.reqFile flags)
               {| certs.Type_ := "CMS"; certs.Bytes := x509.DEROther cms |})
            (trace (certs.RunE w flags [])).
Proof.
  intros w flags req.
  assert (Hfile : certs.reqFile flags <> "") by discriminate.
  assert (Hin : In (certs.EvChainRenewal req) (trace (certs.RunE w flags []))).
  { vm_compute; intuition reflexivity. }
  split; [exact Hfile|split; [exact Hin|]].
  exact (RunE_exported_request_is_the_one_sent w flags [] req Hfile Hin).
Defined.

(** ** Writing the chain *)

Section WriteChain.
Import certs.
Variables (w : World) (file : string).

Let enc (c : x509.Certificate) : Event :=
  EvPemEncode file {| Type_ := "CERTIFICATE"; Bytes := x509.DERCertificate c |}.

Lemma encodeAll_prefix chain :
  (outcome (encodeAll w file chain) = Ok tt
   /\ trace (encodeAll w file chain) = map enc chain)
  \/ exists n e,
      outcome (encodeAll w file chain) = Err e
      /\ trace (encodeAll w file chain) = firstn n (map enc chain).
Proof.
  induction chain as [|c rest IH]; [now left|].
  cbn [encodeAll map].
  destruct (pem_Encode w file
              {| Type_ := "CERTIFICATE"; Bytes := x509.DERCertificate c |})
    as [[]|e] eqn:He.
  - rewrite (bind_call_Done _ _ _ _ eq_refl); cbn [trace fst outcome snd].
    destruct IH as [(Ho & Ht)|(n & e & Ho & Ht)].
    + left; split; [exact Ho|now rewrite Ht].
    + right; exists (S n), e; split; [exact Ho|now rewrite Ht].
  - right; exists 1%nat, e.
    rewrite (bind_call_Failed _ _ _ _ eq_refl); now split.
Qed.

Lemma writeChain_cases chain :
  trace (writeChain w chain file) = EvCreate file :: map enc chain ++ [EvClose file]
  \/ exists n e,
      outcome (writeChain w chain file) = Err e
      /\ trace (writeChain w chain file) = EvCreate file :: firstn n (map enc chain).
Proof.
  unfold writeChain.
  destruct (os_Create w file) as [[]|e] eqn:Hc.
  - rewrite (bind_call_Done _ _ _ _ eq_refl); cbn [trace fst outcome snd].
    destruct (encodeAll_prefix chain) as [(Ho & Ht)|(n & e & Ho & Ht)].
    + left; rewrite (bind_Ok _ _ _ Ho), Ht; reflexivity.
    + right; exists n, e.
      rewrite outcome_bind, trace_bind, Ho, Ht, app_nil_r; now split.
  - right; exists 0%nat, e.
    rewrite (bind_call_Failed _ _ _ _ eq_refl); now split.
Qed.

Lemma writeChain_Ok_trace chain :
  outcome (writeChain w chain file) = Ok tt ->
  trace (writeChain w chain file) = EvCreate file :: map enc chain ++ [EvClose file].
Proof.
  intro Ho; destruct (writeChain_cases chain) as [Ht|(n & e & He & _)];
    [exact Ht|congruence].
Qed.


End WriteChain.


(** ** The run as a whole *)

Section Outcome.
Import certs.
Variables (w : World) (flags : Flags).

Lemma request_Ok_inv ca trcs renewed :
  outcome (request w flags ca) = Ok (trcs, renewed) ->
  exists req rep,
    loadTRCs w (trcFiles flags) = Done trcs
    /\ ChainRenewal w req = Done rep
    /\ outcome (extractChain w rep) = Ok renewed
    /\ In (EvChainRenewal req) (trace (request w flags ca)).
Proof.
  unfold request; intro H.
  apply outcome_bind_Ok in H as (ft & Hft & H); rewrite (bind_Ok _ _ _ Hft).
  destruct (DisableCMSRequest ft && DisableLegacyRequest ft); [discriminate|].
  apply outcome_bind_Ok in H as (trcs' & Htrcs & H); rewrite (bind_Ok _ _ _ Htrcs).
  apply outcome_call_Ok in Htrcs.
  apply outcome_bind_Ok in H as ([chain transportCA] & Hload & H);
    rewrite (bind_Ok _ _ _ Hload).
  apply outcome_bind_Ok in H as (dst & Hdst & H); rewrite (bind_Ok _ _ _ Hdst).
  apply outcome_bind_Ok in H as (csr & Hcsr & H); rewrite (bind_Ok _ _ _ Hcsr).
  apply outcome_bind_Ok in H as ([local remote] & Hmsg & H);
    rewrite (bind_Ok _ _ _ Hmsg).
  apply outcome_bind_Ok in H as (req & Hreq & H); rewrite (bind_Ok _ _ _ Hreq).
  apply outcome_bind_Ok in H as (rep & Hsend & H); rewrite (bind_Ok _ _ _ Hsend).
  apply outcome_bind_Ok in H as (renewed' & Hext & H).
  simpl in H; injection H as <- <-.
  exists req, rep.
  destruct (sendRequest_Ok_inv w _ _ _ Hsend) as (Hdial & Hrep).
  split; [exact Htrcs|split; [exact Hrep|split; [exact Hext|]]].
  cbn [trace fst].
  do 7 (apply in_or_app; right).
  apply in_or_app; left.
  unfold sendRequest, defer; rewrite Hdial; simpl; auto.
Qed.

Lemma verifyAndWrite_Ok_inv trcs renewed :
  outcome (verifyAndWrite w flags trcs renewed) = Ok tt ->
  exists out,
    outcome (outPath flags renewed) = Ok out
    /\ VerifyChain w renewed trcs = Done tt
    /\ outcome (writeChain w renewed out) = Ok tt
    /\ trace (verifyAndWrite w flags trcs renewed)
       = trace (writeChain w renewed out)
           ++ [EvStdout ("Successfully wrote new chain at " ++ out ++ nl)%string].
Proof.
  unfold verifyAndWrite; intro H.
  assert (H' := H); apply outcome_bind_Ok in H' as (out & Hout & H').
  rewrite (bind_Ok _ _ _ Hout), trace_outPath; cbn [trace fst app].
  exists out; split; [exact Hout|].
  destruct (VerifyChain w renewed trcs) as [[]|e].
  - apply outcome_bind_Ok in H' as ([] & Hw & _).
    rewrite (bind_Ok _ _ _ Hw); now repeat split.
  - apply outcome_bind_Ok in H' as (? & _ & H').
    apply outcome_bind_Ok in H' as (? & _ & H').
    apply outcome_bind_Ok in H' as (? & _ & H').
    discriminate.
Qed.

End Outcome.

(** X12. When the command returns without error, it received a reply
    from the CA, the chain extracted from that reply is a valid chain
    that verified against the loaded TRCs, and the run ends with that
    chain written whole to the output path, the file closed, the
    success line printed and the tracer closed. *)
Theorem RunE_success_writes_verified_chain (w : certs.World) (flags : certs.Flags)
    (args : list string) :
  outcome (certs.RunE w flags args) = Ok tt ->
  exists trcs req rep renewed out pre,
    certs.loadTRCs w (certs.trcFiles flags) = Done trcs
    /\ In (certs.EvChainRenewal req) pre
    /\ certs.ChainRenewal w req = Done rep
    /\ outcome (certs.extractChain w rep) = Ok renewed
    /\ cppki.ValidateChain renewed = Done tt
    /\ certs.VerifyChain w renewed trcs = Done tt
    /\ outcome (certs.outPath flags renewed) = Ok out
    /\ trace (certs.RunE w flags args)
       = pre ++ certs.EvCreate out
             :: map (fun c => certs.EvPemEncode out
                                {| certs.Type_ := "CERTIFICATE";
                                   certs.Bytes := x509.DERCertificate c |}) renewed
             ++ [certs.EvClose out;
                 certs.EvStdout ("Successfully wrote new chain at " ++ out ++ nl)%string;
                 certs.EvCloseTracer].
Proof.
  intro H; assert (H' := H); unfold certs.RunE in H'.
  apply outcome_bind_Ok in H' as (ca & Hca & H').
  apply outcome_bind_Ok in H' as ([] & Hsetup & H').
  apply outcome_wrap_Ok, outcome_call_Ok in Hsetup.
  unfold certs.defer in H'; cbn [outcome snd] in H'.
  unfold certs.renew in H'.
  apply outcome_bind_Ok in H' as ([trcs renewed] & Hreq & Hvw); cbn [fst snd] in Hvw.
  destruct (request_Ok_inv w flags ca trcs renewed Hreq)
    as (req & rep & Htrcs & Hrep & Hext & Hsent).
  destruct (verifyAndWrite_Ok_inv w flags trcs renewed Hvw)
    as (out & Hout & Hver & Hw & Ht).
  exists trcs, req, rep, renewed, out,
    (certs.EvSetupTracer (certs.tracer flags) :: trace (certs.request w flags ca)).
  split; [exact Htrcs|split; [now right|split; [exact Hrep|split; [exact Hext|]]]].
  split; [exact (extractChain_Ok_valid w rep renewed Hext)|].
  split; [exact Hver|split; [exact Hout|]].
  rewrite (RunE_run w flags args ca Hca Hsetup); cbn [trace fst].
  unfold certs.renew; rewrite (bind_Ok _ _ _ Hreq); cbn [trace fst snd].
  rewrite Ht, (writeChain_Ok_trace w out renewed Hw).
  repeat first [rewrite <- app_assoc | rewrite <- app_comm_cons].
  reflexivity.
Qed.

Lemma RunE_success_writes_verified_chain_witness :
  let w := Sample.world [Sample.trc 2 0] Sample.accept Sample.asPrivateKey
             Sample.cmsResponse (Sample.derChain Sample.renewedChain) None in
  let flags := Sample.flags "/certs/new.pem" "" [] in
  outcome (certs.RunE w flags []) = Ok tt
  /\ exists trcs req rep renewed out pre,
      certs.loadTRCs w (certs.trcFiles flags) = Done trcs
      /\ In (certs.EvChainRenewal req) pre
      /\ certs.ChainRenewal w req = Done rep
      /\ outcome (certs.extractChain w rep) = Ok renewed
      /\ cppki.ValidateChain renewed = Done tt
      /\ certs.VerifyChain w renewed trcs = Done tt
      /\ outcome (certs.outPath flags renewed) = Ok out
      /\ trace (certs.RunE w flags [])
         = pre ++ certs.EvCreate out
               :: map (fun c => certs.EvPemEncode out
                                  {| certs.Type_ := "CERTIFICATE";
                                     certs.Bytes := x509.DERCertificate c |}) renewed
               ++ [certs.EvClose out;
                   certs.EvStdout ("Successfully wrote new chain at " ++ out ++ nl)%string;
                   certs.EvCloseTracer].
Proof.
  intros w flags.
  assert (Hok : outcome (certs.RunE w flags []) = Ok tt) by (vm_compute; reflexivity).
  split; [exact Hok|].
  exact (RunE_success_writes_verified_chain w flags [] Hok).
Defined.

(** ** Failures before anything is sent *)

(** X13. When the transport chain does not verify against the loaded
    TRCs, the command stops there: it returns the verifier's error
    wrapped in "verification of transport cert failed with provided
    TRC", having read no key file, created no CSR and contacted nobody;
    the two guidance lines are printed exactly when a single TRC in its
    grace period was given. *)
Theorem RunE_transport_chain_rejected (w : certs.World) (flags : certs.Flags)
    (args : list string) (ca : addr.IA) (ft : certs.Features)
    (trcs : list cppki.TRC) (chain : list x509.Certificate) (e : error) :
  outcome (certs.parseRemote args) = Ok ca ->
  certs.setupTracer w "scion-pki" (certs.tracer flags) = Done tt ->
  certs.feature_Parse w (certs.features flags) = Done ft ->
  certs.DisableCMSRequest ft && certs.DisableLegacyRequest ft = false ->
  certs.loadTRCs w (certs.trcFiles flags) = Done trcs ->
  certs.ReadPEMCerts w (certs.transportCertFile flags) = Done chain ->
  certs.VerifyChain w chain trcs = Failed e ->
  certs.RunE w flags args
  = (certs.EvSetupTracer (certs.tracer flags)
       :: certs.EvLoadTRCs (certs.trcFiles flags)
       :: certs.EvReadPEMCerts (certs.transportCertFile flags)
       :: (if certs.maybeMissingTRCInGrace w trcs
           then trace (certs.graceGuidance
                  "Verification failed, but current time still in Grace Period of latest TRC"
                  trcs)
           else [])
       ++ [certs.EvCloseTracer],
     Err (WrapStr "verification of transport cert failed with provided TRC" e)).
Proof.
  intros Hca Hsetup Hft Hboth Htrcs Hread Hver.
  rewrite (RunE_run w flags args ca Hca Hsetup).
  unfold certs.renew, certs.request.
  rewrite Hft, bind_Done, Hboth, Htrcs.
  rewrite (bind_call_Done _ _ _ _ eq_refl); cbn [trace fst outcome snd].
  unfold certs.loadChain.
  rewrite Hread, (bind_call_Done _ _ _ _ eq_refl), Hver; cbn [trace fst outcome snd].
  destruct (certs.maybeMissingTRCInGrace w trcs) eqn:Hg.
  - destruct trcs as [|trc [|trc' rest]]; try discriminate.
    reflexivity.
  - reflexivity.
Qed.

Lemma RunE_transport_chain_rejected_witness :
  let w := Sample.world [Sample.trc 2 (30 * Sample.day)]
             (fun _ => Failed (New "chain does not verify against the TRC"))
             Sample.asPrivateKey Sample.cmsResponse
             (Sample.derChain Sample.renewedChain) None in
  let flags := Sample.flags "" "" [] in
  certs.maybeMissingTRCInGrace w [Sample.trc 2 (30 * Sample.day)] = true
  /\ certs.RunE w flags []
     = (certs.EvSetupTracer (certs.tracer flags)
          :: certs.EvLoadTRCs (certs.trcFiles flags)
          :: certs.EvReadPEMCerts (certs.transportCertFile flags)
          :: (if certs.maybeMissingTRCInGrace w [Sample.trc 2 (30 * Sample.day)]
              then trace (certs.graceGuidance
                     "Verification failed, but current time still in Grace Period of latest TRC"
                     [Sample.trc 2 (30 * Sample.day)])
              else [])
          ++ [certs.EvCloseTracer],
        Err (WrapStr "verification of transport cert failed with provided TRC"
               (New "chain does not verify against the TRC"))).
Proof.
  intros w flags; split; [vm_compute; reflexivity|].
  apply (RunE_transport_chain_rejected w flags [] certs.zeroIA
           {| certs.DisableLegacyRequest := false; certs.DisableCMSRequest := false |}
           [Sample.trc 2 (30 * Sample.day)] Sample.transportChain
           (New "chain does not verify against the TRC"));
    reflexivity.
Defined.

(** X14. A key file that reads but holds no PEM block crashes the
    command: after the transport chain verified, the run panics on the
    nil block returned by pem.Decode, right after reading the key file;
    no CSR was created and nobody contacted, and the tracer is still
    closed. *)
Theorem RunE_key_file_without_PEM_block_panics (w : certs.World)
    (flags : certs.Flags) (args : list string) (ca transportCA : addr.IA)
    (ft : certs.Features) (trcs : list cppki.TRC) (chain : list x509.Certificate)
    (raw : bytes) :
  outcome (certs.parseRemote args) = Ok ca ->
  certs.setupTracer w "scion-pki" (certs.tracer flags) = Done tt ->
  certs.feature_Parse w (certs.features flags) = Done ft ->
  certs.DisableCMSRequest ft && certs.DisableLegacyRequest ft = false ->
  certs.loadTRCs w (certs.trcFiles flags) = Done trcs ->
  outcome (certs.loadChain w trcs (certs.transportCertFile flags))
  = Ok (chain, transportCA) ->
  certs.ReadFile w (certs.keyFile flags) = Done raw ->
  certs.pem_Decode w raw = None ->
  certs.RunE w flags args
  = (certs.EvSetupTracer (certs.tracer flags)
       :: certs.EvLoadTRCs (certs.trcFiles flags)
       :: certs.EvReadPEMCerts (certs.transportCertFile flags)
       :: (if addr.IsZero ca
           then trace (certs.Println
                         ["Extracted remote from transport certificate chain: ";
                          addr.IA_String transportCA])
           else [])
       ++ [certs.EvReadFile (certs.keyFile flags); certs.EvCloseTracer],
     Panic "invalid memory address or nil pointer dereference").
Proof.
  intros Hca Hsetup Hft Hboth Htrcs Hload Hread Hpem.
  rewrite (RunE_run w flags args ca Hca Hsetup).
  unfold certs.renew, certs.request.
  rewrite Hft, bind_Done, Hboth, Htrcs.
  rewrite (bind_call_Done _ _ _ _ eq_refl); cbn [trace fst outcome snd].
  destruct (loadChain_Ok_inv w _ _ _ _ Hload) as (leaf & rest & _ & _ & _ & _ & Ht).
  rewrite (bind_Ok _ _ _ Hload), Ht; cbn [trace fst outcome snd].
  unfold certs.createCSR, certs.readECKey.
  rewrite Hread.
  destruct (addr.IsZero ca); cbn [certs.Println emit bind ret];
    rewrite (bind_call_Done _ _ _ _ eq_refl), Hpem; reflexivity.
Qed.

Lemma RunE_key_file_without_PEM_block_panics_witness :
  let w := Sample.withFiles (fun _ => None)
             (Failed (Foreign "unexpected end of JSON input"))
             (Sample.world [Sample.trc 2 0] Sample.accept Sample.asPrivateKey
                Sample.cmsResponse (Sample.derChain Sample.renewedChain) None) in
  let flags := Sample.flags "" "" [] in
  outcome (certs.RunE w flags []) = Panic "invalid memory address or nil pointer dereference"
  /\ Forall (fun ev => certs.isNetwork ev = false) (trace (certs.RunE w flags [])).
Proof.
  intros w flags.
  assert (Hrun := RunE_key_file_without_PEM_block_panics w flags [] certs.zeroIA
                    {| addr.I := 1; addr.A := 0xff0000000110 |}
                    {| certs.DisableLegacyRequest := false;
                       certs.DisableCMSRequest := false |}
                    [Sample.trc 2 0] Sample.transportChain [0x2d; 0x2d; 0x2d]
                    eq_refl eq_refl eq_refl eq_refl eq_refl).
  assert (Hload : outcome (certs.loadChain w [Sample.trc 2 0]
                             (certs.transportCertFile flags))
                  = Ok (Sample.transportChain,
                        {| addr.I := 1; addr.A := 0xff0000000110 |}))
    by (vm_compute; reflexivity).
  specialize (Hrun Hload eq_refl eq_refl).
  rewrite Hrun; split; [reflexivity|].
  repeat constructor.
Defined.

(** ** The CSR template *)

Section Template.
Import certs.
Variable w : World.

Lemma buildExtensions_Ok_inv pub exts :
  outcome (buildExtensions w pub) = Ok exts ->
  exists skid,
    cppki.SubjectKeyID pub = Ok skid
    /\ exts = [keyUsage; extKeyUsage w;
               {| pkix.Id := cppki.OIDExtensionSubjectKeyID;
                  pkix.Critical := false;
                  pkix.Value_ := asn1_Marshal_bytes skid |}].
Proof.
  unfold buildExtensions, subjectKeyID.
  destruct (cppki.SubjectKeyID pub) as [skid|e|s]; try discriminate.
  intro H; injection H as <-; now exists skid.
Qed.

Lemma csrTemplate_Ok_inv prev pub tmpl t :
  outcome (csrTemplate w prev pub tmpl) = Ok t ->
  outcome (if String.eqb tmpl ""
           then ret (E := Event)
                  (pkix.with_ExtraNames (x509.Subject prev)
                     (pkix.Names (x509.Subject prev)))
           else subjectFromTemplate w tmpl) = Ok (x509.csr_Subject t)
  /\ outcome (buildExtensions w pub) = Ok (x509.csr_ExtraExtensions t)
  /\ x509.csr_Extensions t = [].
Proof.
  unfold csrTemplate; intro H.
  apply outcome_bind_Ok in H as (s & Hs & H).
  apply outcome_bind_Ok in H as (exts & Hexts%outcome_wrap_Ok & H).
  simpl in H; injection H as <-; now repeat split.
Qed.

Lemma SubjectKeyID_length pub skid :
  cppki.SubjectKeyID pub = Ok skid -> length skid = 20%nat.
Proof.
  unfold cppki.SubjectKeyID; destruct pub; try discriminate.
  destruct (elliptic_Marshal _ _ _) as [m|e|s]; try discriminate.
  intro H; injection H as <-; apply sha1_Sum_length.
Qed.

End Template.

(** X15. The client and the CA agree on the key identifier: the
    SubjectKeyID extension that [csrTemplate] requests for a key is the
    DER octet string (tag 4, length 20) of the identifier that
    [CreateChain] puts into the leaf it issues for a request with that
    key; it follows the key usage and the extended key usage
    extensions. *)
Theorem csrTemplate_requests_the_issued_key_identifier
    (w : certs.World) (prev : x509.Certificate) (pub : PublicKey) (tmpl : string)
    (t : x509.CertificateRequest)
    (cw : cppki.World) (ca : cppki.CAPolicy.t) (csr : x509.CertificateRequest)
    (leaf : x509.Certificate) (rest : list x509.Certificate) :
  outcome (certs.csrTemplate w prev pub tmpl) = Ok t ->
  x509.csr_PublicKey csr = pub ->
  outcome (cppki.CAPolicy.CreateChain cw ca csr) = Ok (leaf :: rest) ->
  x509.csr_ExtraExtensions t
  = [certs.keyUsage; certs.extKeyUsage w;
     {| pkix.Id := [2; 5; 29; 14];
        pkix.Critical := false;
        pkix.Value_ := 4 :: 20 :: x509.SubjectKeyId leaf |}]
  /\ length (x509.SubjectKeyId leaf) = 20%nat.
Proof.
  intros Ht Hpub Hchain.
  apply csrTemplate_Ok_inv in Ht as (_ & Hexts & _).
  apply buildExtensions_Ok_inv in Hexts as (skid & Hskid & ->).
  apply CreateChain_Ok_inv in Hchain
    as (serial & skid' & leaf' & _ & _ & Hskid' & Hc & _ & Heq).
  injection Heq as -> ->.
  apply CreateCertificate_template_inv in Hc as (_ & _ & _ & Hk & _).
  rewrite Hpub, Hskid in Hskid'; injection Hskid' as <-.
  pose proof (SubjectKeyID_length _ _ Hskid) as Hlen.
  rewrite Hk; split; [|exact Hlen].
  unfold certs.asn1_Marshal_bytes, certs.asn1_length; rewrite Hlen; reflexivity.
Qed.

Lemma csrTemplate_requests_the_issued_key_identifier_witness :
  let w := Sample.world [Sample.trc 2 0] Sample.accept Sample.asPrivateKey
             Sample.cmsResponse (Sample.derChain Sample.renewedChain) None in
  exists t leaf rest,
    outcome (certs.csrTemplate w Sample.caCert Sample.asKey "") = Ok t
    /\ outcome (cppki.CAPolicy.CreateChain Sample.issuingWorld
                  (Sample.policy (3 * Sample.day)) Sample.csr) = Ok (leaf :: rest)
    /\ x509.csr_ExtraExtensions t
       = [certs.keyUsage; certs.extKeyUsage w;
          {| pkix.Id := [2; 5; 29; 14];
             pkix.Critical := false;
             pkix.Value_ := 4 :: 20 :: x509.SubjectKeyId leaf |}]
    /\ length (x509.SubjectKeyId leaf) = 20%nat.
Proof.
  intro w.
  destruct (outcome (certs.csrTemplate w Sample.caCert Sample.asKey ""))
    as [t| |] eqn:Ht; [|vm_compute in Ht; discriminate..].
  destruct (outcome (cppki.CAPolicy.CreateChain Sample.issuingWorld
                       (Sample.policy (3 * Sample.day)) Sample.csr))
    as [[|leaf rest]| |] eqn:Hc; [vm_compute in Hc; discriminate| |vm_compute in Hc; discriminate..].
  exists t, leaf, rest; split; [reflexivity|split; [reflexivity|]].
  exact (csrTemplate_requests_the_issued_key_identifier w Sample.caCert Sample.asKey ""
           t Sample.issuingWorld (Sample.policy (3 * Sample.day)) Sample.csr leaf rest
           Ht eq_refl Hc).
Defined.

(** X16. With a template file, the subject of the CSR is made of the
    template's variables alone: the ISD-AS, which must not be zero, is
    its only extra name, each list-valued field holds its variable
    unless that is empty, it has no parsed names, and the previous
    certificate has no influence on the template that is built. *)
Theorem csrTemplate_subject_from_template (w : certs.World)
    (prev : x509.Certificate) (pub : PublicKey) (tmpl : string)
    (t : x509.CertificateRequest) :
  tmpl <> "" ->
  outcome (certs.csrTemplate w prev pub tmpl) = Ok t ->
  (exists raw vars,
      certs.ReadFile w tmpl = Done raw
      /\ certs.json_Unmarshal w raw = Done vars
      /\ addr.IsZero (certs.ISDAS vars) = false
      /\ pkix.CommonName (x509.csr_Subject t) = certs.CommonName vars
      /\ pkix.SerialNumber (x509.csr_Subject t) = certs.SerialNumber vars
      /\ pkix.Country (x509.csr_Subject t) = certs.fieldOf (certs.Country vars)
      /\ pkix.Organization (x509.csr_Subject t)
         = certs.fieldOf (certs.Organization vars)
      /\ pkix.OrganizationalUnit (x509.csr_Subject t)
         = certs.fieldOf (certs.OrganizationalUnit vars)
      /\ pkix.Locality (x509.csr_Subject t) = certs.fieldOf (certs.Locality vars)
      /\ pkix.Province (x509.csr_Subject t) = certs.fieldOf (certs.Province vars)
      /\ pkix.StreetAddress (x509.csr_Subject t)
         = certs.fieldOf (certs.StreetAddress vars)
      /\ pkix.PostalCode (x509.csr_Subject t)
         = certs.fieldOf (certs.PostalCode vars)
      /\ pkix.Names (x509.csr_Subject t) = []
      /\ pkix.ExtraNames (x509.csr_Subject t)
         = [ {| pkix.Type_ := cppki.OIDNameIA;
                pkix.Value := addr.IA_String (certs.ISDAS vars) |} ])
  /\ forall prev', certs.csrTemplate w prev' pub tmpl = certs.csrTemplate w prev pub tmpl.
Proof.
  intros Hne Ht; apply String.eqb_neq in Hne; split.
  - apply csrTemplate_Ok_inv in Ht as (Hs & _); rewrite Hne in Hs.
    unfold certs.subjectFromTemplate in Hs.
    apply outcome_bind_Ok in Hs as (vars & Hvars%outcome_wrap_Ok & Hs).
    unfold certs.readVars in Hvars.
    apply outcome_bind_Ok in Hvars as (raw & Hraw%outcome_call_Ok & Hvars%outcome_ask_Ok).
    apply outcome_ask_Ok in Hs; unfold certs.subjectFromVars in Hs.
    destruct (addr.IsZero (certs.ISDAS vars)) eqn:Hz; [discriminate|].
    injection Hs as Hs; rewrite <- Hs.
    exists raw, vars; now repeat split.
  - intro prev'; unfold certs.csrTemplate; now rewrite Hne.
Qed.

Lemma csrTemplate_subject_from_template_witness :
  let vars := {| certs.CommonName := "1-ff00:0:111 AS Certificate";
                 certs.Country := "CH";
                 certs.ISDAS := {| addr.I := 1; addr.A := 0xff0000000111 |};
                 certs.Locality := "";
                 certs.Organization := "";
                 certs.OrganizationalUnit := "";
                 certs.PostalCode := "";
                 certs.Province := "";
                 certs.SerialNumber := "";
                 certs.StreetAddress := "" |} in
  let w := Sample.withFiles
             (fun raw => Some {| certs.Type_ := "PRIVATE KEY";
                                 certs.Bytes := x509.DEROther raw |})
             (Done vars)
             (Sample.world [Sample.trc 2 0] Sample.accept Sample.asPrivateKey
                Sample.cmsResponse (Sample.derChain Sample.renewedChain) None) in
  exists t,
    outcome (certs.csrTemplate w Sample.caCert Sample.asKey "/certs/subject.json") = Ok t
    /\ pkix.Country (x509.csr_Subject t) = ["CH"]
    /\ pkix.Organization (x509.csr_Subject t) = []
    /\ pkix.Names (x509.csr_Subject t) = [].
Proof.
  intros vars w.
  destruct (outcome (certs.csrTemplate w Sample.caCert Sample.asKey "/certs/subject.json"))
    as [t| |] eqn:Ht; [|vm_compute in Ht; discriminate..].
  assert (Hne : "/certs/subject.json" <> "") by discriminate.
  destruct (csrTemplate_subject_from_template w Sample.caCert Sample.asKey
              "/certs/subject.json" t Hne Ht)
    as ((raw & vars' & _ & Hvars & _ & _ & _ & Hc & Ho & _ & _ & _ & _ & _ & Hn & _) & _).
  injection Hvars as <-.
  exists t; split; [reflexivity|split; [exact Hc|split; [exact Ho|exact Hn]]].
Defined.

(** X17. The messenger of step 2: the local address is the ISD-AS the
    SCION daemon reports with the default local IP, the IP being
    replaced by --local when that is given; the remote address is the
    CA's ISD-AS without a host; and the daemon is connected to twice
    before the one dial. *)
Theorem createMessenger_addresses (w : certs.World) (flags : certs.Flags)
    (ca : addr.IA) (local remote : certs.UDPAddr) :
  outcome (certs.createMessenger w flags ca) = Ok (local, remote) ->
  exists localIA localIP,
    certs.sciond_LocalIA w = Done localIA
    /\ certs.DefaultLocalIP w = Done localIP
    /\ certs.IA local = localIA
    /\ certs.Host local = Some (match certs.listen flags with
                                | Some ip => ip
                                | None => localIP
                                end)
    /\ remote = {| certs.IA := ca; certs.Host := None |}
    /\ trace (certs.createMessenger w flags ca)
       = [certs.EvSciondConnect (certs.sciondAddr flags);
          certs.EvSciondConnect (certs.sciondAddr flags);
          certs.EvSnetDial local remote].
Proof.
  intro H.
  destruct (createMessenger_Ok_inv w flags ca local remote H)
    as (Hr & localIA & localIP & Hia & Hip & Hl & Ht).
  exists localIA, localIP; rewrite Hl at 1 2; now repeat split.
Qed.

Lemma createMessenger_addresses_witness :
  let w := Sample.world [Sample.trc 2 0] Sample.accept Sample.asPrivateKey
             Sample.cmsResponse (Sample.derChain Sample.renewedChain) None in
  let flags := {| certs.keyFile := "/certs/cp-as.key";
                  certs.outFile := "";
                  certs.csrFile := "";
                  certs.reqFile := "";
                  certs.templateFile := "";
                  certs.transportCertFile := "/certs/old.pem";
                  certs.transportKeyFile := "/certs/cp-as.key";
                  certs.trcFiles := ["/certs/ISD1-B1-S2.trc"];
                  certs.dispatcherPath := "/run/shm/dispatcher/default.sock";
                  certs.sciondAddr := "127.0.0.1:30255";
                  certs.listen := Some [10; 0; 0; 7];
                  certs.timeout := 5 * Sample.second;
                  certs.features := [];
                  certs.tracer := "" |} in
  let ca := {| addr.I := 1; addr.A := 0xff0000000110 |} in
  exists local remote,
    outcome (certs.createMessenger w flags ca) = Ok (local, remote)
    /\ certs.Host local = Some [10; 0; 0; 7]
    /\ certs.IA local = {| addr.I := 1; addr.A := 0xff0000000111 |}
    /\ remote = {| certs.IA := ca; certs.Host := None |}.
Proof.
  intros w flags ca.
  destruct (outcome (certs.createMessenger w flags ca))
    as [[local remote]| |] eqn:H; [|vm_compute in H; discriminate..].
  destruct (createMessenger_addresses w flags ca local remote H)
    as (localIA & localIP & Hia & _ & Hl & Hh & Hr & _).
  injection Hia as <-.
  exists local, remote; split; [reflexivity|split; [exact Hh|split; [exact Hl|exact Hr]]].
Defined.

(** ** The tracer *)

Section Tracer.
Import certs.
Variables (w : World) (flags : Flags).

Let calm (ev : Event) : Prop := isTracer ev = false.

Lemma calm_readECKey file : Forall calm (trace (readECKey w file)).
Proof. unfold readECKey; quiet. Qed.

Lemma calm_tryWriteFile file block : Forall calm (trace (tryWriteFile w file block)).
Proof. unfold tryWriteFile; quiet. Qed.

#[local] Hint Resolve calm_readECKey calm_tryWriteFile : quiet.

Lemma calm_createCSR chain : Forall calm (trace (createCSR w flags chain)).
Proof.
  unfold createCSR, csrTemplate, subjectFromTemplate, readVars, buildExtensions; quiet.
Qed.

Lemma calm_createMessenger ca : Forall calm (trace (createMessenger w flags ca)).
Proof. unfold createMessenger, findLocalAddr, buildDialer; quiet. Qed.

Lemma calm_createRequest ft trcs chain local csr :
  Forall calm (trace (createRequest w flags ft trcs chain local csr)).
Proof. unfold createRequest, createSigner; quiet. Qed.

Lemma calm_loadChain trcs file : Forall calm (trace (loadChain w trcs file)).
Proof. unfold loadChain, graceGuidance; quiet. Qed.

Lemma calm_sendRequest dst req : Forall calm (trace (sendRequest w dst req)).
Proof.
  destruct (sendRequest_trace w dst req) as [-> | ->]; repeat constructor.
Qed.

Lemma calm_writeChain chain file : Forall calm (trace (writeChain w chain file)).
Proof.
  eapply Forall_impl; [|apply writeChain_events].
  intros ev [->|[(block & ->)| ->]]; reflexivity.
Qed.

Lemma calm_verifyAndWrite trcs renewed :
  Forall calm (trace (verifyAndWrite w flags trcs renewed)).
Proof.
  unfold verifyAndWrite.
  apply Forall_trace_bind; [rewrite trace_outPath; constructor|intros out _].
  destruct (VerifyChain w renewed trcs) as [[]|e].
  - apply Forall_trace_bind; [apply calm_writeChain|intros _ _].
    repeat constructor.
  - apply Forall_trace_bind; [repeat constructor|intros _ _].
    apply Forall_trace_bind; [|intros _ _].
    + unfold onError.
      destruct (writeChain w renewed (out ++ ".unverified")) as [t [[]|e'|s]] eqn:Hw;
        pose proof (calm_writeChain renewed (out ++ ".unverified")) as Hl;
        rewrite Hw in Hl; cbn [trace fst] in Hl; try exact Hl.
      rewrite bind_run; cbn [trace fst Println emit].
      apply Forall_app; split; [exact Hl|repeat constructor].
    + apply Forall_trace_bind; [|intros _ _; constructor].
      destruct (maybeMissingTRCInGrace w trcs); [|constructor].
      unfold graceGuidance.
      apply Forall_trace_bind; [repeat constructor|intros _ _].
      apply Forall_trace_bind; [rewrite trace_index0; constructor|intros trc _].
      repeat constructor.
Qed.

#[local] Hint Resolve calm_createCSR calm_createMessenger calm_createRequest
  calm_loadChain calm_sendRequest calm_verifyAndWrite : quiet.


End Tracer.


(** ** What is written to the output path *)


Section Created.
Import certs.
Variables (w : World) (flags : Flags).

Let plain (ev : Event) : Prop := forall file, ev <> EvCreate file.

Ltac plain := repeat (quiet_step ltac:(intros ?; discriminate)).

Lemma plain_readECKey file : Forall plain (trace (readECKey w file)).
Proof. unfold readECKey; plain. Qed.

Lemma plain_tryWriteFile file block : Forall plain (trace (tryWriteFile w file block)).
Proof. unfold tryWriteFile; plain. Qed.

#[local] Hint Resolve plain_readECKey plain_tryWriteFile : quiet.

Lemma plain_createCSR chain : Forall plain (trace (createCSR w flags chain)).
Proof.
  unfold createCSR, csrTemplate, subjectFromTemplate, readVars, buildExtensions; plain.
Qed.

Lemma plain_createMessenger ca : Forall plain (trace (createMessenger w flags ca)).
Proof. unfold createMessenger, findLocalAddr, buildDialer; plain. Qed.

Lemma plain_createRequest ft trcs chain local csr :
  Forall plain (trace (createRequest w flags ft trcs chain local csr)).
Proof. unfold createRequest, createSigner; plain. Qed.

Lemma plain_loadChain trcs file : Forall plain (trace (loadChain w trcs file)).
Proof. unfold loadChain, graceGuidance; plain. Qed.

Lemma plain_sendRequest dst req : Forall plain (trace (sendRequest w dst req)).
Proof.
  destruct (sendRequest_trace w dst req) as [-> | ->];
    repeat (apply Forall_cons; [intros ?; discriminate|]); constructor.
Qed.

#[local] Hint Resolve plain_createCSR plain_createMessenger plain_createRequest
  plain_loadChain plain_sendRequest : quiet.





End Created.



(** ** The CA and the client *)

Lemma ParseCertificates_DER chain :
  certs.ParseCertificates (map x509.DERCertificate chain) = Done chain.
Proof.
  induction chain as [|c rest IH]; [reflexivity|].
  cbn [map certs.ParseCertificates x509.ParseCertificate]; now rewrite IH.
Qed.

(** X21. A chain that [CreateChain] issues is one the client accepts:
    when the reply carries the DER encodings of the issued certificates,
    in a CMS envelope or in the legacy chain message, [extractChain]
    returns exactly the issued chain. *)
Theorem issued_chain_is_extracted (cw : cppki.World) (ca : cppki.CAPolicy.t)
    (csr : x509.CertificateRequest) (leaf caCert : x509.Certificate)
    (w : certs.World) (rep : certs.ChainRenewalResponse) :
  outcome (cppki.CAPolicy.CreateChain cw ca csr) = Ok [leaf; caCert] ->
  (certs.CmsSignedResponse rep <> []
   /\ exists ci sd,
       certs.ParseContentInfo w (certs.CmsSignedResponse rep) = Done ci
       /\ certs.SignedDataContent w ci = Done sd
       /\ certs.DataEContent w sd
          = Done [x509.DERCertificate leaf; x509.DERCertificate caCert])
  \/ (certs.CmsSignedResponse rep = []
      /\ exists body,
          certs.ExtractUnverifiedBody w (certs.SignedResponse rep) = Done body
          /\ certs.proto_Unmarshal w body
             = Done {| certs.Chain_ :=
                         Some {| certs.AsCert := x509.DERCertificate leaf;
                                 certs.CaCert := x509.DERCertificate caCert |} |}) ->
  outcome (certs.extractChain w rep) = Ok [leaf; caCert].
Proof.
  intros Hc Hrep.
  apply CreateChain_Ok_inv in Hc as (serial & skid & leaf' & _ & _ & _ & _ & Hv & Heq).
  injection Heq as -> ->.
  destruct Hrep as [(Hne & ci & sd & Hci & Hsd & Hraw)|(Hnil & body & Hb & Hu)].
  - apply extractChain_CMS_Ok; [exact Hne|].
    exists ci, sd, [x509.DERCertificate leaf'; x509.DERCertificate (cppki.CAPolicy.Certificate ca)].
    split; [exact Hci|split; [exact Hsd|split; [exact Hraw|split; [|exact Hv]]]].
    exact (ParseCertificates_DER [leaf'; cppki.CAPolicy.Certificate ca]).
  - unfold certs.extractChain; rewrite Hnil; cbn [length Nat.eqb].
    apply extractChainLegacy_Ok.
    exists body, {| certs.AsCert := x509.DERCertificate leaf';
                    certs.CaCert := x509.DERCertificate (cppki.CAPolicy.Certificate ca) |},
      leaf', (cppki.CAPolicy.Certificate ca).
    repeat split; assumption.
Qed.

Lemma issued_chain_is_extracted_witness :
  let w := Sample.world [Sample.trc 2 0] Sample.accept Sample.asPrivateKey
             Sample.cmsResponse (Sample.derChain Sample.renewedChain) None in
  exists leaf,
    outcome (cppki.CAPolicy.CreateChain Sample.issuingWorld
               (Sample.policy (3 * Sample.day)) Sample.csr) = Ok [leaf; Sample.caCert]
    /\ outcome (certs.extractChain w Sample.cmsResponse) = Ok [leaf; Sample.caCert].
Proof.
  intro w.
  destruct (outcome (cppki.CAPolicy.CreateChain Sample.issuingWorld
                       (Sample.policy (3 * Sample.day)) Sample.csr))
    as [[|leaf [|c [|x rest]]]| |] eqn:Hc; try (vm_compute in Hc; discriminate).
  assert (Hca : c = Sample.caCert).
  { apply CreateChain_Ok_inv in Hc as (? & ? & ? & _ & _ & _ & _ & _ & Heq).
    now injection Heq as _ ->. }
  subst c; exists leaf; split; [reflexivity|].
  apply (issued_chain_is_extracted Sample.issuingWorld (Sample.policy (3 * Sample.day))
           Sample.csr leaf Sample.caCert w Sample.cmsResponse Hc).
  left; split; [discriminate|].
  eexists _, _; split; [reflexivity|split; [reflexivity|]].
  cbn [certs.DataEContent w Sample.world]; unfold Sample.derChain, Sample.renewedChain,
    Sample.issued.
  change {| cppki.time_Now := Sample.t0 + 10 * Sample.day;
            cppki.rand_Read := fun n => Done (repeat 92 n) |}
    with Sample.issuingWorld.
  now rewrite Hc.
Defined.
